(** * GPyTorch_HPC_Tutorial.ipynb: a shallow embedding of the notebook

    The notebook is a linear Python script.  Its own code is array glue
    (NumPy slicing, [swapaxes], [reshape], broadcasting) around calls into
    torch, gpytorch and matplotlib.  The development has three layers:

    - [Np]: the NumPy operations the notebook uses, on arrays given by a
      shape and an index function, with NumPy's row-major (C order)
      flattening and NumPy's exceptions;
    - the data preparation of each cell as pure, fallible functions of the
      two loaded arrays;
    - the cells themselves in a state-and-exception monad that threads the
      file system, the state of the external libraries and the trace of the
      observable events of an execution. *)

From Stdlib Require Import ZArith Lia PrimFloat Uint63.
From stdpp Require Import base list strings gmap.

Set Default Proof Using "Type".
Set Warnings "-inexact-float".

(** ** Python exceptions *)

Inductive exn :=
| IndexError
| ValueError
| AxisError
| FileNotFoundError (path : string)
| LibraryError (code : nat).

Inductive result (A : Type) :=
| Ok (a : A)
| Raise (e : exn).
Arguments Ok {A} a.
Arguments Raise {A} e.

#[global] Instance result_ret : MRet result := @Ok.
#[global] Instance result_bind : MBind result := λ A B f m,
  match m with
  | Ok a => f a
  | Raise e => Raise e
  end.

#[global] Instance result_fmap : FMap result := λ A B f m,
  match m with
  | Ok a => Ok (f a)
  | Raise e => Raise e
  end.

Definition is_Ok {A} (r : result A) : bool :=
  match r with Ok _ => true | Raise _ => false end.

(** [r] is a value, and the value satisfies [P]. *)
Definition on_ok {A} (r : result A) (P : A → Prop) : Prop :=
  match r with Ok a => P a | Raise _ => False end.

(** ** NumPy *)

Module Np.
#[local] Open Scope Z_scope.

(** [np.float64]: IEEE 754 binary64. *)
Definition float64 := float.

(** A Python [int] used where a float is expected. *)
Definition float_of_Z (z : Z) : float64 :=
  if z <? 0 then PrimFloat.opp (PrimFloat.of_uint63 (Uint63.of_Z (- z)))
  else PrimFloat.of_uint63 (Uint63.of_Z z).

(** An n-dimensional array: its shape and its element at each index.
    Lengths and indices are Python integers.  Only the elements at indices
    inside the shape are meaningful. *)
Record ndarray := NDArray {
  shape : list Z;
  item : list Z → float64
}.

(** [np.array(s).prod()] of a shape tuple. *)
Definition shape_prod (sh : list Z) : Z := foldr Z.mul 1 sh.

(** [a.size] and [a.ndim]. *)
Definition asize (a : ndarray) : Z := shape_prod (shape a).
Definition ndim (a : ndarray) : nat := length (shape a).

(** An index is inside a shape when it has one component per axis, each
    from 0 up to the axis length. *)
Definition in_bounds (sh idx : list Z) : Prop := Forall2 (λ i d, 0 <= i < d) idx sh.

(** Row-major order: the flat position of an index and the index of a flat
    position. *)
Fixpoint ravel (sh idx : list Z) : Z :=
  match sh, idx with
  | _ :: sh', i :: idx' => i * shape_prod sh' + ravel sh' idx'
  | _, _ => 0
  end.

Fixpoint unravel (sh : list Z) (n : Z) : list Z :=
  match sh with
  | [] => []
  | _ :: sh' => (n / shape_prod sh') :: unravel sh' (n mod shape_prod sh')
  end.

(** *** Basic indexing: [a[i, lo:hi, :]] *)

Inductive index :=
| Int (i : Z)
| Slice (start stop : option Z).

(** The full slice [:]. *)
Definition All : index := Slice None None.

(** What an index expression selects on one axis. *)
Inductive axis_sel :=
| Pick (i : Z)
| Range (start len : Z).

(** An integer index: negative values count from the end; out of range
    raises [IndexError]. *)
Definition norm_int (d i : Z) : result Z :=
  let i' := if i <? 0 then i + d else i in
  if (0 <=? i') && (i' <? d) then Ok i' else Raise IndexError.

(** A slice bound: negative values count from the end, and the bound is
    clipped to the axis (slices never raise). *)
Definition clip_bound (d : Z) (b : option Z) (default : Z) : Z :=
  match b with
  | None => default
  | Some z =>
      let z' := if z <? 0 then z + d else z in
      Z.max 0 (Z.min d z')
  end.

(** The first position and the length of [start:stop] on an axis of
    length [d]. *)
Definition norm_slice (d : Z) (start stop : option Z) : Z * Z :=
  let s := clip_bound d start 0 in
  let e := clip_bound d stop d in
  (s, Z.max 0 (e - s)).

(** One selection per axis; axes without an index expression are taken
    whole, and more expressions than axes raise [IndexError]. *)
Fixpoint plan (sh : list Z) (ix : list index) : result (list axis_sel) :=
  match ix, sh with
  | [], _ => Ok ((λ d, Range 0 d) <$> sh)
  | _ :: _, [] => Raise IndexError
  | Int i :: ix', d :: sh' =>
      n ← norm_int d i; p ← plan sh' ix'; Ok (Pick n :: p)
  | Slice a b :: ix', d :: sh' =>
      p ← plan sh' ix';
      Ok (Range (norm_slice d a b).1 (norm_slice d a b).2 :: p)
  end.

Fixpoint sel_shape (p : list axis_sel) : list Z :=
  match p with
  | [] => []
  | Pick _ :: p' => sel_shape p'
  | Range _ l :: p' => l :: sel_shape p'
  end.

Fixpoint sel_index (p : list axis_sel) (idx : list Z) : list Z :=
  match p with
  | [] => []
  | Pick i :: p' => i :: sel_index p' idx
  | Range s _ :: p' => (s + hd 0 idx) :: sel_index p' (tl idx)
  end.

Definition getitem (a : ndarray) (ix : list index) : result ndarray :=
  p ← plan (shape a) ix;
  Ok (NDArray (sel_shape p) (λ idx, item a (sel_index p idx))).

(** *** [a.reshape(newshape)], one dimension possibly given as [-1] *)

Definition known_prod (ns : list Z) : Z :=
  foldr (λ z acc, if z =? -1 then acc else z * acc) 1 ns.

Definition infer_shape (total : Z) (ns : list Z) : result (list Z) :=
  if existsb (λ z, z <? -1) ns then Raise ValueError else
  match length (filter (λ z, z = -1) ns) with
  | 0%nat =>
      if known_prod ns =? total then Ok ns else Raise ValueError
  | 1%nat =>
      let k := known_prod ns in
      if (k =? 0) || negb (total mod k =? 0) then Raise ValueError
      else Ok ((λ z, if z =? -1 then total / k else z) <$> ns)
  | _ => Raise ValueError
  end.

Definition reshape (a : ndarray) (ns : list Z) : result ndarray :=
  sh ← infer_shape (asize a) ns;
  Ok (NDArray sh (λ idx, item a (unravel (shape a) (ravel sh idx)))).

(** [a.flatten()] *)
Definition flatten (a : ndarray) : ndarray :=
  NDArray [asize a] (λ idx, item a (unravel (shape a) (hd 0 idx))).

(** *** [np.swapaxes(a, i, j)] and [a.T] *)

Definition swap_at {A} (i j : nat) (l : list A) : list A :=
  match l !! i, l !! j with
  | Some x, Some y => <[i:=y]> (<[j:=x]> l)
  | _, _ => l
  end.

Definition swapaxes (a : ndarray) (i j : nat) : result ndarray :=
  if ((i <? ndim a) && (j <? ndim a))%nat
  then Ok (NDArray (swap_at i j (shape a)) (λ idx, item a (swap_at i j idx)))
  else Raise AxisError.

Definition transpose (a : ndarray) : ndarray :=
  NDArray (reverse (shape a)) (λ idx, item a (reverse idx)).

(** *** [np.expand_dims(a, axis=(...))]: the axes are positions in the result *)

Fixpoint expand_shape (axes : list nat) (pos n : nat) (sh : list Z) : list Z :=
  match n with
  | O => []
  | S n' =>
      if bool_decide (pos ∈ axes) then 1 :: expand_shape axes (S pos) n' sh
      else match sh with
           | d :: sh' => d :: expand_shape axes (S pos) n' sh'
           | [] => []
           end
  end.

Fixpoint squeeze_index (axes : list nat) (pos : nat) (idx : list Z) : list Z :=
  match idx with
  | [] => []
  | i :: idx' =>
      if bool_decide (pos ∈ axes) then squeeze_index axes (S pos) idx'
      else i :: squeeze_index axes (S pos) idx'
  end.

Definition expand_dims (a : ndarray) (axes : list nat) : result ndarray :=
  let n := (ndim a + length axes)%nat in
  if bool_decide (Forall (λ ax, ax < n)%nat axes) then
    if bool_decide (NoDup axes) then
      Ok (NDArray (expand_shape axes 0 n (shape a))
                  (λ idx, item a (squeeze_index axes 0 idx)))
    else Raise ValueError
  else Raise AxisError.

(** *** Creation: [np.arange(start, stop, dtype=np.float64)], [np.zeros(shape)] *)

Definition arange (start stop : Z) : ndarray :=
  NDArray [Z.max 0 (stop - start)] (λ idx, float_of_Z (start + hd 0 idx)).

Definition zeros (sh : list Z) : ndarray := NDArray sh (λ _, 0%float).

(** *** Broadcasting and elementwise arithmetic *)

Fixpoint broadcast_rev (s1 s2 : list Z) : result (list Z) :=
  match s1, s2 with
  | [], s => Ok s
  | s, [] => Ok s
  | d1 :: r1, d2 :: r2 =>
      r ← broadcast_rev r1 r2;
      if d1 =? d2 then Ok (d1 :: r)
      else if d1 =? 1 then Ok (d2 :: r)
      else if d2 =? 1 then Ok (d1 :: r)
      else Raise ValueError
  end.

Definition broadcast_shapes (s1 s2 : list Z) : result (list Z) :=
  reverse <$> broadcast_rev (reverse s1) (reverse s2).

(** The index into an operand of shape [sh] for the result index [idx]:
    leading result axes are dropped and axes of length 1 are read at 0. *)
Definition bindex (sh idx : list Z) : list Z :=
  zip_with (λ d i, if d =? 1 then 0 else i) sh (drop (length idx - length sh) idx).

Definition broadcast2 (op : float64 → float64 → float64) (a b : ndarray)
  : result ndarray :=
  sh ← broadcast_shapes (shape a) (shape b);
  Ok (NDArray sh (λ idx, op (item a (bindex (shape a) idx))
                            (item b (bindex (shape b) idx)))).

Definition add := broadcast2 PrimFloat.add.
Definition sub := broadcast2 PrimFloat.sub.

Definition map1 (op : float64 → float64) (a : ndarray) : ndarray :=
  NDArray (shape a) (λ idx, op (item a idx)).

(** Unary [+a], [-a], and [a / n] for a Python integer [n]. *)
Definition pos (a : ndarray) : ndarray := map1 (λ x, x) a.
Definition neg (a : ndarray) : ndarray := map1 PrimFloat.opp a.
Definition div_int (a : ndarray) (n : Z) : ndarray :=
  map1 (λ x, PrimFloat.div x (float_of_Z n)) a.

(** *** Assignment [a[ix] = v]: the array after the assignment *)

Fixpoint in_sel (p : list axis_sel) (idx : list Z) : bool :=
  match p, idx with
  | [], [] => true
  | Pick i :: p', j :: idx' => (i =? j) && in_sel p' idx'
  | Range s l :: p', j :: idx' => (s <=? j) && (j <? s + l) && in_sel p' idx'
  | _, _ => false
  end.

Fixpoint view_index (p : list axis_sel) (idx : list Z) : list Z :=
  match p, idx with
  | Pick _ :: p', _ :: idx' => view_index p' idx'
  | Range s _ :: p', j :: idx' => (j - s) :: view_index p' idx'
  | _, _ => []
  end.

Definition setitem (a : ndarray) (ix : list index) (v : ndarray) : result ndarray :=
  p ← plan (shape a) ix;
  sh ← broadcast_shapes (sel_shape p) (shape v);
  if bool_decide (sh = sel_shape p) then
    Ok (NDArray (shape a)
          (λ idx, if in_sel p idx then item v (bindex (shape v) (view_index p idx))
                  else item a idx))
  else Raise ValueError.

End Np.
Import Np.
#[local] Open Scope Z_scope.

(** ** The notebook's array code

    Each cell's own array computations, as functions of the arrays loaded
    from disk.  [torch.Tensor(a)], [t.numpy()] and [np.array(a)] convert
    between array types without changing shape or elements (the default
    dtype is set to float64 in the first cell). *)

Definition Tensor (a : ndarray) : ndarray := a.
Definition numpy (t : ndarray) : ndarray := t.

Definition path_input : string :=
  "/lus/eagle/projects/datascience/cgraziani/Drought_data/droughtSVDI_data_input.npy".
Definition path_output : string :=
  "/lus/eagle/projects/datascience/cgraziani/Drought_data/droughtSVDI_data_ouput.npy".

(** *** Time series: data preparation and test window *)

(** The notebook's names: [long] is the position among the 18 north-south
    tiles and [lat] the position among the 39 west-east tiles ("the 12th
    N-S tile and 30th W-E tile"). *)
Definition long : Z := 12.
Definition lat : Z := 30.
Definition point : Z * Z := (8, 8).
Definition Start_Day : Z := 10.
Definition N_Train : Z := 120.

(** [output_data_all[start:start+n, long, lat, point[0], point[1]]] *)
Definition ts_index (start n : Z) : list index :=
  [Slice (Some start) (Some (start + n)); Int long; Int lat; Int point.1; Int point.2].

Definition ts_train_x : result ndarray :=
  Tensor <$> reshape (arange Start_Day (Start_Day + N_Train)) [N_Train; 1].

Definition ts_train_y (output_data_all : ndarray) : result ndarray :=
  Tensor <$> getitem output_data_all (ts_index Start_Day N_Train).

Definition Test_Days : Z := N_Train + 30.
Definition Start_Test : Z := Start_Day.

Definition ts_test_x : result ndarray :=
  Tensor <$> reshape (arange Start_Test (Start_Test + Test_Days)) [Test_Days; 1].

Definition ts_test_y (output_data_all : ndarray) : result ndarray :=
  Tensor <$> getitem output_data_all (ts_index Start_Test Test_Days).

(** *** Downscaling: data preparation *)

Definition Num_Tiles : Z := 8.
Definition Start_Lat : Z := 4.
Definition Start_Long : Z := 14.
Definition Day_Number : Z := 100.

(** [input_data_all[Day_Number, Start_Lat:Start_Lat+Num_Tiles,
                    Start_Long:Start_Long+Num_Tiles, :, :, :]] *)
Definition tiles_x_index (num_tiles : Z) : list index :=
  [Int Day_Number;
   Slice (Some Start_Lat) (Some (Start_Lat + num_tiles));
   Slice (Some Start_Long) (Some (Start_Long + num_tiles));
   All; All; All].

(** [output_data_all[Day_Number, Start_Lat:Start_Lat+Num_Tiles,
                     Start_Long:Start_Long+Num_Tiles, :, :]] *)
Definition tiles_y_index (num_tiles : Z) : list index :=
  [Int Day_Number;
   Slice (Some Start_Lat) (Some (Start_Lat + num_tiles));
   Slice (Some Start_Long) (Some (Start_Long + num_tiles));
   All; All].

(** The variables the data preparation cell leaves behind. *)
Record ds_data := DsData {
  tiles_x : ndarray;
  n_train : Z;
  train_x : ndarray;
  tiles_y : ndarray;
  train_y : ndarray
}.

Definition ds_prep (num_tiles : Z) (input_data_all output_data_all : ndarray)
  : result ds_data :=
  tiles_x ← getitem input_data_all (tiles_x_index num_tiles);
  tiles_x ← swapaxes tiles_x 1%nat 2%nat;
  let n_train := shape_prod (take 4%nat (shape tiles_x)) in
  train_x ← reshape tiles_x [n_train; -1];
  let train_x := Tensor train_x in
  tiles_y ← getitem output_data_all (tiles_y_index num_tiles);
  tiles_y ← swapaxes tiles_y 1%nat 2%nat;
  train_y ← reshape tiles_y [n_train];
  let train_y := Tensor train_y in
  Ok (DsData tiles_x n_train train_x tiles_y train_y).

(** *** Downscaling: the test grid *)

(** [ts[k]] for a shape tuple. *)
Definition dim (ts : list Z) (k : nat) : result Z :=
  match ts !! k with
  | Some d => Ok d
  | None => Raise IndexError
  end.

(** [np.zeros((1,1,2,1,1,2,2))] after the eight assignments. *)
Definition delta_vecs (dlat dlong : ndarray) : result ndarray :=
  let d := zeros [1; 1; 2; 1; 1; 2; 2] in
  d ← setitem d (Int <$> [0;0;0;0;0;0;0]) (div_int (pos dlat) 4);
  d ← setitem d (Int <$> [0;0;0;0;0;0;1]) (div_int (neg dlong) 4);
  d ← setitem d (Int <$> [0;0;1;0;0;0;0]) (div_int (neg dlat) 4);
  d ← setitem d (Int <$> [0;0;1;0;0;0;1]) (div_int (neg dlong) 4);
  d ← setitem d (Int <$> [0;0;0;0;0;1;0]) (div_int (pos dlat) 4);
  d ← setitem d (Int <$> [0;0;0;0;0;1;1]) (div_int (pos dlong) 4);
  d ← setitem d (Int <$> [0;0;1;0;0;1;0]) (div_int (neg dlat) 4);
  setitem d (Int <$> [0;0;1;0;0;1;1]) (div_int (pos dlong) 4).

(** [dlat = tiles_x[0,0,0,0,0] - tiles_x[0,0,1,0,0]] *)
Definition dlat_of (tiles_x : ndarray) : result ndarray :=
  a ← getitem tiles_x (Int <$> [0;0;0;0;0]);
  b ← getitem tiles_x (Int <$> [0;0;1;0;0]);
  sub a b.

(** [dlong = tiles_x[0,0,0,1,1] - tiles_x[0,0,0,0,1]] *)
Definition dlong_of (tiles_x : ndarray) : result ndarray :=
  a ← getitem tiles_x (Int <$> [0;0;0;1;1]);
  b ← getitem tiles_x (Int <$> [0;0;0;0;1]);
  sub a b.

Record test_grid := TestGrid {
  dlat : ndarray;
  dlong : ndarray;
  test_tiles : ndarray;
  n_test : Z;
  test_x : ndarray
}.

Definition ds_test_grid (tiles_x : ndarray) : result test_grid :=
  dlat ← dlat_of tiles_x;
  dlong ← dlong_of tiles_x;
  test_tiles ← expand_dims tiles_x [2; 5]%nat;
  delta_vecs ← delta_vecs dlat dlong;
  test_tiles ← add test_tiles delta_vecs;
  let ts := shape test_tiles in
  ts0 ← dim ts 0%nat; ts1 ← dim ts 1%nat; ts2 ← dim ts 2%nat; ts3 ← dim ts 3%nat;
  ts4 ← dim ts 4%nat; ts5 ← dim ts 5%nat; ts6 ← dim ts 6%nat;
  let test_tiles_shape := [ts0; ts1 * ts2; ts3; ts4 * ts5; ts6] in
  test_tiles ← reshape test_tiles test_tiles_shape;
  let n_test := shape_prod (take 4%nat (shape test_tiles)) in
  test_x ← reshape test_tiles [n_test; -1];
  let test_x := Tensor test_x in
  Ok (TestGrid dlat dlong test_tiles n_test test_x).

(** *** Downscaling: the images and the extent of the plot *)

Definition odim (num_tiles : Z) : Z := 16 * num_tiles.
Definition ddim (num_tiles : Z) : Z := 2 * odim num_tiles.

(** [preds_mean.cpu().numpy().reshape((ddim,ddim)).T] *)
Definition downscaled_SVDI (num_tiles : Z) (preds_mean : ndarray) : result ndarray :=
  transpose <$> reshape (numpy preds_mean) [ddim num_tiles; ddim num_tiles].

(** [train_y.cpu().numpy().reshape((odim,odim)).T] *)
Definition orig_SVDI (num_tiles : Z) (train_y : ndarray) : result ndarray :=
  transpose <$> reshape (numpy train_y) [odim num_tiles; odim num_tiles].

(** [(long0, long1, lat0, lat1)] *)
Definition plot_extent (tiles_x : ndarray) : result (ndarray * ndarray * ndarray * ndarray) :=
  long0 ← getitem tiles_x (Int <$> [0;0;0;0;1]);
  long1 ← getitem tiles_x (Int <$> [0;0;-1;-1;1]);
  lat0 ← getitem tiles_x (Int <$> [-1;-1;0;0;0]);
  lat1 ← getitem tiles_x (Int <$> [0;0;0;0;0]);
  Ok (long0, long1, lat0, lat1).

(** *** Flat positions

    The row of the flattened training arrays for tile [(i, j)] and point
    [(r, c)], and the row of the test grid for the test point [(a, b)] of
    that training point. *)

Definition ds_flat (nt i r j c : Z) : Z := ((i * 16 + r) * nt + j) * 16 + c.

Definition test_flat (nt i r a j c b : Z) : Z :=
  ((i * 32 + (2 * r + a)) * nt + j) * 32 + (2 * c + b).

(** The displacement of test point [(a, b)], component [k], as the eight
    assignments to [delta_vecs] give it. *)
Definition quarter (x : float64) : float64 := PrimFloat.div x (float_of_Z 4).

Definition offset (dlat dlong : float64) (a b k : Z) : float64 :=
  if k =? 0 then (if a =? 0 then quarter dlat else quarter (PrimFloat.opp dlat))
  else (if b =? 0 then quarter (PrimFloat.opp dlong) else quarter dlong).

(** ** A sample data set

    Arrays with the layout of the two files: 365 days, 18 north-south by
    39 west-east tiles of 16 by 16 points.  The grid is regular: latitude
    decreases by one per row and longitude increases by one per column, and
    the field is a function of day and position. *)

Definition sample_coord (idx : list Z) : float64 :=
  match idx with
  | [_; ti; tj; r; c; k] =>
      if k =? 0 then float_of_Z (500 - (16 * ti + r))
      else float_of_Z (16 * tj + c)
  | _ => 0%float
  end.

Definition sample_input : ndarray := NDArray [365; 18; 39; 16; 16; 2] sample_coord.

Definition sample_field (idx : list Z) : float64 :=
  match idx with
  | [d; ti; tj; r; c] => float_of_Z (d + 7 * (16 * ti + r) + 3 * (16 * tj + c))
  | _ => 0%float
  end.

Definition sample_output : ndarray := NDArray [365; 18; 39; 16; 16] sample_field.

(** ** Executions

    The external world of an execution: the files on disk, the state of the
    external libraries (torch, gpytorch, matplotlib: parameters, gradients,
    random state, figures), the library settings switched on by the
    enclosing [with] blocks, and the trace of what the script has done so
    far.  Library objects (models, optimizers, distributions, figures) are
    opaque handles of type [obj]. *)

Inductive setting := no_grad | fast_pred_var.

(** The value of an array computation that succeeded (a fixed value of the
    type otherwise). *)
#[global] Instance float64_inhabited : Inhabited float64 := populate 0%float.
#[global] Instance ndarray_inhabited : Inhabited ndarray := populate (zeros []).
#[global] Instance ds_data_inhabited : Inhabited ds_data :=
  populate (DsData inhabitant 0 inhabitant inhabitant inhabitant).
#[global] Instance test_grid_inhabited : Inhabited test_grid :=
  populate (TestGrid inhabitant inhabitant inhabitant 0 inhabitant).
#[global] Instance setting_eq_dec : EqDecision setting.
Proof. solve_decision. Defined.

Definition get {A} `{Inhabited A} (r : result A) : A :=
  match r with
  | Ok a => a
  | Raise _ => inhabitant
  end.

Section Exec.
Context {Lib obj : Type}.

(** The calls the notebook makes into torch, gpytorch and matplotlib, each
    with the type of its result. *)
Inductive call : Type → Type :=
(* torch *)
| set_default_dtype_float64 : call unit
| cuda_is_available : call bool
| module_cuda (m : obj) : call obj
| tensor_cuda (t : ndarray) : call unit
| tensor_cpu (t : ndarray) : call unit
| module_train (m : obj) : call unit
| module_eval (m : obj) : call unit
| parameters (m : obj) : call obj
| Adam (params : obj) (lr : float64) : call obj
| zero_grad (optimizer : obj) : call unit
| backward (loss : float64) : call unit
| optimizer_step (optimizer : obj) : call unit
| param_item (m : obj) (attr : string) : call float64
(* gpytorch *)
| GaussianLikelihood : call obj
| ExactGP_init (train_x train_y : ndarray) (likelihood : obj) : call obj
| ConstantMean : call obj
| MaternKernel (nu : float64) : call obj
| ScaleKernel (base : obj) : call obj
| choose_grid_size (train_x : ndarray) : call Z
| GridInterpolationKernel (base : obj) (grid_size num_dims : Z) : call obj
| set_module (self : obj) (attr : string) (m : obj) : call unit
| get_module (self : obj) (attr : string) : call obj
| module_call (m : obj) (x : ndarray) : call obj
| MultivariateNormal (mean covar : obj) : call obj
| ExactMarginalLogLikelihood (likelihood model : obj) : call obj
| model_enter (model : obj) (x : ndarray) : call (list ndarray)
| model_call (model : obj) (x : ndarray) (outputs : list obj) : call obj
| mll_call (mll output : obj) (y : ndarray) : call float64
| likelihood_call (likelihood dist : obj) : call obj
| confidence_region (dist : obj) : call (ndarray * ndarray)
| dist_mean (dist : obj) : call ndarray
| dist_variance (dist : obj) : call ndarray
(* matplotlib *)
| plt_figure : call obj
| set_figwidth (fig : obj) (w : float64) : call unit
| set_figheight (fig : obj) (h : float64) : call unit
| add_subplot (fig : obj) (nrows ncols k : Z) : call obj
| add_axes (fig : obj) (rect : float64 * float64 * float64 * float64) : call obj
| ax_plot (ax : obj) (x y : ndarray) (fmt : string) : call unit
| fill_between (ax : obj) (x lower upper : ndarray) (alpha : float64) : call unit
| axvline (ax : obj) (x : Z) : call unit
| imshow (ax : obj) (img : ndarray) (cmap : string)
         (extent : ndarray * ndarray * ndarray * ndarray) : call obj
| tick_params (ax : obj) (labelsize : Z) : call unit
| set_title (ax : obj) (title : string) (fontsize : Z) : call unit
| plt_show : call unit.

(** What a [print] statement of the notebook writes. *)
Inductive printed :=
| PShapes (s1 s2 : list Z)
| PShape (label : string) (s : list Z)
| PIteration (i : nat)
| PLoss (loss : float64)
| PParam (label : string) (value : float64).

(** The observable events of an execution, in the order they happen.  A
    library call is recorded with what it returned and with the settings of
    the [with] blocks it was made in. *)
Inductive event :=
| EvRead (path : string)
| EvPrint (p : printed)
| EvCall {T} (c : call T) (r : T) (s : list setting)
| EvRaise (e : exn).

Record world := World {
  files : gmap string ndarray;
  lib : Lib;
  settings : list setting;
  trace : list event
}.

(** The behaviour of the external libraries: the outcome of a call in a
    library state under the active settings. *)
Variable oracle : ∀ T, list setting → call T → Lib → result (T * Lib).

(** A statement runs in a world and either returns a value or raises. *)
Definition M (A : Type) : Type := world → result A * world.

#[global] Instance M_ret : MRet M := λ A a w, (Ok a, w).
#[global] Instance M_bind : MBind M := λ A B f m w,
  match m w with
  | (Ok a, w') => f a w'
  | (Raise e, w') => (Raise e, w')
  end.

Definition log (e : event) (w : world) : world :=
  World (files w) (lib w) (settings w) (trace w ++ [e]).

Definition raise {A} (e : exn) : M A := λ w, (Raise e, log (EvRaise e) w).

(** An array computation of the notebook's own. *)
Definition lift {A} (r : result A) : M A :=
  match r with
  | Ok a => mret a
  | Raise e => raise e
  end.

(** [np.load(path)] *)
Definition np_load (path : string) : M ndarray := λ w,
  let w := log (EvRead path) w in
  match files w !! path with
  | Some a => (Ok a, w)
  | None => raise (FileNotFoundError path) w
  end.

Definition py_print (p : printed) : M unit := λ w, (Ok tt, log (EvPrint p) w).

(** A library call. *)
Definition ext {T} (c : call T) : M T := λ w,
  match oracle T (settings w) c (lib w) with
  | Ok (r, l) =>
      (Ok r, log (EvCall c r (settings w)) (World (files w) l (settings w) (trace w)))
  | Raise e => raise e w
  end.

(** [with s1, s2: body]: the settings hold inside the block and are
    restored when it is left, normally or by an exception. *)
Definition with_settings {A} (s : list setting) (body : M A) : M A := λ w,
  let '(r, w') := body (World (files w) (lib w) (s ++ settings w) (trace w)) in
  (r, World (files w') (lib w') (settings w) (trace w')).

(** [for x in l: body] and [range(n)] *)
Fixpoint for_each {A} (l : list A) (body : A → M unit) : M unit :=
  match l with
  | [] => mret tt
  | x :: l' => body x;; for_each l' body
  end.

Definition range (n : nat) : list nat := seq 0 n.

(** [[body(x) for x in l]] *)
Fixpoint for_list {A B} (l : list A) (body : A → M B) : M (list B) :=
  match l with
  | [] => mret []
  | x :: l' => b ← body x; bs ← for_list l' body; mret (b :: bs)
  end.

(** *** The cells *)

(** Imports; [torch.set_default_dtype(torch.float64)]. *)
Definition cell_imports : M unit := ext set_default_dtype_float64.

(** "Read in the data" *)
Definition cell_load : M (ndarray * ndarray) :=
  input_data_all ← np_load path_input;
  output_data_all ← np_load path_output;
  py_print (PShapes (shape input_data_all) (shape output_data_all));;
  mret (input_data_all, output_data_all).

(** "Easiest case: 1-D regression-prediction" *)
Definition cell_ts_data (output_data_all : ndarray) : M (ndarray * ndarray) :=
  train_x ← lift ts_train_x;
  train_y ← lift (ts_train_y output_data_all);
  mret (train_x, train_y).

(** [class GPRegressionModel(gpytorch.models.ExactGP)], first version:
    constant mean and scaled Matern kernel. *)
Definition GPRegressionModel_init (train_x train_y : ndarray) (likelihood : obj) : M obj :=
  self ← ext (ExactGP_init train_x train_y likelihood);
  mean_module ← ext ConstantMean;
  ext (set_module self "mean_module" mean_module);;
  base ← ext (MaternKernel 2.5%float);
  covar_module ← ext (ScaleKernel base);
  ext (set_module self "covar_module" covar_module);;
  mret self.

(** [forward], the same in both versions of the class. *)
Definition GPRegressionModel_forward (self : obj) (x : ndarray) : M obj :=
  mean_module ← ext (get_module self "mean_module");
  mean_x ← ext (module_call mean_module x);
  covar_module ← ext (get_module self "covar_module");
  covar_x ← ext (module_call covar_module x);
  ext (MultivariateNormal mean_x covar_x).

(** [model(x)]: gpytorch's [ExactGP.__call__] calls the notebook's [forward]
    back.  [model_enter] is the part of it that runs before the callbacks
    and answers with the inputs on which [forward] is run (in gpytorch [x]
    itself in training mode; the training inputs, and then the training
    inputs joined with [x], for a first prediction in evaluation mode);
    [model_call] is the part that runs after them, on what [forward]
    returned. *)
Definition GPRegressionModel_call (self : obj) (x : ndarray) : M obj :=
  inputs ← ext (model_enter self x);
  outputs ← for_list inputs (GPRegressionModel_forward self);
  ext (model_call self x outputs).

Definition cell_ts_model (train_x train_y : ndarray) : M (obj * obj) :=
  likelihood ← ext GaussianLikelihood;
  model ← GPRegressionModel_init train_x train_y likelihood;
  mret (likelihood, model).

(** [def train()]: the loop reads the globals [N_iterations], [optimizer],
    [model], [mll], [train_x] and [train_y]. *)
Definition train_iteration (optimizer model mll : obj) (train_x train_y : ndarray)
    (i : nat) : M unit :=
  ext (zero_grad optimizer);;
  output ← GPRegressionModel_call model train_x;
  l ← ext (mll_call mll output train_y);
  let loss := PrimFloat.opp l in
  ext (backward loss);;
  (if (i mod 10 =? 0)%nat
   then py_print (PIteration i);; py_print (PLoss loss)
   else mret tt);;
  ext (optimizer_step optimizer).

Definition train (N_iterations : nat) (optimizer model mll : obj)
    (train_x train_y : ndarray) : M unit :=
  for_each (range N_iterations) (train_iteration optimizer model mll train_x train_y).

(** The four parameter prints that follow [train()]. *)
Definition print_parameters (model : obj) (lengthscale_attr : string) : M unit :=
  v ← ext (param_item model "likelihood.noise_covar.noise");
  py_print (PParam "Noise" v);;
  v ← ext (param_item model lengthscale_attr);
  py_print (PParam "Length Scale" v);;
  v ← ext (param_item model "covar_module.outputscale");
  py_print (PParam "Output Scale" v);;
  v ← ext (param_item model "mean_module.constant");
  py_print (PParam "Mean" v).

Definition ts_N_iterations : nat := 500.

Definition cell_ts_train (likelihood model : obj) (train_x train_y : ndarray) : M unit :=
  ext (module_train model);;
  ext (module_train likelihood);;
  params ← ext (parameters model);
  optimizer ← ext (Adam params 0.1%float);
  mll ← ext (ExactMarginalLogLikelihood likelihood model);
  train ts_N_iterations optimizer model mll train_x train_y;;
  print_parameters model "covar_module.base_kernel.lengthscale".

Definition cell_ts_predict (output_data_all : ndarray) (likelihood model : obj) : M unit :=
  test_x ← lift ts_test_x;
  test_y ← lift (ts_test_y output_data_all);
  ext (module_eval model);;
  ext (module_eval likelihood);;
  preds ← with_settings [no_grad]
             (d ← GPRegressionModel_call model test_x;
              ext (likelihood_call likelihood d));
  '(lower, upper) ← ext (confidence_region preds);
  fig1 ← ext plt_figure;
  ext (set_figwidth fig1 8%float);;
  ext (set_figheight fig1 8%float);;
  ax ← ext (add_subplot fig1 1 1 1);
  ext (ax_plot ax (numpy test_x) (numpy test_y) "bo");;
  mean ← ext (dist_mean preds);
  ext (ax_plot ax (numpy test_x) (numpy mean) "r-");;
  ext (fill_between ax (numpy (flatten test_x)) (numpy lower) (numpy upper) 0.5%float);;
  ext (axvline ax (Start_Day + N_Train));;
  ext plt_show.

(** "Data prep...": the array code of [ds_prep] with the cell's prints. *)
Definition cell_ds_data (num_tiles : Z) (input_data_all output_data_all : ndarray)
  : M ds_data :=
  tiles_x ← lift (getitem input_data_all (tiles_x_index num_tiles));
  tiles_x ← lift (swapaxes tiles_x 1%nat 2%nat);
  py_print (PShape "tiles_x shape:" (shape tiles_x));;
  let n_train := shape_prod (take 4%nat (shape tiles_x)) in
  train_x ← lift (reshape tiles_x [n_train; -1]);
  py_print (PShape "train_x shape: " (shape train_x));;
  let train_x := Tensor train_x in
  tiles_y ← lift (getitem output_data_all (tiles_y_index num_tiles));
  tiles_y ← lift (swapaxes tiles_y 1%nat 2%nat);
  py_print (PShape "tiles_y shape" (shape tiles_y));;
  train_y ← lift (reshape tiles_y [n_train]);
  py_print (PShape "train_y shape:" (shape train_y));;
  let train_y := Tensor train_y in
  mret (DsData tiles_x n_train train_x tiles_y train_y).

(** [train_x.shape[-1]] *)
Definition last_dim (a : ndarray) : result Z :=
  match last (shape a) with
  | Some d => Ok d
  | None => Raise IndexError
  end.

(** [class GPRegressionModel(gpytorch.models.ExactGP)], second version: the
    Matern kernel wrapped by the grid interpolation kernel (KISS-GP). *)
Definition GPRegressionModel_kiss_init (train_x train_y : ndarray) (likelihood : obj)
  : M obj :=
  self ← ext (ExactGP_init train_x train_y likelihood);
  mean_module ← ext ConstantMean;
  ext (set_module self "mean_module" mean_module);;
  base_covar_module ← ext (MaternKernel 2.5%float);
  ext (set_module self "base_covar_module" base_covar_module);;
  num_dims ← lift (last_dim train_x);
  grid_size ← ext (choose_grid_size train_x);
  kiss ← ext (GridInterpolationKernel base_covar_module grid_size num_dims);
  covar_module ← ext (ScaleKernel kiss);
  ext (set_module self "covar_module" covar_module);;
  mret self.

Definition cell_ds_model (train_x train_y : ndarray) : M (obj * obj) :=
  likelihood ← ext GaussianLikelihood;
  model ← GPRegressionModel_kiss_init train_x train_y likelihood;
  mret (likelihood, model).

(** [t.cuda()] and [t.cpu()] move a tensor between devices and keep its
    shape and elements. *)
Definition Tensor_cuda (t : ndarray) : M ndarray := ext (tensor_cuda t);; mret t.
Definition Tensor_cpu (t : ndarray) : M ndarray := ext (tensor_cpu t);; mret t.

Definition ds_N_iterations : nat := 81.

(** The variables the training cell rebinds. *)
Record ds_trained := DsTrained {
  use_cuda : bool;
  tr_model : obj;
  tr_likelihood : obj;
  tr_train_x : ndarray;
  tr_train_y : ndarray
}.

(** The training cell after its first line, [use_cuda] being known. *)
Definition ds_train_with (use_cuda : bool) (likelihood model : obj)
    (train_x train_y : ndarray) : M ds_trained :=
  v ← (if use_cuda then
         model ← ext (module_cuda model);
         likelihood ← ext (module_cuda likelihood);
         train_x ← Tensor_cuda train_x;
         train_y ← Tensor_cuda train_y;
         mret (DsTrained use_cuda model likelihood train_x train_y)
       else mret (DsTrained use_cuda model likelihood train_x train_y));
  params ← ext (parameters (tr_model v));
  optimizer ← ext (Adam params 0.1%float);
  mll ← ext (ExactMarginalLogLikelihood (tr_likelihood v) (tr_model v));
  train ds_N_iterations optimizer (tr_model v) mll (tr_train_x v) (tr_train_y v);;
  print_parameters (tr_model v) "base_covar_module.lengthscale";;
  mret v.

Definition cell_ds_train (likelihood model : obj) (train_x train_y : ndarray)
  : M ds_trained :=
  use_cuda ← ext cuda_is_available;
  ds_train_with use_cuda likelihood model train_x train_y.

Definition cell_ds_test_grid (use_cuda : bool) (tiles_x : ndarray) : M ndarray :=
  g ← lift (ds_test_grid tiles_x);
  if use_cuda then Tensor_cuda (test_x g) else mret (test_x g).

Definition cell_ds_predict (likelihood model : obj) (test_x : ndarray)
  : M (ndarray * ndarray) :=
  ext (module_eval model);;
  ext (module_eval likelihood);;
  with_settings [no_grad; fast_pred_var]
    (d ← GPRegressionModel_call model test_x;
     preds_kiss ← ext (likelihood_call likelihood d);
     preds_mean ← ext (dist_mean preds_kiss);
     preds_var ← ext (dist_variance preds_kiss);
     mret (preds_mean, preds_var)).

Definition cell_ds_plot (num_tiles : Z) (preds_mean train_y tiles_x : ndarray) : M unit :=
  preds_mean ← Tensor_cpu preds_mean;
  downscaled ← lift (downscaled_SVDI num_tiles preds_mean);
  train_y ← Tensor_cpu train_y;
  orig ← lift (orig_SVDI num_tiles train_y);
  extent ← lift (plot_extent tiles_x);
  fig ← ext plt_figure;
  ext (set_figwidth fig 17%float);;
  ext (set_figheight fig 8%float);;
  ax1 ← ext (add_axes fig (0.1, 0.1, 0.45, 0.8)%float);
  im1 ← ext (imshow ax1 orig "RdYlGn" extent);
  ext (tick_params ax1 16);;
  ext (set_title ax1 "Original SVDI" 20);;
  ax2 ← ext (add_axes fig (0.6, 0.1, 0.45, 0.8)%float);
  im2 ← ext (imshow ax2 downscaled "RdYlGn" extent);
  ext (tick_params ax2 16);;
  ext (set_title ax2 "Downscaled SVDI" 20);;
  ext plt_show.

(** *** The notebook: its code cells from top to bottom *)

Definition time_series (output_data_all : ndarray) : M unit :=
  '(train_x, train_y) ← cell_ts_data output_data_all;
  '(likelihood, model) ← cell_ts_model train_x train_y;
  cell_ts_train likelihood model train_x train_y;;
  cell_ts_predict output_data_all likelihood model.

Definition downscaling (num_tiles : Z) (input_data_all output_data_all : ndarray)
  : M unit :=
  d ← cell_ds_data num_tiles input_data_all output_data_all;
  '(likelihood, model) ← cell_ds_model (train_x d) (train_y d);
  v ← cell_ds_train likelihood model (train_x d) (train_y d);
  test_x ← cell_ds_test_grid (use_cuda v) (tiles_x d);
  '(preds_mean, preds_var) ← cell_ds_predict (tr_likelihood v) (tr_model v) test_x;
  cell_ds_plot num_tiles preds_mean (tr_train_y v) (tiles_x d).

(** The cells after the load cell. *)
Definition analysis (input_data_all output_data_all : ndarray) : M unit :=
  time_series output_data_all;;
  downscaling Num_Tiles input_data_all output_data_all.

Definition notebook : M unit :=
  cell_imports;;
  '(input_data_all, output_data_all) ← cell_load;
  time_series output_data_all;;
  downscaling Num_Tiles input_data_all output_data_all.


(** *** Names *)

Definition call_name {T} (c : call T) : string :=
  match c with
  | set_default_dtype_float64 => "torch.set_default_dtype"
  | cuda_is_available => "torch.cuda.is_available"
  | module_cuda _ => "module.cuda"
  | tensor_cuda _ => "tensor.cuda"
  | tensor_cpu _ => "tensor.cpu"
  | module_train _ => "module.train"
  | module_eval _ => "module.eval"
  | parameters _ => "model.parameters"
  | Adam _ _ => "torch.optim.Adam"
  | zero_grad _ => "optimizer.zero_grad"
  | backward _ => "loss.backward"
  | optimizer_step _ => "optimizer.step"
  | param_item _ _ => "parameter.item"
  | GaussianLikelihood => "GaussianLikelihood"
  | ExactGP_init _ _ _ => "ExactGP.__init__"
  | ConstantMean => "ConstantMean"
  | MaternKernel _ => "MaternKernel"
  | ScaleKernel _ => "ScaleKernel"
  | choose_grid_size _ => "choose_grid_size"
  | GridInterpolationKernel _ _ _ => "GridInterpolationKernel"
  | set_module _ _ _ => "module.__setattr__"
  | get_module _ _ => "module.__getattr__"
  | module_call _ _ => "module(x)"
  | MultivariateNormal _ _ => "MultivariateNormal"
  | ExactMarginalLogLikelihood _ _ => "ExactMarginalLogLikelihood"
  | model_enter _ _ => "model.__call__"
  | model_call _ _ _ => "model(x)"
  | mll_call _ _ _ => "mll(output, y)"
  | likelihood_call _ _ => "likelihood(dist)"
  | confidence_region _ => "dist.confidence_region"
  | dist_mean _ => "dist.mean"
  | dist_variance _ => "dist.variance"
  | plt_figure => "plt.figure"
  | set_figwidth _ _ => "fig.set_figwidth"
  | set_figheight _ _ => "fig.set_figheight"
  | add_subplot _ _ _ _ => "fig.add_subplot"
  | add_axes _ _ => "fig.add_axes"
  | ax_plot _ _ _ _ => "ax.plot"
  | fill_between _ _ _ _ _ => "ax.fill_between"
  | axvline _ _ => "ax.axvline"
  | imshow _ _ _ _ => "ax.imshow"
  | tick_params _ _ => "ax.tick_params"
  | set_title _ _ _ => "ax.set_title"
  | plt_show => "plt.show"
  end.

Definition printed_name (p : printed) : string :=
  match p with
  | PShapes _ _ => "print shapes"
  | PShape label _ => "print shape " +:+ label
  | PIteration _ => "print iteration"
  | PLoss _ => "print loss"
  | PParam label _ => "print parameter " +:+ label
  end.

Definition event_name (e : event) : string :=
  match e with
  | EvRead path => "np.load " +:+ path
  | EvPrint p => printed_name p
  | EvCall c _ _ => call_name c
  | EvRaise _ => "raise"
  end.

(** *** The script

    The events of a complete execution, cell by cell, with what is handed
    to the libraries and what they answer.  [s] is the list of settings the
    cell is run in; a call inside a [with] block carries the settings of
    the block in front of them. *)

Implicit Types (s : list setting) (t : list event).

(** One run of [forward(x)] on [self] that returns [dist]. *)
Definition forward_trace s (self : obj) (x : ndarray) (dist : obj) t : Prop :=
  ∃ mean_module mean_x covar_module covar_x,
    t = [EvCall (get_module self "mean_module") mean_module s;
         EvCall (module_call mean_module x) mean_x s;
         EvCall (get_module self "covar_module") covar_module s;
         EvCall (module_call covar_module x) covar_x s;
         EvCall (MultivariateNormal mean_x covar_x) dist s].

(** [model(x)] that returns [output]: the library enters the call, runs
    [forward] on each of the inputs it has chosen, and returns. *)
Definition model_trace s (model : obj) (x : ndarray) (output : obj) t : Prop :=
  ∃ inputs outputs forwards,
    Forall3 (forward_trace s model) inputs outputs forwards
    ∧ t = [EvCall (model_enter model x) inputs s] ++ concat forwards
          ++ [EvCall (model_call model x outputs) output s].

(** Iteration [i] of the training loop: zero the gradients, evaluate the
    model on [train_x], take the negated marginal log likelihood of the
    output against [train_y] as the loss, backpropagate, print the
    iteration number and the loss when [i % 10 == 0], step. *)
Definition iteration_trace s (optimizer model mll : obj) (train_x train_y : ndarray)
    (i : nat) t : Prop :=
  ∃ output l t_model,
    model_trace s model train_x output t_model
    ∧ t = [EvCall (zero_grad optimizer) tt s] ++ t_model
          ++ [EvCall (mll_call mll output train_y) l s;
              EvCall (backward (PrimFloat.opp l)) tt s]
          ++ (if (i mod 10 =? 0)%nat
              then [EvPrint (PIteration i); EvPrint (PLoss (PrimFloat.opp l))]
              else [])
          ++ [EvCall (optimizer_step optimizer) tt s].

(** [train()] with [N_iterations = N]: the iterations 0, ..., N - 1 in turn. *)
Definition train_trace s (N : nat) (optimizer model mll : obj) (train_x train_y : ndarray)
    t : Prop :=
  ∃ iterations,
    Forall2 (iteration_trace s optimizer model mll train_x train_y) (range N) iterations
    ∧ t = concat iterations.

Definition parameters_trace s (model : obj) (lengthscale_attr : string) t : Prop :=
  ∃ noise lengthscale outputscale mean,
    t = [EvCall (param_item model "likelihood.noise_covar.noise") noise s;
         EvPrint (PParam "Noise" noise);
         EvCall (param_item model lengthscale_attr) lengthscale s;
         EvPrint (PParam "Length Scale" lengthscale);
         EvCall (param_item model "covar_module.outputscale") outputscale s;
         EvPrint (PParam "Output Scale" outputscale);
         EvCall (param_item model "mean_module.constant") mean s;
         EvPrint (PParam "Mean" mean)].

(** The likelihood and the model of the time series, built on
    [(train_x, train_y)]. *)
Definition ts_model_trace s (train_x train_y : ndarray) (likelihood model : obj) t : Prop :=
  ∃ mean_module base covar_module,
    t = [EvCall GaussianLikelihood likelihood s;
         EvCall (ExactGP_init train_x train_y likelihood) model s;
         EvCall ConstantMean mean_module s;
         EvCall (set_module model "mean_module" mean_module) tt s;
         EvCall (MaternKernel 2.5%float) base s;
         EvCall (ScaleKernel base) covar_module s;
         EvCall (set_module model "covar_module" covar_module) tt s].

(** The training cell of the time series: training mode, the optimizer over
    the parameters of the model, the marginal log likelihood of the
    likelihood and the model, [N] iterations, the four parameters. *)
Definition ts_train_trace s (N : nat) (likelihood model : obj) (train_x train_y : ndarray)
    t : Prop :=
  ∃ params optimizer mll t_loop t_params,
    train_trace s N optimizer model mll train_x train_y t_loop
    ∧ parameters_trace s model "covar_module.base_kernel.lengthscale" t_params
    ∧ t = [EvCall (module_train model) tt s;
           EvCall (module_train likelihood) tt s;
           EvCall (parameters model) params s;
           EvCall (Adam params 0.1%float) optimizer s;
           EvCall (ExactMarginalLogLikelihood likelihood model) mll s]
          ++ t_loop ++ t_params.

(** The prediction cell of the time series: evaluation mode for the model
    and the likelihood, then [likelihood(model(test_x))] inside
    [with torch.no_grad()], then the figure of the prediction [preds]. *)
Definition ts_predict_trace s (likelihood model : obj) (test_x test_y : ndarray) t : Prop :=
  ∃ d preds t_model lower upper fig1 ax mean,
    model_trace ([no_grad] ++ s) model test_x d t_model
    ∧ t = [EvCall (module_eval model) tt s;
           EvCall (module_eval likelihood) tt s]
          ++ t_model
          ++ [EvCall (likelihood_call likelihood d) preds ([no_grad] ++ s);
              EvCall (confidence_region preds) (lower, upper) s;
              EvCall plt_figure fig1 s;
              EvCall (set_figwidth fig1 8%float) tt s;
              EvCall (set_figheight fig1 8%float) tt s;
              EvCall (add_subplot fig1 1 1 1) ax s;
              EvCall (ax_plot ax (numpy test_x) (numpy test_y) "bo") tt s;
              EvCall (dist_mean preds) mean s;
              EvCall (ax_plot ax (numpy test_x) (numpy mean) "r-") tt s;
              EvCall (fill_between ax (numpy (flatten test_x)) (numpy lower) (numpy upper)
                        0.5%float) tt s;
              EvCall (axvline ax (Start_Day + N_Train)) tt s;
              EvCall plt_show tt s].

(** The time series: model, [N] iterations of training, prediction and
    plot, on the time axes and the targets cut from [output_data_all]. *)
Definition ts_trace s (N : nat) (output_data_all : ndarray) t : Prop :=
  ∃ likelihood model t_model t_train t_predict,
    ts_model_trace s (get ts_train_x) (get (ts_train_y output_data_all))
      likelihood model t_model
    ∧ ts_train_trace s N likelihood model (get ts_train_x)
        (get (ts_train_y output_data_all)) t_train
    ∧ ts_predict_trace s likelihood model (get ts_test_x)
        (get (ts_test_y output_data_all)) t_predict
    ∧ t = t_model ++ t_train ++ t_predict.

(** The variables of the data preparation cell, each with the value its
    statement gives it. *)
Definition ds_data_of (num_tiles : Z) (input_data_all output_data_all : ndarray)
  : ds_data :=
  let tiles_x := get (getitem input_data_all (tiles_x_index num_tiles)) in
  let tiles_x := get (swapaxes tiles_x 1%nat 2%nat) in
  let n_train := shape_prod (take 4%nat (shape tiles_x)) in
  let train_x := get (reshape tiles_x [n_train; -1]) in
  let tiles_y := get (getitem output_data_all (tiles_y_index num_tiles)) in
  let tiles_y := get (swapaxes tiles_y 1%nat 2%nat) in
  let train_y := get (reshape tiles_y [n_train]) in
  DsData tiles_x n_train (Tensor train_x) tiles_y (Tensor train_y).

Definition ds_data_trace (d : ds_data) t : Prop :=
  t = [EvPrint (PShape "tiles_x shape:" (shape (tiles_x d)));
       EvPrint (PShape "train_x shape: " (shape (train_x d)));
       EvPrint (PShape "tiles_y shape" (shape (tiles_y d)));
       EvPrint (PShape "train_y shape:" (shape (train_y d)))].

(** The likelihood and the KISS-GP model of the downscaling, built on
    [(train_x, train_y)]. *)
Definition ds_model_trace s (train_x train_y : ndarray) (likelihood model : obj) t : Prop :=
  ∃ mean_module base_covar_module grid_size kiss covar_module,
    t = [EvCall GaussianLikelihood likelihood s;
         EvCall (ExactGP_init train_x train_y likelihood) model s;
         EvCall ConstantMean mean_module s;
         EvCall (set_module model "mean_module" mean_module) tt s;
         EvCall (MaternKernel 2.5%float) base_covar_module s;
         EvCall (set_module model "base_covar_module" base_covar_module) tt s;
         EvCall (choose_grid_size train_x) grid_size s;
         EvCall (GridInterpolationKernel base_covar_module grid_size
                   (get (last_dim train_x))) kiss s;
         EvCall (ScaleKernel kiss) covar_module s;
         EvCall (set_module model "covar_module" covar_module) tt s].

(** What the training cell of the downscaling moves to the device: the
    model, the likelihood, [train_x] and [train_y] when [use_cuda] holds. *)
Definition ds_cuda_trace s (likelihood model : obj) (train_x train_y : ndarray)
    (v : ds_trained) t : Prop :=
  tr_train_x v = train_x ∧ tr_train_y v = train_y
  ∧ if use_cuda v
    then t = [EvCall (module_cuda model) (tr_model v) s;
              EvCall (module_cuda likelihood) (tr_likelihood v) s;
              EvCall (tensor_cuda train_x) tt s;
              EvCall (tensor_cuda train_y) tt s]
    else t = [] ∧ tr_model v = model ∧ tr_likelihood v = likelihood.

(** The training cell of the downscaling, which leaves the variables [v]:
    the answer of [torch.cuda.is_available()], the moves to the device, the
    optimizer and the marginal log likelihood of the model and the
    likelihood as they are then, [N] iterations, the four parameters. *)
Definition ds_train_trace s (N : nat) (likelihood model : obj) (train_x train_y : ndarray)
    (v : ds_trained) t : Prop :=
  ∃ t_cuda params optimizer mll t_loop t_params,
    ds_cuda_trace s likelihood model train_x train_y v t_cuda
    ∧ train_trace s N optimizer (tr_model v) mll (tr_train_x v) (tr_train_y v) t_loop
    ∧ parameters_trace s (tr_model v) "base_covar_module.lengthscale" t_params
    ∧ t = [EvCall cuda_is_available (use_cuda v) s] ++ t_cuda
          ++ [EvCall (parameters (tr_model v)) params s;
              EvCall (Adam params 0.1%float) optimizer s;
              EvCall (ExactMarginalLogLikelihood (tr_likelihood v) (tr_model v)) mll s]
          ++ t_loop ++ t_params.

(** The test grid, moved to the device when [use_cuda] holds. *)
Definition ds_grid_trace s (use_cuda : bool) (tiles_x : ndarray) (x : ndarray) t : Prop :=
  x = test_x (get (ds_test_grid tiles_x))
  ∧ t = if use_cuda then [EvCall (tensor_cuda x) tt s] else [].

(** The prediction cell of the downscaling: evaluation mode, then
    [likelihood(model(test_x))] and the reads of its mean and variance
    inside [with torch.no_grad(), gpytorch.settings.fast_pred_var()]. *)
Definition ds_predict_trace s (likelihood model : obj) (test_x : ndarray)
    (preds_mean preds_var : ndarray) t : Prop :=
  ∃ d preds_kiss t_model,
    model_trace ([no_grad; fast_pred_var] ++ s) model test_x d t_model
    ∧ t = [EvCall (module_eval model) tt s;
           EvCall (module_eval likelihood) tt s]
          ++ t_model
          ++ [EvCall (likelihood_call likelihood d) preds_kiss ([no_grad; fast_pred_var] ++ s);
              EvCall (dist_mean preds_kiss) preds_mean ([no_grad; fast_pred_var] ++ s);
              EvCall (dist_variance preds_kiss) preds_var ([no_grad; fast_pred_var] ++ s)].

(** The plot cell of the downscaling: the predictive mean and the training
    targets are brought back from the device and drawn as two images. *)
Definition ds_plot_trace s (num_tiles : Z) (preds_mean train_y tiles_x : ndarray) t : Prop :=
  ∃ fig ax1 im1 ax2 im2,
    t = [EvCall (tensor_cpu preds_mean) tt s;
         EvCall (tensor_cpu train_y) tt s;
         EvCall plt_figure fig s;
         EvCall (set_figwidth fig 17%float) tt s;
         EvCall (set_figheight fig 8%float) tt s;
         EvCall (add_axes fig (0.1, 0.1, 0.45, 0.8)%float) ax1 s;
         EvCall (imshow ax1 (get (orig_SVDI num_tiles train_y)) "RdYlGn"
                   (get (plot_extent tiles_x))) im1 s;
         EvCall (tick_params ax1 16) tt s;
         EvCall (set_title ax1 "Original SVDI" 20) tt s;
         EvCall (add_axes fig (0.6, 0.1, 0.45, 0.8)%float) ax2 s;
         EvCall (imshow ax2 (get (downscaled_SVDI num_tiles preds_mean)) "RdYlGn"
                   (get (plot_extent tiles_x))) im2 s;
         EvCall (tick_params ax2 16) tt s;
         EvCall (set_title ax2 "Downscaled SVDI" 20) tt s;
         EvCall plt_show tt s].

(** The downscaling: the prints of the data preparation, the model, [N]
    iterations of training, the test grid, the prediction and the plot. *)
Definition ds_trace s (N : nat) (num_tiles : Z) (input_data_all output_data_all : ndarray)
    t : Prop :=
  let d := ds_data_of num_tiles input_data_all output_data_all in
  ∃ likelihood model v x preds_mean preds_var t_data t_model t_train t_grid t_predict t_plot,
    ds_data_trace d t_data
    ∧ ds_model_trace s (train_x d) (train_y d) likelihood model t_model
    ∧ ds_train_trace s N likelihood model (train_x d) (train_y d) v t_train
    ∧ ds_grid_trace s (use_cuda v) (tiles_x d) x t_grid
    ∧ ds_predict_trace s (tr_likelihood v) (tr_model v) x preds_mean preds_var t_predict
    ∧ ds_plot_trace s num_tiles preds_mean (tr_train_y v) (tiles_x d) t_plot
    ∧ t = t_data ++ t_model ++ t_train ++ t_grid ++ t_predict ++ t_plot.

(** The load cell: the two reads and the print of the two shapes. *)
Definition load_trace (input_data_all output_data_all : ndarray) t : Prop :=
  t = [EvRead path_input; EvRead path_output;
       EvPrint (PShapes (shape input_data_all) (shape output_data_all))].

(** The notebook on the two arrays in the files: the dtype setting, the
    load cell, the time series with [N1] and the downscaling with [N2]
    iterations of training. *)
Definition notebook_trace (N1 N2 : nat) (input_data_all output_data_all : ndarray) t
  : Prop :=
  ∃ t_load t_ts t_ds,
    load_trace input_data_all output_data_all t_load
    ∧ ts_trace [] N1 output_data_all t_ts
    ∧ ds_trace [] N2 Num_Tiles input_data_all output_data_all t_ds
    ∧ t = [EvCall set_default_dtype_float64 tt []] ++ t_load ++ t_ts ++ t_ds.

(** *** Judgements on statements *)

(** [feeds fs s m P Q]: run with the files [fs] and inside the settings
    [s], the statement [m] leaves both as they were; every event before the
    end of the run satisfies [P]; the run ends by returning a value that
    satisfies [Q], or by raising an exception, which is then its last
    event. *)
Definition feeds {A} (fs : gmap string ndarray) s (m : M A) (P : event → Prop)
    (Q : A → Prop) : Prop :=
  ∀ w, files w = fs → settings w = s →
    files (m w).2 = fs ∧ settings (m w).2 = s ∧
    ∃ t, trace (m w).2 = trace w ++ t ∧
      match (m w).1 with
      | Ok a => Forall P t ∧ Q a
      | Raise e => ∃ t0, t = t0 ++ [EvRaise e] ∧ Forall P t0
      end.

(** [follows fs s m S]: run with the files [fs] and inside the settings
    [s], the statement [m] leaves both as they were; when it returns [a],
    its events [t] are a script [S a t]; when it raises, its events are an
    initial part of a script followed by the raising. *)
Definition follows {A} (fs : gmap string ndarray) s (m : M A)
    (S : A → list event → Prop) : Prop :=
  ∀ w, files w = fs → settings w = s →
    files (m w).2 = fs ∧ settings (m w).2 = s ∧
    ∃ t, trace (m w).2 = trace w ++ t ∧
      match (m w).1 with
      | Ok a => S a t
      | Raise e => ∃ t0 a t', t = t0 ++ [EvRaise e] ∧ S a t' ∧ t0 `prefix_of` t'
      end.

(** The script of [m] followed by [f]. *)
Definition then_spec {A B} (S1 : A → list event → Prop)
    (S2 : A → B → list event → Prop) : B → list event → Prop :=
  λ b t, ∃ a t1 t2, S1 a t1 ∧ S2 a b t2 ∧ t = t1 ++ t2.

(** [frame m]: the statement [m] does not look at the files. *)
Definition on_files (fs : gmap string ndarray) (w : world) : world :=
  World fs (lib w) (settings w) (trace w).

Definition frame {A} (m : M A) : Prop :=
  ∀ w fs, m (on_files fs w) = ((m w).1, on_files fs (m w).2).

End Exec.

(** An execution starts with an empty trace and no settings. *)
Definition start {Lib obj} (fs : gmap string ndarray) (l : Lib) : world (Lib:=Lib) (obj:=obj) :=
  World fs l [] [].

(** The paths read, the items printed and the exceptions raised. *)
Definition reads {obj} (t : list (event (obj:=obj))) : list string :=
  omap (λ e, match e with EvRead p => Some p | _ => None end) t.

Definition prints {obj} (t : list (event (obj:=obj))) : list printed :=
  omap (λ e, match e with EvPrint p => Some p | _ => None end) t.

Definition raises {obj} (t : list (event (obj:=obj))) : list exn :=
  omap (λ e, match e with EvRaise x => Some x | _ => None end) t.

(** The iteration numbers printed. *)
Definition printed_iterations {obj} (t : list (event (obj:=obj))) : list nat :=
  omap (λ e, match e with EvPrint (PIteration i) => Some i | _ => None end) t.

(** What the notebook prints: array shapes, iteration numbers, losses and
    the four parameters of a trained model. *)
Definition printed_ok (p : printed) : Prop :=
  match p with
  | PShapes _ _ | PShape _ _ | PIteration _ | PLoss _ => True
  | PParam label _ => label ∈ ["Noise"; "Length Scale"; "Output Scale"; "Mean"]
  end.

(** Printed scalars only: losses (with their iteration numbers) and
    parameters. *)
Definition printed_scalar (p : printed) : Prop :=
  match p with
  | PIteration _ | PLoss _ | PParam _ _ => True
  | PShapes _ _ | PShape _ _ => False
  end.

(** The names of the events of the notebook: the two reads, the prints and
    the torch, gpytorch and matplotlib calls that occur in its cells. *)
Definition vocabulary : list string :=
  ["torch.set_default_dtype"; "np.load " +:+ path_input; "np.load " +:+ path_output;
   "print shapes"; "GaussianLikelihood"; "ExactGP.__init__"; "ConstantMean";
   "module.__setattr__"; "MaternKernel"; "ScaleKernel"; "module.train";
   "model.parameters"; "torch.optim.Adam"; "ExactMarginalLogLikelihood";
   "optimizer.zero_grad"; "model(x)"; "mll(output, y)"; "loss.backward";
   "print iteration"; "print loss"; "optimizer.step"; "parameter.item";
   "print parameter Noise"; "print parameter Length Scale"; "print parameter Output Scale"; "print parameter Mean";
   "module.eval"; "likelihood(dist)"; "dist.confidence_region"; "plt.figure";
   "fig.set_figwidth"; "fig.set_figheight"; "fig.add_subplot"; "ax.plot";
   "dist.mean"; "ax.fill_between"; "ax.axvline"; "plt.show";
   "print shape tiles_x shape:"; "print shape train_x shape: "; "print shape tiles_y shape";
   "print shape train_y shape:"; "choose_grid_size"; "GridInterpolationKernel";
   "torch.cuda.is_available"; "module.cuda"; "tensor.cuda"; "dist.variance";
   "tensor.cpu"; "fig.add_axes"; "ax.imshow"; "ax.tick_params"; "ax.set_title";
   "model.__call__"; "module.__getattr__"; "module(x)"; "MultivariateNormal"].

(** An event of the notebook: one of the names of its cells, no exception;
    a read is of one of the two data files and a print of a shape, an
    iteration number, a loss or one of the four parameters. *)
Definition plain_event {obj} (e : event (obj:=obj)) : Prop :=
  event_name e ∈ vocabulary
  ∧ match e with
    | EvRead path => path = path_input ∨ path = path_output
    | EvPrint p => printed_ok p
    | EvCall _ _ _ => True
    | EvRaise _ => False
    end.

(** The events of [model(x)], of an iteration of a training loop (the
    calls on the optimizer, the loss and its two prints, around the events
    of [model(x)]) and of device placement. *)
Definition model_event {obj} (e : event (obj:=obj)) : bool :=
  match e with
  | EvCall c _ _ =>
      match c with
      | model_enter _ _ | get_module _ _ | module_call _ _ | MultivariateNormal _ _
      | model_call _ _ _ => true
      | _ => false
      end
  | _ => false
  end.

Definition loop_event {obj} (e : event (obj:=obj)) : bool :=
  match e with
  | EvCall c _ _ =>
      match c with
      | zero_grad _ | mll_call _ _ _ | backward _ | optimizer_step _ => true
      | _ => false
      end
  | EvPrint (PIteration _) | EvPrint (PLoss _) => true
  | _ => false
  end.

Definition device_event {obj} (e : event (obj:=obj)) : bool :=
  match e with
  | EvCall c _ _ =>
      match c with
      | module_cuda _ | tensor_cuda _ | tensor_cpu _ => true
      | _ => false
      end
  | _ => false
  end.

(** *** The order of the stages

    The stage an event belongs to.  The print of the two loaded shapes
    belongs to the data load and the prints of the shapes of the reshaped
    arrays to the array reshape; a call of the model belongs to the
    optimization or to the prediction, and device placement and the dtype
    setting to no stage. *)

Inductive stage := SLoad | SReshape | SModel | SOptimize | SPredict | SPlot.

Definition stage_rank (g : stage) : nat :=
  match g with
  | SLoad => 0 | SReshape => 1 | SModel => 2 | SOptimize => 3 | SPredict => 4
  | SPlot => 5
  end.

Definition stage_of {obj} (e : event (obj:=obj)) : option stage :=
  match e with
  | EvRead _ | EvPrint (PShapes _ _) => Some SLoad
  | EvPrint (PShape _ _) => Some SReshape
  | EvPrint (PIteration _) | EvPrint (PLoss _) | EvPrint (PParam _ _) => Some SOptimize
  | EvCall c _ _ =>
      match c with
      | GaussianLikelihood | ExactGP_init _ _ _ | ConstantMean | MaternKernel _
      | ScaleKernel _ | choose_grid_size _ | GridInterpolationKernel _ _ _
      | set_module _ _ _ => Some SModel
      | module_train _ | parameters _ | Adam _ _ | ExactMarginalLogLikelihood _ _
      | zero_grad _ | mll_call _ _ _ | backward _ | optimizer_step _
      | param_item _ _ => Some SOptimize
      | module_eval _ | likelihood_call _ _ | confidence_region _ => Some SPredict
      | plt_figure | set_figwidth _ _ | set_figheight _ _ | add_subplot _ _ _ _
      | add_axes _ _ | ax_plot _ _ _ _ | fill_between _ _ _ _ _ | axvline _ _
      | imshow _ _ _ _ | tick_params _ _ | set_title _ _ _ | plt_show => Some SPlot
      | _ => None
      end
  | EvRaise _ => None
  end.

Definition stages {obj} (t : list (event (obj:=obj))) : list stage := omap stage_of t.

(** One pass through the stages in their order: no event of an earlier
    stage comes after an event of a later one. *)
Fixpoint ascending (l : list nat) : bool :=
  match l with
  | a :: (b :: _) as l' => (a <=? b)%nat && ascending l'
  | _ => true
  end.

Definition single_pass {obj} (t : list (event (obj:=obj))) : Prop :=
  ascending (stage_rank <$> stages t) = true.

(** The same as a walk through the events that keeps the stage reached:
    [climb c t] is the rank reached from rank [c], if the stages of [t] do
    not step back. *)
Fixpoint climb {obj} (c : nat) (t : list (event (obj:=obj))) : option nat :=
  match t with
  | [] => Some c
  | e :: t' =>
      match stage_of e with
      | None => climb c t'
      | Some g => if (c <=? stage_rank g)%nat then climb (stage_rank g) t' else None
      end
  end.

(** The events of device placement of a trace. *)
Definition device_events {obj} (t : list (event (obj:=obj))) : list (event (obj:=obj)) :=
  omap (λ e, if device_event e then Some e else None) t.

(** ** A library to run the notebook against

    A stand-in for torch, gpytorch and matplotlib: every object is the same
    handle, losses and parameters are read off a counter that each optimizer
    step advances, [forward] is called once on the input of the model, and a
    predictive distribution has one mean and one variance per row of the
    last input of the model.  With [fuel = Some n] the library raises at its
    call number [n]. *)

Record demo_state := DemoState {
  seed : Z;
  cuda : bool;
  rows : Z;
  fuel : option nat
}.

Definition demo_value {T} (c : call (obj:=unit) T) (l : demo_state) : T :=
  match c in call T return T with
  | set_default_dtype_float64 | tensor_cuda _ | tensor_cpu _ | module_train _
  | module_eval _ | zero_grad _ | backward _ | optimizer_step _
  | set_module _ _ _ | set_figwidth _ _ | set_figheight _ _ | ax_plot _ _ _ _
  | fill_between _ _ _ _ _ | axvline _ _ | tick_params _ _ | set_title _ _ _
  | plt_show => tt
  | cuda_is_available => cuda l
  | module_cuda _ | parameters _ | Adam _ _ | GaussianLikelihood
  | ExactGP_init _ _ _ | ConstantMean | MaternKernel _ | ScaleKernel _
  | GridInterpolationKernel _ _ _ | get_module _ _ | module_call _ _
  | MultivariateNormal _ _ | ExactMarginalLogLikelihood _ _ | model_call _ _ _
  | likelihood_call _ _ | plt_figure | add_subplot _ _ _ _ | add_axes _ _
  | imshow _ _ _ _ => tt
  | model_enter _ x => [x]
  | param_item _ _ => float_of_Z (seed l)
  | mll_call _ _ _ => float_of_Z (- seed l)
  | choose_grid_size _ => 100
  | confidence_region _ => (zeros [rows l], zeros [rows l])
  | dist_mean _ | dist_variance _ => zeros [rows l]
  end.

Definition demo_next {T} (c : call (obj:=unit) T) (l : demo_state) : demo_state :=
  let fuel' := pred <$> fuel l in
  match c with
  | optimizer_step _ => DemoState (seed l + 1) (cuda l) (rows l) fuel'
  | model_call _ x _ => DemoState (seed l) (cuda l) (hd 0 (shape x)) fuel'
  | _ => DemoState (seed l) (cuda l) (rows l) fuel'
  end.

Definition demo_oracle (T : Type) (s : list setting) (c : call (obj:=unit) T)
    (l : demo_state) : result (T * demo_state) :=
  match fuel l with
  | Some O => Raise (LibraryError 0)
  | _ => Ok (demo_value c l, demo_next c l)
  end.

Definition sample_files : gmap string ndarray :=
  {[ path_input := sample_input; path_output := sample_output ]}.

Definition demo_lib : demo_state := DemoState 1 false 0 None.

(** A quantity depends on the library when two library states give it
    different values. *)
Definition depends_on_library {Lib V} (q : Lib → V) : Prop := ∃ l1 l2, q l1 ≠ q l2.

(** The time axis and the training targets of the time series, as the data
    cell computes them when the notebook runs against the library in state
    [l]. *)
Definition ts_data_with (l : demo_state) : result (ndarray * ndarray) :=
  (cell_ts_data (obj:=unit) sample_output (start sample_files l)).1.

(** What one iteration of the training loop prints against the library in
    state [l]. *)
Definition loss_printed_with (l : demo_state) : list printed :=
  prints (trace (train demo_oracle 1 tt tt tt (zeros [1; 1]) (zeros [1])
                   (start sample_files l)).2).

(** The tile arrays of the sample data set. *)
Definition sample_tiles_x : ndarray :=
  match ds_prep Num_Tiles sample_input sample_output with
  | Ok d => tiles_x d
  | Raise _ => zeros []
  end.

(** A value of each result type, given a library object. *)
Definition call_default {obj} (o : obj) {T} (c : call (obj:=obj) T) : T :=
  match c in call T return T with
  | set_default_dtype_float64 | tensor_cuda _ | tensor_cpu _ | module_train _
  | module_eval _ | zero_grad _ | backward _ | optimizer_step _
  | set_module _ _ _ | set_figwidth _ _ | set_figheight _ _ | ax_plot _ _ _ _
  | fill_between _ _ _ _ _ | axvline _ _ | tick_params _ _ | set_title _ _ _
  | plt_show => tt
  | cuda_is_available => false
  | module_cuda _ | parameters _ | Adam _ _ | GaussianLikelihood
  | ExactGP_init _ _ _ | ConstantMean | MaternKernel _ | ScaleKernel _
  | GridInterpolationKernel _ _ _ | get_module _ _ | module_call _ _
  | MultivariateNormal _ _ | ExactMarginalLogLikelihood _ _ | model_call _ _ _
  | likelihood_call _ _ | plt_figure | add_subplot _ _ _ _ | add_axes _ _
  | imshow _ _ _ _ => o
  | model_enter _ _ => []
  | param_item _ _ | mll_call _ _ _ => 0%float
  | choose_grid_size _ => 0
  | confidence_region _ => (zeros [], zeros [])
  | dist_mean _ | dist_variance _ => zeros []
  end.

(** ** The settings of the library calls

    What holds of every library call together with the settings of the
    [with] blocks it is made in: the model, with the calls of [forward]
    inside it, runs with gradients (in the training loops) or under one of
    the two [with] lines of the prediction cells; the likelihood is applied
    to a prediction under [torch.no_grad()] only; the mean is read outside
    every block or inside the block of the downscaling, the variance inside
    that block; every other call (the construction of the models,
    [zero_grad], the marginal log likelihood, [backward], the optimizer
    steps, the figures) is made outside every [with] block. *)
Definition settings_ok {obj} (e : event (obj:=obj)) : Prop :=
  match e with
  | EvCall c _ s =>
      match c with
      | model_enter _ _ | get_module _ _ | module_call _ _ | MultivariateNormal _ _
      | model_call _ _ _ =>
          s = [] ∨ s = [no_grad] ∨ s = [no_grad; fast_pred_var]
      | likelihood_call _ _ => s = [no_grad] ∨ s = [no_grad; fast_pred_var]
      | dist_mean _ => s = [] ∨ s = [no_grad; fast_pred_var]
      | dist_variance _ => s = [no_grad; fast_pred_var]
      | _ => s = []
      end
  | _ => True
  end.

(** ** The arrays handed to the libraries

    What a library call may receive, given which arrays are the training
    inputs, the training targets and the test inputs: the model is built on
    the training pair, its grid is sized for the training inputs and has
    one dimension per column of them, it is applied to training or test
    inputs, the marginal log likelihood is taken against the training
    targets, only these arrays are moved to the device, and the curves are
    drawn over the test inputs. *)
Definition fed {obj} (is_train_x is_train_y is_test_x : ndarray → Prop)
  : ∀ T, call (obj:=obj) T → Prop :=
  λ T c,
    match c with
    | ExactGP_init x y _ => is_train_x x ∧ is_train_y y
    | choose_grid_size x => is_train_x x
    | GridInterpolationKernel _ _ num_dims => ∃ x, is_train_x x ∧ last_dim x = Ok num_dims
    | model_enter _ x | model_call _ x _ => is_train_x x ∨ is_test_x x
    | mll_call _ _ y => is_train_y y
    | tensor_cuda t => is_train_x t ∨ is_train_y t ∨ is_test_x t
    | ax_plot _ x _ _ => is_test_x x
    | fill_between _ x _ _ _ => ∃ x', is_test_x x' ∧ x = flatten x'
    | _ => True
    end.

(** What the plot cell of the downscaling may hand to torch and matplotlib,
    given its three inputs: only the predictive mean and the training
    targets are brought back from the device; a figure is created only when
    both images and the extent have been computed; and each image drawn is
    one of the two, with the extent read off [tiles_x]. *)
Definition plot_fed {obj} (num_tiles : Z) (preds_mean train_y tiles_x : ndarray)
  : ∀ T, call (obj:=obj) T → Prop :=
  λ T c,
    match c with
    | tensor_cpu t => t = preds_mean ∨ t = train_y
    | plt_figure =>
        is_Ok (downscaled_SVDI num_tiles preds_mean) = true
        ∧ is_Ok (orig_SVDI num_tiles train_y) = true
        ∧ is_Ok (plot_extent tiles_x) = true
    | imshow _ img _ extent =>
        (orig_SVDI num_tiles train_y = Ok img
         ∨ downscaled_SVDI num_tiles preds_mean = Ok img)
        ∧ plot_extent tiles_x = Ok extent
    | _ => True
    end.

Definition event_ok {obj} (P : ∀ T, call (obj:=obj) T → Prop) (e : event (obj:=obj))
  : Prop :=
  match e with
  | EvCall c _ _ => P _ c
  | _ => True
  end.

(** What the notebook hands to the libraries in terms of the two loaded
    arrays: every array argument is one of the arrays of the notebook's own
    making, the time axes and the sliced targets of the time series, the
    flattened training arrays and the test grid of the downscaling. *)
Definition own_fed {obj} (input_data_all output_data_all : ndarray)
  : ∀ T, call (obj:=obj) T → Prop :=
  let ts_x x := ts_train_x = Ok x in
  let ts_y y := ts_train_y output_data_all = Ok y in
  let ts_tx x := ts_test_x = Ok x in
  let ts_ty y := ts_test_y output_data_all = Ok y in
  let ds (P : ds_data → Prop) :=
    ∃ d, ds_prep Num_Tiles input_data_all output_data_all = Ok d ∧ P d in
  let ds_tx d x := test_x <$> ds_test_grid (tiles_x d) = Ok x in
  λ T c,
    match c with
    | ExactGP_init x y _ => (ts_x x ∧ ts_y y) ∨ ds (λ d, x = train_x d ∧ y = train_y d)
    | choose_grid_size x => ds (λ d, x = train_x d)
    | GridInterpolationKernel _ _ num_dims => ds (λ d, last_dim (train_x d) = Ok num_dims)
    | model_enter _ x | model_call _ x _ =>
        ts_x x ∨ ts_tx x ∨ ds (λ d, x = train_x d ∨ ds_tx d x)
    | mll_call _ _ y => ts_y y ∨ ds (λ d, y = train_y d)
    | tensor_cuda t => ds (λ d, t = train_x d ∨ t = train_y d ∨ ds_tx d t)
    | ax_plot _ x y fmt => ts_tx x ∧ (fmt = "bo" → ts_ty y)
    | fill_between _ x _ _ _ => ∃ x', ts_tx x' ∧ x = flatten x'
    | imshow _ _ _ extent => ds (λ d, plot_extent (tiles_x d) = Ok extent)
    | _ => True
    end.

(** What holds of every event of the notebook: it is one of the events of
    its cells, made under the settings of its cell, on arrays of the
    notebook's own making; the events of the cells after the load cell are
    no reads. *)
Definition notebook_event {obj} (input_data_all output_data_all : ndarray)
    (e : event (obj:=obj)) : Prop :=
  plain_event e ∧ settings_ok e ∧ event_ok (own_fed input_data_all output_data_all) e.

Definition cell_event {obj} (input_data_all output_data_all : ndarray)
    (e : event (obj:=obj)) : Prop :=
  notebook_event input_data_all output_data_all e
  ∧ match e with EvRead _ => False | _ => True end.

(** The arrays of the time series and of the downscaling, when their
    cells have run. *)
Definition ts_arrays_ok (output_data_all : ndarray) : Prop :=
  ∃ x y tx ty, ts_train_x = Ok x ∧ ts_train_y output_data_all = Ok y
               ∧ ts_test_x = Ok tx ∧ ts_test_y output_data_all = Ok ty.

Definition ds_arrays_ok (input_data_all output_data_all : ndarray) : Prop :=
  ∃ d g, ds_prep Num_Tiles input_data_all output_data_all = Ok d
         ∧ ds_test_grid (tiles_x d) = Ok g.
(** * Properties *)

(** ** Arrays *)

Section NumPyFacts.

Lemma ravel_bounds sh idx :
  in_bounds sh idx → 0 <= ravel sh idx < shape_prod sh.
Proof.
  induction 1 as [|i d idx sh Hi _ IH]; simpl; [lia|].
  fold (shape_prod sh). nia.
Qed.

Lemma unravel_ravel sh idx :
  in_bounds sh idx → unravel sh (ravel sh idx) = idx.
Proof.
  induction 1 as [|i d idx sh Hi Hrest IH]; simpl; [done|].
  fold (shape_prod sh).
  pose proof (ravel_bounds _ _ Hrest) as Hr.
  rewrite Z.div_add_l, Z.div_small, Z.add_0_r by lia.
  rewrite Z.add_comm, Z.mod_add, Z.mod_small by lia.
  by rewrite IH.
Qed.

Lemma norm_int_inside d i : 0 <= i < d → norm_int d i = Ok i.
Proof.
  intros H. unfold norm_int.
  destruct (Z.ltb_spec i 0); [lia|].
  destruct (Z.leb_spec 0 i); [|lia]. destruct (Z.ltb_spec i d); [done|lia].
Qed.

Lemma norm_slice_inside d lo hi :
  0 <= lo → lo <= hi → hi <= d → norm_slice d (Some lo) (Some hi) = (lo, hi - lo).
Proof.
  intros. unfold norm_slice, clip_bound.
  destruct (Z.ltb_spec lo 0), (Z.ltb_spec hi 0); try lia. f_equal; lia.
Qed.

Lemma norm_slice_all d : 0 <= d → norm_slice d None None = (0, d).
Proof. intros. unfold norm_slice, clip_bound. f_equal; lia. Qed.

Lemma nonneg_no_wildcard ns :
  Forall (λ z, 0 <= z) ns →
  existsb (λ z, z <? -1) ns = false ∧ filter (λ z, z = -1) ns = []
  ∧ known_prod ns = shape_prod ns.
Proof.
  induction 1 as [|z ns Hz _ (IH1 & IH2 & IH3)]; [done|]. repeat split.
  - simpl. destruct (Z.ltb_spec z (-1)); [lia|apply IH1].
  - rewrite filter_cons. destruct (decide (z = -1)); [lia|apply IH2].
  - simpl. destruct (Z.eqb_spec z (-1)); [lia|].
    fold (known_prod ns) (shape_prod ns). by rewrite IH3.
Qed.

Lemma infer_shape_exact total ns :
  Forall (λ z, 0 <= z) ns → shape_prod ns = total → infer_shape total ns = Ok ns.
Proof.
  intros Hns Hp. unfold infer_shape.
  destruct (nonneg_no_wildcard ns Hns) as (-> & -> & ->).
  simpl. by rewrite Hp, Z.eqb_refl.
Qed.

Lemma infer_shape_rows total n k :
  0 < n → 0 <= k → total = n * k → infer_shape total [n; -1] = Ok [n; k].
Proof.
  intros Hn Hk ->. unfold infer_shape. simpl existsb.
  destruct (Z.ltb_spec n (-1)); [lia|]. simpl.
  rewrite filter_cons. destruct (decide (n = -1)); [lia|].
  rewrite filter_cons. destruct (decide (-1 = -1)); [|done]. simpl.
  destruct (Z.eqb_spec n (-1)); [lia|].
  replace (n * 1) with n by lia.
  destruct (Z.eqb_spec n 0); [lia|]. simpl.
  rewrite Z.mul_comm, Z.mod_mul by lia. simpl.
  by rewrite Z.div_mul by lia.
Qed.

Lemma reshape_exact a ns :
  Forall (λ z, 0 <= z) ns → shape_prod ns = asize a →
  reshape a ns = Ok (NDArray ns (λ idx, item a (unravel (shape a) (ravel ns idx)))).
Proof. intros Hns Hp. unfold reshape. by rewrite infer_shape_exact. Qed.

Lemma reshape_rows a n k :
  0 < n → 0 <= k → asize a = n * k →
  reshape a [n; -1]
  = Ok (NDArray [n; k] (λ idx, item a (unravel (shape a) (ravel [n; k] idx)))).
Proof. intros Hn Hk Hp. unfold reshape. by rewrite (infer_shape_rows _ n k). Qed.

End NumPyFacts.

Ltac nonneg_shape :=
  cbn [shape_prod foldr]; repeat (apply Forall_cons_2; [nia|]); apply Forall_nil_2.


Lemma ds_prep_spec nt inp out D A B :
  shape inp = [D; A; B; 16; 16; 2] → shape out = [D; A; B; 16; 16] →
  Day_Number < D → 0 < nt → Start_Lat + nt <= A → Start_Long + nt <= B →
  ∃ d, ds_prep nt inp out = Ok d
    ∧ shape (tiles_x d) = [nt; 16; nt; 16; 2]
    ∧ n_train d = 256 * nt * nt
    ∧ shape (train_x d) = [256 * nt * nt; 2]
    ∧ shape (train_y d) = [256 * nt * nt]
    ∧ (∀ i r j c k, item (tiles_x d) [i; r; j; c; k]
         = item inp [Day_Number; Start_Lat + i; Start_Long + j; r; c; k])
    ∧ (∀ i r j c k, 0 <= i < nt → 0 <= j < nt → 0 <= r < 16 → 0 <= c < 16 →
         0 <= k < 2 →
         item (train_x d) [ds_flat nt i r j c; k]
         = item inp [Day_Number; Start_Lat + i; Start_Long + j; r; c; k])
    ∧ (∀ i r j c, 0 <= i < nt → 0 <= j < nt → 0 <= r < 16 → 0 <= c < 16 →
         item (train_y d) [ds_flat nt i r j c]
         = item out [Day_Number; Start_Lat + i; Start_Long + j; r; c]).
Proof.
  intros Hin Hout HD Hnt HA HB.
  unfold Day_Number, Start_Lat, Start_Long in *.
  unfold ds_prep, getitem, tiles_x_index, tiles_y_index, All, Day_Number, Start_Lat, Start_Long.
  rewrite Hin, Hout. cbn [plan mbind result_bind fmap list_fmap].
  rewrite !norm_int_inside by lia.
  rewrite !norm_slice_inside, !norm_slice_all by lia.
  cbn [mbind result_bind fst snd sel_shape].
  replace (4 + nt - 4) with nt by lia. replace (14 + nt - 14) with nt by lia.
  replace (16 - 0) with 16 by lia. replace (2 - 0) with 2 by lia.
  unfold swapaxes, ndim. cbn [shape length Nat.ltb Nat.leb andb].
  cbn [mbind result_bind shape].
  change (swap_at 1 2 [nt; nt; 16; 16; 2]) with [nt; 16; nt; 16; 2].
  change (swap_at 1 2 [nt; nt; 16; 16]) with [nt; 16; nt; 16].
  cbn [shape take].
  rewrite (reshape_rows _ _ 2) by (cbn; lia).
  cbn [mbind result_bind].
  rewrite reshape_exact; [| nonneg_shape | cbn; lia ].
  cbn [mbind result_bind].
  eexists. split; [reflexivity|].
  cbn [tiles_x n_train train_x train_y shape item Tensor shape_prod foldr].
  split; [done|]. split; [lia|]. split; [f_equal; lia|]. split; [f_equal; lia|].
  split; [|split].
  - intros. reflexivity.
  - intros i r j c k Hi Hj Hr Hc Hk.
    replace (ravel _ [ds_flat nt i r j c; k]) with (ravel [nt; 16; nt; 16; 2] [i; r; j; c; k])
      by (unfold ds_flat; cbn; lia).
    rewrite unravel_ravel by (repeat constructor; lia). reflexivity.
  - intros i r j c Hi Hj Hr Hc.
    replace (ravel _ [ds_flat nt i r j c]) with (ravel [nt; 16; nt; 16] [i; r; j; c])
      by (unfold ds_flat; cbn; lia).
    rewrite unravel_ravel by (repeat constructor; lia). reflexivity.
Qed.
Lemma delta_vecs_spec dlat dlong :
  shape dlat = [] → shape dlong = [] →
  ∃ d, delta_vecs dlat dlong = Ok d
    ∧ shape d = [1; 1; 2; 1; 1; 2; 2]
    ∧ ∀ a b k, 0 <= a < 2 → 0 <= b < 2 → 0 <= k < 2 →
        item d [0; 0; a; 0; 0; b; k] = offset (item dlat []) (item dlong []) a b k.
Proof.
  destruct dlat as [s1 f1], dlong as [s2 f2]. cbn [shape item]. intros -> ->.
  eexists. split; [vm_compute; reflexivity|]. split; [reflexivity|].
  intros a b k Ha Hb Hk.
  assert (a = 0 ∨ a = 1) as [-> | ->] by lia;
  assert (b = 0 ∨ b = 1) as [-> | ->] by lia;
  assert (k = 0 ∨ k = 1) as [-> | ->] by lia; reflexivity.
Qed.

Lemma broadcast_test_tiles nt :
  2 <= nt →
  broadcast_shapes [nt; 16; 1; nt; 16; 1; 2] [1; 1; 2; 1; 1; 2; 2]
  = Ok [nt; 16; 2; nt; 16; 2; 2].
Proof.
  intros H. unfold broadcast_shapes.
  change (reverse [nt; 16; 1; nt; 16; 1; 2]) with [2; 1; 16; nt; 1; 16; nt].
  change (reverse [1; 1; 2; 1; 1; 2; 2]) with [2; 2; 1; 1; 2; 1; 1].
  cbn [broadcast_rev mbind result_bind].
  destruct (Z.eqb_spec nt 1) as [?|_]; [lia|]. cbn.
  destruct (Z.eqb_spec nt 1) as [?|_]; [lia|]. reflexivity.
Qed.

Lemma dim_O d sh : dim (d :: sh) 0 = Ok d.
Proof. reflexivity. Qed.

Lemma dim_S d sh k : dim (d :: sh) (S k) = dim sh k.
Proof. reflexivity. Qed.

Lemma ds_test_grid_spec nt tiles :
  shape tiles = [nt; 16; nt; 16; 2] → 2 <= nt →
  ∃ g, ds_test_grid tiles = Ok g
    ∧ shape (dlat g) = [] ∧ shape (dlong g) = []
    ∧ item (dlat g) [] = PrimFloat.sub (item tiles [0;0;0;0;0]) (item tiles [0;0;1;0;0])
    ∧ item (dlong g) [] = PrimFloat.sub (item tiles [0;0;0;1;1]) (item tiles [0;0;0;0;1])
    ∧ n_test g = 1024 * nt * nt
    ∧ shape (test_x g) = [1024 * nt * nt; 2]
    ∧ (∀ i r a j c b k, 0 <= i < nt → 0 <= r < 16 → 0 <= a < 2 → 0 <= j < nt →
         0 <= c < 16 → 0 <= b < 2 → 0 <= k < 2 →
         item (test_x g) [test_flat nt i r a j c b; k]
         = PrimFloat.add (item tiles [i; r; j; c; k])
                         (offset (item (dlat g) []) (item (dlong g) []) a b k)).
Proof.
  intros Hs Hnt.
  unfold ds_test_grid, dlat_of, dlong_of, getitem. rewrite Hs.
  cbn [plan mbind result_bind fmap list_fmap].
  rewrite !norm_int_inside by lia.
  cbn [mbind result_bind sel_shape].
  unfold sub, broadcast2. cbn [shape].
  change (broadcast_shapes [] []) with (Ok (@nil Z)).
  cbn [mbind result_bind].
  unfold expand_dims, ndim. rewrite Hs. cbn [length Nat.add].
  change (bool_decide (Forall (λ ax : nat, (ax < 7)%nat) [2%nat; 5%nat])) with true.
  change (bool_decide (NoDup [2%nat; 5%nat])) with true.
  change (expand_shape [2%nat; 5%nat] 0 7 [nt; 16; nt; 16; 2])
    with [nt; 16; 1; nt; 16; 1; 2].
  cbn [mbind result_bind].
  match goal with |- context [delta_vecs ?x ?y] =>
    destruct (delta_vecs_spec x y eq_refl eq_refl) as (dv & -> & Hdsh & Hdv)
  end.
  cbn [mbind result_bind]. unfold add, broadcast2. cbn [shape]. rewrite Hdsh.
  rewrite broadcast_test_tiles by done.
  cbn [mbind result_bind shape].
  rewrite !dim_S, !dim_O. cbn [mbind result_bind].
  rewrite reshape_exact; [| nonneg_shape | cbn; lia].
  cbn [mbind result_bind shape take].
  rewrite (reshape_rows _ _ 2) by (cbn; lia).
  cbn [mbind result_bind].
  eexists. split; [reflexivity|].
  cbn [dlat dlong n_test test_x shape item Tensor shape_prod foldr].
  split; [done|]. split; [done|]. split; [reflexivity|]. split; [reflexivity|].
  split; [lia|]. split; [f_equal; lia|].
  intros i r a j c b k Hi Hr Ha Hj Hc Hb Hk.
  replace (ravel _ [test_flat nt i r a j c b; k])
    with (ravel [nt; 16 * 2; nt; 16 * 2; 2] [i; 2 * r + a; j; 2 * c + b; k])
    by (unfold test_flat; cbn; lia).
  rewrite unravel_ravel by (repeat constructor; lia).
  replace (ravel [nt; 16 * 2; nt; 16 * 2; 2] [i; 2 * r + a; j; 2 * c + b; k])
    with (ravel [nt; 16; 2; nt; 16; 2; 2] [i; r; a; j; c; b; k])
    by (cbn; lia).
  rewrite unravel_ravel by (repeat constructor; lia).
  rewrite <- Hdv by done.
  unfold bindex. cbn [length Nat.sub drop zip_with].
  destruct (Z.eqb_spec nt 1) as [?|_]; [lia|]. reflexivity.
Qed.

(** The data preparation cell returns what [ds_prep] computes, whatever
    the state of the libraries. *)
Lemma cell_ds_data_result {Lib obj} nt inp out (w : world (Lib:=Lib) (obj:=obj)) :
  (cell_ds_data nt inp out w).1 = ds_prep nt inp out.
Proof.
  unfold cell_ds_data, ds_prep.
  unfold lift, py_print, raise.
  unfold mbind, mret, M_bind, M_ret, result_bind.
  destruct (getitem inp _) as [tx|?]; [|done]. cbn.
  destruct (swapaxes tx _ _) as [tx'|?]; [|done]. cbn.
  destruct (reshape tx' _) as [x|?]; [|done]. cbn.
  destruct (getitem out _) as [ty|?]; [|done].
  destruct (swapaxes ty _ _) as [ty'|?]; [|done]. cbn.
  destruct (reshape ty' _) as [y|?]; done.
Qed.

(** C4: for the downscaling data prep (Num_Tiles = 8, Day_Number = 100,
    Start_Lat = 4, Start_Long = 14) on arrays of the files' layout, the
    swapaxes-then-reshape flattening puts the value of tile (i, j), point
    (r, c) at position ((i*16 + r)*Num_Tiles + j)*16 + c of train_y, and the
    two coordinates of that point in the row of train_x at the same
    position; train_x has shape (256 * Num_Tiles^2, 2) and train_y has shape
    (256 * Num_Tiles^2,). *)
Theorem C4_swapaxes_reshape_flattening {Lib obj} (input_data_all output_data_all : ndarray)
    (D A B : Z) :
  shape input_data_all = [D; A; B; 16; 16; 2] →
  shape output_data_all = [D; A; B; 16; 16] →
  Day_Number < D → Start_Lat + Num_Tiles <= A → Start_Long + Num_Tiles <= B →
  ∃ d,
    (∀ w : world (Lib:=Lib) (obj:=obj),
       (cell_ds_data Num_Tiles input_data_all output_data_all w).1 = Ok d)
    ∧ shape (train_x d) = [256 * Num_Tiles ^ 2; 2]
    ∧ shape (train_y d) = [256 * Num_Tiles ^ 2]
    ∧ ∀ i j r c, 0 <= i < Num_Tiles → 0 <= j < Num_Tiles → 0 <= r < 16 → 0 <= c < 16 →
        item (train_y d) [((i * 16 + r) * Num_Tiles + j) * 16 + c]
        = item output_data_all [Day_Number; Start_Lat + i; Start_Long + j; r; c]
        ∧ ∀ k, 0 <= k < 2 →
            item (train_x d) [((i * 16 + r) * Num_Tiles + j) * 16 + c; k]
            = item input_data_all [Day_Number; Start_Lat + i; Start_Long + j; r; c; k].
Proof.
  intros Hin Hout HD HA HB.
  destruct (ds_prep_spec Num_Tiles input_data_all output_data_all D A B
              Hin Hout HD ltac:(unfold Num_Tiles; lia) HA HB)
    as (d & Hd & _ & _ & Hx & Hy & _ & Hix & Hiy).
  exists d. split; [intros w; by rewrite cell_ds_data_result|].
  split; [rewrite Hx; reflexivity|]. split; [rewrite Hy; reflexivity|].
  intros i j r c Hi Hj Hr Hc. split.
  - apply (Hiy i r j c); done.
  - intros k Hk. apply (Hix i r j c k); done.
Qed.

(** C4 on the sample data set, at tile (3, 2) and point (5, 7). *)
Lemma C4_witness :
  ∃ d, ds_prep Num_Tiles sample_input sample_output = Ok d
     ∧ item (train_y d) [((3 * 16 + 5) * Num_Tiles + 2) * 16 + 7]
       = item sample_output [Day_Number; Start_Lat + 3; Start_Long + 2; 5; 7].
Proof.
  destruct (C4_swapaxes_reshape_flattening (Lib:=demo_state) (obj:=unit)
              sample_input sample_output 365 18 39
              eq_refl eq_refl eq_refl ltac:(discriminate) ltac:(discriminate))
    as (d & Hd & _ & _ & Hi).
  exists d. split.
  - rewrite <- (cell_ds_data_result (obj:=unit) _ _ _ (start sample_files demo_lib)).
    apply Hd.
  - apply (Hi 3 2 5 7); unfold Num_Tiles; lia.
Defined.

(** The time axes: [np.arange(start, start + n, dtype=np.float64)
    .reshape((n, 1))] is the column of the days from [start] on. *)
Lemma time_axis_spec start n :
  0 <= n →
  ∃ x, Tensor <$> reshape (arange start (start + n)) [n; 1] = Ok x
     ∧ shape x = [n; 1]
     ∧ ∀ k, 0 <= k < n → item x [k; 0] = float_of_Z (start + k).
Proof.
  intros Hn. rewrite reshape_exact; [| nonneg_shape | unfold asize; cbn; lia].
  eexists. split; [reflexivity|]. split; [reflexivity|].
  intros k Hk. cbn [fmap result_fmap Tensor item arange shape].
  replace (ravel [n; 1] [k; 0]) with (ravel [Z.max 0 (start + n - start)] [k])
    by (cbn; lia).
  rewrite unravel_ravel by (repeat constructor; lia). reflexivity.
Qed.

(** The time series of one grid point: a slice of days at fixed tile and
    point. *)
Lemma time_series_spec out D A B R C start n :
  shape out = [D; A; B; R; C] →
  0 <= start → 0 <= n → start + n <= D →
  long < A → lat < B → point.1 < R → point.2 < C →
  ∃ y, Tensor <$> getitem out (ts_index start n) = Ok y
     ∧ shape y = [n]
     ∧ ∀ k, item y [k] = item out [start + k; long; lat; point.1; point.2].
Proof.
  intros Hs Hst Hn HD HA HB HR HC. unfold getitem, ts_index. rewrite Hs.
  unfold long, lat, point in *. cbn [fst snd] in *.
  cbn [plan mbind result_bind fmap list_fmap].
  rewrite !norm_int_inside by lia. rewrite norm_slice_inside by lia.
  cbn [mbind result_bind fst snd sel_shape fmap result_fmap].
  eexists. split; [reflexivity|]. cbn [Tensor shape item].
  split; [f_equal; lia|]. intros k. reflexivity.
Qed.

(** C9: in the time-series section the test set extends the training set:
    on data with at least Start_Test + Test_Days days, test_x and test_y
    agree with train_x and train_y on the N_Train training days, and test_x
    continues with the 30 consecutive days after the training window. *)
Theorem C9_test_extends_train (output_data_all : ndarray) (D A B R C : Z) :
  shape output_data_all = [D; A; B; R; C] →
  Start_Test + Test_Days <= D →
  long < A → lat < B → point.1 < R → point.2 < C →
  ∃ train_x train_y test_x test_y,
    ts_train_x = Ok train_x ∧ ts_train_y output_data_all = Ok train_y
    ∧ ts_test_x = Ok test_x ∧ ts_test_y output_data_all = Ok test_y
    ∧ shape train_x = [N_Train; 1] ∧ shape train_y = [N_Train]
    ∧ shape test_x = [N_Train + 30; 1] ∧ shape test_y = [N_Train + 30]
    ∧ (∀ k, 0 <= k < N_Train →
         item test_x [k; 0] = item train_x [k; 0]
         ∧ item test_y [k] = item train_y [k])
    ∧ (∀ k, 0 <= k < 30 →
         item test_x [N_Train + k; 0] = float_of_Z (Start_Day + N_Train + k)).
Proof.
  intros Hs HD HA HB HR HC.
  unfold Start_Test, Test_Days, Start_Day, N_Train in HD.
  destruct (time_axis_spec Start_Day N_Train) as (x & Hx & Hxs & Hxi); [done|].
  destruct (time_axis_spec Start_Test Test_Days) as (x' & Hx' & Hxs' & Hxi'); [done|].
  destruct (time_series_spec output_data_all D A B R C Start_Day N_Train)
    as (y & Hy & Hys & Hyi); try done; [unfold Start_Day, N_Train; lia|].
  destruct (time_series_spec output_data_all D A B R C Start_Test Test_Days)
    as (y' & Hy' & Hys' & Hyi'); try done.
  exists x, y, x', y'. split_and!; try done.
  - intros k Hk. split.
    + rewrite Hxi', Hxi; [done| done |]. unfold Test_Days, N_Train in *. lia.
    + by rewrite Hyi', Hyi.
  - intros k Hk. rewrite Hxi'; [|unfold Test_Days, N_Train; lia].
    unfold Start_Test. f_equal. lia.
Qed.

(** C9 on the sample data set, at the last training day. *)
Lemma C9_witness :
  ∃ train_y test_y,
    ts_train_y sample_output = Ok train_y ∧ ts_test_y sample_output = Ok test_y
    ∧ item test_y [119] = item train_y [119].
Proof.
  destruct (C9_test_extends_train sample_output 365 18 39 16 16
              eq_refl ltac:(discriminate) eq_refl eq_refl eq_refl eq_refl)
    as (x & y & x' & y' & _ & Hy & _ & Hy' & _ & _ & _ & _ & H & _).
  exists y, y'. split; [done|]. split; [done|].
  apply (H 119). unfold N_Train. lia.
Defined.

(** With a single tile per side the test grid cannot be built: [dlat] reads
    longitude tile 1. *)
Lemma ds_test_grid_one_tile tiles :
  shape tiles = [1; 16; 1; 16; 2] → ds_test_grid tiles = Raise IndexError.
Proof.
  intros Hs. unfold ds_test_grid, dlat_of, getitem. rewrite Hs. reflexivity.
Qed.

(** C10, amended: for every Num_Tiles >= 1 whose two tile slices lie inside
    the data (Start_Lat + Num_Tiles and Start_Long + Num_Tiles within the
    numbers of latitude and longitude tiles), the flattened training targets
    have odim^2 = n_train elements and reshape((odim, odim)) succeeds; and
    when the test grid has been built, n_test = ddim^2 and reshape((ddim,
    ddim)) succeeds on every array of n_test predictive means. *)
Theorem C10_image_reshapes (num_tiles : Z) (input_data_all output_data_all : ndarray)
    (D A B : Z) :
  shape input_data_all = [D; A; B; 16; 16; 2] →
  shape output_data_all = [D; A; B; 16; 16] →
  Day_Number < D → 0 < num_tiles →
  Start_Lat + num_tiles <= A → Start_Long + num_tiles <= B →
  ∃ d, ds_prep num_tiles input_data_all output_data_all = Ok d
    ∧ n_train d = odim num_tiles * odim num_tiles
    ∧ asize (train_y d) = n_train d
    ∧ is_Ok (orig_SVDI num_tiles (train_y d)) = true
    ∧ ∀ g, ds_test_grid (tiles_x d) = Ok g →
        n_test g = ddim num_tiles * ddim num_tiles
        ∧ ∀ preds_mean, shape preds_mean = [n_test g] →
            is_Ok (downscaled_SVDI num_tiles preds_mean) = true.
Proof.
  intros Hin Hout HD Hnt HA HB.
  destruct (ds_prep_spec num_tiles input_data_all output_data_all D A B
              Hin Hout HD Hnt HA HB)
    as (d & Hd & Htx & Hn & _ & Hy & _).
  exists d. split; [done|]. unfold ddim, odim. split; [lia|].
  split; [unfold asize; rewrite Hy, Hn; cbn; lia|]. split.
  - unfold orig_SVDI, numpy, odim. rewrite reshape_exact; [done | nonneg_shape |].
    unfold asize. rewrite Hy. cbn. lia.
  - intros g Hg.
    assert (n_test g = 1024 * num_tiles * num_tiles) as Hnt'.
    { destruct (decide (num_tiles = 1)) as [->|Hne].
      - rewrite ds_test_grid_one_tile in Hg by done. discriminate.
      - destruct (ds_test_grid_spec num_tiles (tiles_x d) Htx ltac:(lia))
          as (g' & Hg' & _ & _ & _ & _ & Hn' & _).
        rewrite Hg' in Hg. by injection Hg as <-. }
    split; [lia|]. intros preds_mean Hp.
    unfold downscaled_SVDI, numpy, ddim, odim. rewrite reshape_exact; [done | nonneg_shape |].
    unfold asize. rewrite Hp, Hnt'. cbn. lia.
Qed.

(** C10 on the sample data set with the notebook's Num_Tiles = 8. *)
Lemma C10_witness :
  ∃ d, ds_prep Num_Tiles sample_input sample_output = Ok d
     ∧ is_Ok (orig_SVDI Num_Tiles (train_y d)) = true.
Proof.
  destruct (C10_image_reshapes Num_Tiles sample_input sample_output 365 18 39
              eq_refl eq_refl eq_refl eq_refl ltac:(discriminate) ltac:(discriminate))
    as (d & Hd & _ & _ & Hok & _).
  by exists d.
Defined.

(** C10 as stated fails: the data has 18 by 39 tiles, and with
    Num_Tiles = 15 the latitude slice 4:19 is clipped to 14 tiles, so
    train_y has 14*16 * 15*16 = 53760 elements, not odim^2 = 57600, and
    reshape((odim, odim)) raises. *)
Lemma C10_counterexample :
  ∃ d, ds_prep 15 sample_input sample_output = Ok d
     ∧ shape (tiles_x d) = [14; 16; 15; 16; 2]
     ∧ asize (train_y d) = 53760
     ∧ odim 15 * odim 15 = 57600
     ∧ orig_SVDI 15 (train_y d) = Raise ValueError.
Proof.
  eexists. split; [reflexivity|]. vm_compute. by split_and!.
Qed.

(** On every data set of the files' layout, [dlat] is the difference of the
    latitudes of the first points of two neighbouring longitude tiles (tile
    Start_Long and tile Start_Long + 1, 16 columns apart), while [dlong] is
    the difference of the longitudes of two neighbouring columns. *)
Lemma dlat_is_taken_across_longitude_tiles nt inp out D A B :
  shape inp = [D; A; B; 16; 16; 2] → shape out = [D; A; B; 16; 16] →
  Day_Number < D → 2 <= nt → Start_Lat + nt <= A → Start_Long + nt <= B →
  ∃ d g, ds_prep nt inp out = Ok d ∧ ds_test_grid (tiles_x d) = Ok g
    ∧ item (dlat g) []
      = PrimFloat.sub (item inp [Day_Number; Start_Lat; Start_Long; 0; 0; 0])
                      (item inp [Day_Number; Start_Lat; Start_Long + 1; 0; 0; 0])
    ∧ item (dlong g) []
      = PrimFloat.sub (item inp [Day_Number; Start_Lat; Start_Long; 0; 1; 1])
                      (item inp [Day_Number; Start_Lat; Start_Long; 0; 0; 1]).
Proof.
  intros Hin Hout HD Hnt HA HB.
  destruct (ds_prep_spec nt inp out D A B Hin Hout HD ltac:(lia) HA HB)
    as (d & Hd & Htx & _ & _ & _ & Hitem & _).
  destruct (ds_test_grid_spec nt (tiles_x d) Htx Hnt)
    as (g & Hg & _ & _ & Hdlat & Hdlong & _).
  exists d, g. split; [done|]. split; [done|].
  rewrite Hdlat, Hdlong, !Hitem. done.
Qed.

(** C2 at a regular grid: latitude falls by one per row and longitude
    grows by one per column, so a cell side is 1 in both directions.  The
    code finds dlong = 1 but dlat = 0: index 2 of [tiles_x] after
    [swapaxes] is the longitude tile, not the row.  The test points north
    and south of a training point then coincide. *)
Theorem C2_dlat_on_regular_grid :
  on_ok (ds_test_grid sample_tiles_x) (λ g,
    shape (test_x g) = [4 * 16384; 2]
    ∧ PrimFloat.sub (item sample_tiles_x [0; 0; 0; 0; 0])
                    (item sample_tiles_x [0; 1; 0; 0; 0]) = 1%float
    ∧ item (dlong g) [] = 1%float
    ∧ item (dlat g) [] = 0%float
    ∧ item (test_x g) [test_flat 8 0 0 0 0 0 0; 0]
      = item (test_x g) [test_flat 8 0 0 1 0 0 0; 0]).
Proof. vm_compute. by split_and!. Qed.


(** ** Executions

    The rules of the three judgements on statements. *)

Section Rules.
Context {Lib obj : Type}.
Variable oracle : ∀ T, list setting → call (obj:=obj) T → Lib → result (T * Lib).

Implicit Types (w : world (Lib:=Lib) (obj:=obj)) (s : list setting).
Implicit Types (fs : gmap string ndarray) (t : list (event (obj:=obj))).
Implicit Types (P : event (obj:=obj) → Prop).

(** *** What holds of every event *)

Lemma feeds_ret {A} fs s (a : A) P (Q : A → Prop) :
  Q a → feeds (Lib:=Lib) fs s (mret a) P Q.
Proof.
  intros HQ w Hf Hs. split; [done|]. split; [done|].
  exists []. by rewrite app_nil_r.
Qed.

Lemma feeds_raise {A} fs s (e : exn) P (Q : A → Prop) :
  feeds (Lib:=Lib) fs s (raise e) P Q.
Proof.
  intros w Hf Hs. split; [done|]. split; [done|].
  exists [EvRaise e]. split; [done|]. by exists [].
Qed.

Lemma feeds_lift {A} fs s (r : result A) P (Q : A → Prop) :
  (∀ a, r = Ok a → Q a) → feeds (Lib:=Lib) fs s (lift r) P Q.
Proof. destruct r; intros H; [apply feeds_ret; by apply H | apply feeds_raise]. Qed.

Lemma feeds_print fs s p P (Q : unit → Prop) :
  P (EvPrint p) → Q tt → feeds (Lib:=Lib) fs s (py_print p) P Q.
Proof.
  intros HP HQ w Hf Hs. split; [done|]. split; [done|].
  exists [EvPrint p]. split; [done|]. split; [by apply Forall_singleton|done].
Qed.

Lemma feeds_load fs s path P (Q : ndarray → Prop) :
  P (EvRead path) → (∀ a, fs !! path = Some a → Q a) →
  feeds (Lib:=Lib) fs s (np_load path) P Q.
Proof.
  intros HP HQ w Hf Hs. unfold np_load. cbn. rewrite Hf.
  destruct (fs !! path) as [a|] eqn:E; cbn.
  - split; [done|]. split; [done|]. exists [EvRead path]. split; [done|].
    split; [by apply Forall_singleton|by apply HQ].
  - split; [done|]. split; [done|].
    exists [EvRead path; EvRaise (FileNotFoundError path)].
    split; [by rewrite <- app_assoc|]. exists [EvRead path]. split; [done|].
    by apply Forall_singleton.
Qed.

Lemma feeds_ext {T} fs s (c : call T) P (Q : T → Prop) :
  (∀ r, P (EvCall c r s)) → (∀ r, Q r) → feeds fs s (ext oracle c) P Q.
Proof.
  intros HP HQ w Hf Hs. unfold ext. rewrite Hs.
  destruct (oracle T s c (lib w)) as [[r l]|e]; cbn.
  - split; [done|]. split; [done|]. exists [EvCall c r s]. split; [done|].
    split; [by apply Forall_singleton|apply HQ].
  - split; [done|]. split; [done|]. exists [EvRaise e]. split; [done|]. by exists [].
Qed.

Lemma feeds_bind {A B} fs s (m : M A) (f : A → M B) P (Q1 : A → Prop) (Q : B → Prop) :
  feeds (Lib:=Lib) fs s m P Q1 → (∀ a, Q1 a → feeds fs s (f a) P Q) → feeds fs s (m ≫= f) P Q.
Proof.
  intros Hm Hf w Hfs Hs. unfold mbind, M_bind.
  destruct (Hm w Hfs Hs) as (Hfs1 & Hs1 & t & Ht & H).
  destruct (m w) as [[a|e] w1]; cbn in *.
  - destruct H as [HP HQ1].
    destruct (Hf a HQ1 w1 Hfs1 Hs1) as (Hfs2 & Hs2 & t' & Ht' & H').
    split; [done|]. split; [done|].
    exists (t ++ t'). split; [by rewrite Ht', Ht, app_assoc|].
    destruct ((f a w1).1) as [b|e].
    + destruct H' as [HP' HQ]. split; [by apply Forall_app|done].
    + destruct H' as (t0 & -> & HP'). exists (t ++ t0).
      split; [by rewrite app_assoc|]. by apply Forall_app.
  - split; [done|]. split; [done|]. by exists t.
Qed.

Lemma feeds_with_settings {A} fs s s' (m : M A) P (Q : A → Prop) :
  feeds (Lib:=Lib) fs (s' ++ s) m P Q → feeds fs s (with_settings s' m) P Q.
Proof.
  intros Hm w Hfs <-. unfold with_settings.
  specialize (Hm (World (files w) (lib w) (s' ++ settings w) (trace w)) Hfs eq_refl).
  destruct (m _) as [r w']. cbn in *. destruct Hm as (Hf' & _ & Ht).
  split; [done|]. split; [done|]. exact Ht.
Qed.

Lemma feeds_weaken {A} fs s (m : M A) P (Q Q' : A → Prop) :
  feeds (Lib:=Lib) fs s m P Q → (∀ a, Q a → Q' a) → feeds fs s m P Q'.
Proof.
  intros H HQ w Hfs Hs. destruct (H w Hfs Hs) as (? & ? & t & Ht & Hr).
  split; [done|]. split; [done|]. exists t. split; [done|].
  destruct ((m w).1); [|done]. destruct Hr. split; [done|]. by apply HQ.
Qed.

Lemma feeds_for_each {A} fs s (body : A → M unit) xs P :
  (∀ x, feeds (Lib:=Lib) fs s (body x) P (λ _, True)) →
  feeds fs s (for_each xs body) P (λ _, True).
Proof.
  intros Hb. induction xs as [|x xs IH]; cbn [for_each].
  - by apply feeds_ret.
  - apply (feeds_bind _ _ _ _ _ (λ _, True)); [apply Hb|]. intros _ _. apply IH.
Qed.

Lemma feeds_for_list {A B} fs s (body : A → M B) xs P :
  (∀ x, feeds (Lib:=Lib) fs s (body x) P (λ _, True)) →
  feeds fs s (for_list xs body) P (λ _, True).
Proof.
  intros Hb. induction xs as [|x xs IH]; cbn [for_list].
  - by apply feeds_ret.
  - apply (feeds_bind _ _ _ _ _ (λ _, True)); [apply Hb|]. intros b _.
    apply (feeds_bind _ _ _ _ _ (λ _, True)); [apply IH|]. intros bs _.
    by apply feeds_ret.
Qed.

Lemma feeds_assoc {A B C} fs s (m : M A) (f : A → M B) (g : B → M C) P (Q : C → Prop) :
  feeds (Lib:=Lib) fs s (m ≫= λ a, f a ≫= g) P Q → feeds fs s ((m ≫= f) ≫= g) P Q.
Proof.
  intros H w. specialize (H w). unfold mbind, M_bind in *.
  by destruct (m w) as [[a|e] w1].
Qed.

Lemma feeds_ret_bind {A B} fs s (a : A) (f : A → M B) P (Q : B → Prop) :
  feeds (Lib:=Lib) fs s (f a) P Q → feeds fs s (mret a ≫= f) P Q.
Proof. intros H w. apply (H w). Qed.

(** The events of a run, and what they satisfy, from the judgement. *)
Lemma feeds_run {A} fs s (m : M A) P (Q : A → Prop) w :
  feeds (Lib:=Lib) fs s m P Q → files w = fs → settings w = s →
  files (m w).2 = fs ∧ settings (m w).2 = s ∧
  ∃ t0, trace (m w).2
        = trace w ++ t0 ++ match (m w).1 with Ok _ => [] | Raise e => [EvRaise e] end
      ∧ Forall P t0 ∧ ∀ a, (m w).1 = Ok a → Q a.
Proof.
  intros H Hfs Hs. destruct (H w Hfs Hs) as (? & ? & t & Ht & Hr).
  split; [done|]. split; [done|].
  destruct ((m w).1) as [a|e].
  - destruct Hr. exists t. rewrite app_nil_r. split; [done|]. split; [done|].
    by intros ? [= <-].
  - destruct Hr as (t0 & -> & ?). exists t0. done.
Qed.


(** *** The script of an execution *)

Lemma follows_ret {A} fs s (a : A) :
  follows (Lib:=Lib) fs s (mret a) (λ a' t, a' = a ∧ t = []).
Proof.
  intros w Hf Hs. split; [done|]. split; [done|].
  exists []. by rewrite app_nil_r.
Qed.

Lemma follows_lift {A} `{!Inhabited A} fs s (r : result A) :
  follows (Lib:=Lib) fs s (lift r) (λ a t, a = get r ∧ t = []).
Proof.
  intros w Hf Hs. destruct r as [a|e]; cbn.
  - split; [done|]. split; [done|]. exists []. by rewrite app_nil_r.
  - split; [done|]. split; [done|]. exists [EvRaise e]. split; [done|].
    exists [], inhabitant, []. done.
Qed.

Lemma follows_print fs s p :
  follows (Lib:=Lib) fs s (py_print p) (λ _ t, t = [EvPrint p]).
Proof.
  intros w Hf Hs. split; [done|]. split; [done|]. by exists [EvPrint p].
Qed.

Lemma follows_load fs s path :
  follows (Lib:=Lib) fs s (np_load path) (λ a t, a = fs !!! path ∧ t = [EvRead path]).
Proof.
  intros w Hf Hs. unfold np_load. cbn. rewrite Hf.
  destruct (fs !! path) as [a|] eqn:E; cbn.
  - split; [done|]. split; [done|]. exists [EvRead path]. split; [done|].
    split; [|done]. by rewrite lookup_total_alt, E.
  - split; [done|]. split; [done|].
    exists [EvRead path; EvRaise (FileNotFoundError path)].
    split; [by rewrite <- app_assoc|]. by exists [EvRead path], (fs !!! path), [EvRead path].
Qed.

Lemma follows_ext `{!Inhabited obj} {T} fs s (c : call T) :
  follows fs s (ext oracle c) (λ r t, t = [EvCall c r s]).
Proof.
  intros w Hf Hs. unfold ext. rewrite Hs.
  destruct (oracle T s c (lib w)) as [[r l]|e]; cbn.
  - split; [done|]. split; [done|]. by exists [EvCall c r s].
  - split; [done|]. split; [done|]. exists [EvRaise e]. split; [done|].
    exists [], (call_default inhabitant c), [EvCall c (call_default inhabitant c) s].
    split; [done|]. split; [done|]. apply prefix_nil.
Qed.

(** A statement that follows scripts has a script. *)
Lemma follows_script {A} fs s (m : M A) (S : A → list (event (obj:=obj)) → Prop) w :
  follows (Lib:=Lib) fs s m S → ∃ a t, S a t.
Proof.
  intros H. destruct (H (World fs (lib w) s []) eq_refl eq_refl) as (_ & _ & t & _ & Hr).
  destruct (m _).1 as [a|e]; [by exists a, t|].
  destruct Hr as (t0 & a & t' & _ & HS & _). by exists a, t'.
Qed.

Lemma follows_bind {A B} fs s (m : M A) (f : A → M B)
    (S1 : A → list (event (obj:=obj)) → Prop) (S2 : A → B → list (event (obj:=obj)) → Prop) :
  follows (Lib:=Lib) fs s m S1 → (∀ a, follows fs s (f a) (S2 a)) →
  follows fs s (m ≫= f) (then_spec S1 S2).
Proof.
  intros Hm Hf w Hfs Hs. unfold mbind, M_bind.
  destruct (Hm w Hfs Hs) as (Hfs1 & Hs1 & t & Ht & H).
  destruct (m w) as [[a|e] w1]; cbn in *.
  - destruct (Hf a w1 Hfs1 Hs1) as (Hfs2 & Hs2 & t' & Ht' & H').
    split; [done|]. split; [done|].
    exists (t ++ t'). split; [by rewrite Ht', Ht, app_assoc|].
    destruct ((f a w1).1) as [b|e].
    + by exists a, t, t'.
    + destruct H' as (t0 & b & t2 & -> & HS2 & Hp). exists (t ++ t0), b, (t ++ t2).
      split; [by rewrite app_assoc|]. split; [by exists a, t, t2|].
      by apply prefix_app.
  - split; [done|]. split; [done|]. exists t. split; [done|].
    destruct H as (t0 & a & t1 & -> & HS1 & Hp).
    destruct (follows_script fs s (f a) (S2 a) w (Hf a)) as (b & t2 & HS2).
    exists t0, b, (t1 ++ t2). split; [done|]. split; [by exists a, t1, t2|].
    by apply prefix_app_r.
Qed.

Lemma follows_conseq {A} fs s (m : M A) (S S' : A → list (event (obj:=obj)) → Prop) :
  follows (Lib:=Lib) fs s m S → (∀ a t, S a t → S' a t) → follows fs s m S'.
Proof.
  intros H HS w Hfs Hs. destruct (H w Hfs Hs) as (? & ? & t & Ht & Hr).
  split; [done|]. split; [done|]. exists t. split; [done|].
  destruct ((m w).1) as [a|e]; [by apply HS|].
  destruct Hr as (t0 & a & t' & ? & ? & ?). exists t0, a, t'. by eauto.
Qed.

Lemma follows_with_settings {A} fs s s' (m : M A)
    (S : A → list (event (obj:=obj)) → Prop) :
  follows (Lib:=Lib) fs (s' ++ s) m S → follows fs s (with_settings s' m) S.
Proof.
  intros Hm w Hfs <-. unfold with_settings.
  specialize (Hm (World (files w) (lib w) (s' ++ settings w) (trace w)) Hfs eq_refl).
  destruct (m _) as [r w']. cbn in *. destruct Hm as (Hf' & _ & Ht).
  split; [done|]. split; [done|]. exact Ht.
Qed.

Lemma follows_for_each {A} fs s (body : A → M unit)
    (S : A → list (event (obj:=obj)) → Prop) xs :
  (∀ x, follows (Lib:=Lib) fs s (body x) (λ _, S x)) →
  follows fs s (for_each xs body) (λ _ t, ∃ ts, Forall2 S xs ts ∧ t = concat ts).
Proof.
  intros Hb. induction xs as [|x xs IH]; cbn [for_each].
  - eapply follows_conseq; [apply follows_ret|]. intros ? t [_ ->]. by exists [].
  - eapply follows_conseq; [eapply follows_bind; [apply Hb | intros ?; apply IH]|].
    intros ? t (? & t1 & t2 & H1 & (ts & H2 & ->) & ->).
    exists (t1 :: ts). split; [by constructor|done].
Qed.

Lemma follows_for_list {A B} fs s (body : A → M B)
    (S : A → B → list (event (obj:=obj)) → Prop) xs :
  (∀ x, follows (Lib:=Lib) fs s (body x) (S x)) →
  follows fs s (for_list xs body) (λ bs t, ∃ ts, Forall3 S xs bs ts ∧ t = concat ts).
Proof.
  intros Hb. induction xs as [|x xs IH]; cbn [for_list].
  - eapply follows_conseq; [apply follows_ret|]. intros bs t [-> ->]. exists [].
    split; [constructor|done].
  - eapply follows_conseq.
    + eapply follows_bind; [apply Hb|]. intros b.
      eapply follows_bind; [apply IH|]. intros bs. apply follows_ret.
    + intros bs' t (b & t1 & t2 & H1 & (bs & t3 & t4 & (ts & H3 & ->) & [-> ->] & ->) & ->).
      exists (t1 :: ts). split; [by constructor|]. cbn. by rewrite app_nil_r.
Qed.

Lemma follows_let_pair {A B C} fs s (p : A * B) (f : A → B → M C)
    (S : C → list (event (obj:=obj)) → Prop) :
  follows (Lib:=Lib) fs s (f p.1 p.2) S → follows fs s (let '(a, b) := p in f a b) S.
Proof. by destruct p. Qed.

(** The events of a run, from the judgement. *)
Lemma follows_run {A} fs s (m : M A) (S : A → list (event (obj:=obj)) → Prop) w :
  follows (Lib:=Lib) fs s m S → files w = fs → settings w = s →
  ∃ ran more a,
    trace (m w).2
    = trace w ++ ran ++ match (m w).1 with Ok _ => [] | Raise e => [EvRaise e] end
    ∧ S a (ran ++ more)
    ∧ ∀ a', (m w).1 = Ok a' → a' = a ∧ more = [].
Proof.
  intros H Hfs Hs. destruct (H w Hfs Hs) as (_ & _ & t & Ht & Hr).
  destruct ((m w).1) as [a|e].
  - exists t, [], a. rewrite !app_nil_r. split; [done|]. split; [done|].
    by intros ? [= <-].
  - destruct Hr as (t0 & a & t' & -> & HS & [k ->]). exists t0, k, a. done.
Qed.


(** *** Statements that do not look at the files *)

Lemma frame_ret {A} (a : A) : frame (Lib:=Lib) (obj:=obj) (mret a).
Proof. done. Qed.

Lemma frame_lift {A} (r : result A) : frame (Lib:=Lib) (obj:=obj) (lift r).
Proof. by destruct r. Qed.

Lemma frame_print p : frame (Lib:=Lib) (obj:=obj) (py_print p).
Proof. done. Qed.

Lemma frame_ext {T} (c : call T) : frame (ext oracle c).
Proof.
  intros w fs. unfold ext, on_files. cbn.
  by destruct (oracle T (settings w) c (lib w)) as [[r l]|e].
Qed.

Lemma frame_bind {A B} (m : M A) (f : A → M B) :
  frame (Lib:=Lib) (obj:=obj) m → (∀ a, frame (f a)) → frame (m ≫= f).
Proof.
  intros Hm Hf w fs. unfold mbind, M_bind. rewrite Hm.
  destruct (m w) as [[a|e] w1]; cbn; [apply Hf|done].
Qed.

Lemma frame_with_settings {A} s (m : M A) :
  frame (Lib:=Lib) (obj:=obj) m → frame (with_settings s m).
Proof.
  intros Hm w fs. unfold with_settings.
  change (World (files (on_files fs w)) (lib (on_files fs w))
            (s ++ settings (on_files fs w)) (trace (on_files fs w)))
    with (on_files fs (World (files w) (lib w) (s ++ settings w) (trace w))).
  rewrite Hm. by destruct (m _) as [r w'].
Qed.

Lemma frame_for_each {A} (body : A → M unit) xs :
  (∀ x, frame (Lib:=Lib) (obj:=obj) (body x)) → frame (for_each xs body).
Proof.
  intros Hb. induction xs as [|x xs IH]; cbn [for_each]; [apply frame_ret|].
  apply frame_bind; [apply Hb|]. intros _. apply IH.
Qed.

Lemma frame_for_list {A B} (body : A → M B) xs :
  (∀ x, frame (Lib:=Lib) (obj:=obj) (body x)) → frame (for_list xs body).
Proof.
  intros Hb. induction xs as [|x xs IH]; cbn [for_list]; [apply frame_ret|].
  apply frame_bind; [apply Hb|]. intros b. apply frame_bind; [apply IH|].
  intros bs. apply frame_ret.
Qed.

Lemma frame_let_pair {A B C} (p : A * B) (f : A → B → M C) :
  frame (Lib:=Lib) (obj:=obj) (f p.1 p.2) → frame (let '(a, b) := p in f a b).
Proof. by destruct p. Qed.

End Rules.

Ltac in_list :=
  lazymatch goal with
  | |- _ ∈ _ => apply (bool_decide_unpack _); vm_compute; exact I
  end.

Ltac fed_ok :=
  unfold cell_event, notebook_event, plain_event; cbn; split_and?;
  first [done | in_list | by eauto | by eauto 6].

Ltac feeds_step :=
  lazymatch goal with
  | |- feeds _ _ ((_ ≫= _) ≫= _) _ _ => apply feeds_assoc
  | |- feeds _ _ (mret _ ≫= _) _ _ => apply feeds_ret_bind
  | |- feeds _ _ (let '(_, _) := ?p in _) _ _ => destruct p
  | |- feeds _ _ (with_settings _ _) _ _ => apply feeds_with_settings
  | |- feeds _ _ (with_settings _ _ ≫= _) _ _ =>
      apply (feeds_bind _ _ _ _ _ (λ _, True)); [apply feeds_with_settings | intros ? _]
  | |- feeds _ _ (lift ?r ≫= _) _ _ =>
      apply (feeds_bind _ _ _ _ _ (λ a, r = Ok a)); [by apply feeds_lift | intros ? ?]
  | |- feeds _ _ (py_print _ ≫= _) _ _ =>
      apply (feeds_bind _ _ _ _ _ (λ _, True));
        [apply feeds_print; [fed_ok | done] | intros ? _]
  | |- feeds _ _ (ext _ _ ≫= _) _ _ =>
      apply (feeds_bind _ _ _ _ _ (λ _, True));
        [apply feeds_ext; [intros ?; fed_ok | done] | intros ? _]
  | |- feeds _ _ (ext _ _) _ _ => apply feeds_ext; [intros ?; fed_ok | done]
  | |- feeds _ _ (py_print _) _ _ => apply feeds_print; [fed_ok | done]
  | |- feeds _ _ (mret _) _ (λ _, True) => by apply feeds_ret
  end.

Ltac feeds_all := repeat feeds_step.

(** [m;; rest] where [m] is known to satisfy the predicate. *)
Ltac feeds_then H :=
  apply (feeds_bind _ _ _ _ _ (λ _, True)); [apply H | intros ? _].

Ltac follows_known := fail.

Ltac follows_step :=
  first [follows_known |
  lazymatch goal with
  | |- follows _ _ (mret _) _ => apply follows_ret
  | |- follows _ _ (lift _) _ => apply follows_lift
  | |- follows _ _ (py_print _) _ => apply follows_print
  | |- follows _ _ (np_load _) _ => apply follows_load
  | |- follows _ _ (ext _ _) _ => apply follows_ext; exact _
  | |- follows _ _ (with_settings _ _) _ => apply follows_with_settings
  | |- follows _ _ (let '(_, _) := _ in _) _ => apply follows_let_pair
  | |- follows _ _ (_ ≫= _) _ => eapply follows_bind; [|intros ?]
  end].

Ltac follows_all := repeat follows_step.

Ltac spec_open :=
  repeat match goal with
         | H : then_spec _ _ _ _ |- _ => destruct H as (? & ? & ? & ? & ? & ?)
         | H : _ ∧ _ |- _ => destruct H
         | H : ∃ _, _ |- _ => destruct H
         | p : _ * _ |- _ => destruct p
         | u : () |- _ => destruct u
         end;
  simplify_eq/=.

Ltac spec_close :=
  repeat lazymatch goal with
         | |- ∃ _, _ => eexists
         | |- _ ∧ _ => split
         | |- if _ then _ else _ => progress cbn
         end;
  try eassumption; try reflexivity;
  repeat match goal with H : (_, _) = _ |- _ => rewrite <- H; clear H end;
  try (cbn [app]; rewrite <- ?app_assoc, ?app_nil_r; cbn [app]; reflexivity).

Ltac by_script tac :=
  eapply follows_conseq; [tac | intros ? ? ?; cbv beta in *; spec_open; spec_close].

Ltac frame_step :=
  lazymatch goal with
  | |- frame (mret _) => apply frame_ret
  | |- frame (lift _) => apply frame_lift
  | |- frame (py_print _) => apply frame_print
  | |- frame (ext _ _) => apply frame_ext
  | |- frame (with_settings _ _) => apply frame_with_settings
  | |- frame (for_each _ _) => apply frame_for_each; intros ?
  | |- frame (for_list _ _) => apply frame_for_list; intros ?
  | |- frame (let '(_, _) := _ in _) => apply frame_let_pair
  | |- frame (if ?b then _ else _) => destruct b
  | |- frame (_ ≫= _) => apply frame_bind; [|intros ?]
  end.

Ltac frame_all := repeat frame_step.

(** ** The notebook *)

Section ExecFacts.
Context {Lib obj : Type}.
Variable oracle : ∀ T, list setting → call (obj:=obj) T → Lib → result (T * Lib).

Implicit Types (w : world (Lib:=Lib) (obj:=obj)) (s : list setting).
Implicit Types (fs : gmap string ndarray) (t : list (event (obj:=obj))).
Implicit Types (P : event (obj:=obj) → Prop).

(** *** The events of every cell *)

Lemma feeds_result {A} fs s (m : M A) P (Q Q' : A → Prop) :
  feeds (Lib:=Lib) fs s m P Q → (∀ w a, (m w).1 = Ok a → Q' a) → feeds fs s m P Q'.
Proof.
  intros H HQ w Hfs Hs. destruct (H w Hfs Hs) as (? & ? & t & Ht & Hr).
  split; [done|]. split; [done|]. exists t. split; [done|].
  destruct ((m w).1) as [a|e] eqn:E; [|done]. destruct Hr. split; [done|].
  by apply (HQ w).
Qed.

(** [forward] and [model(x)] make library calls of a few kinds only, on
    inputs the library has chosen: what holds of these calls under the
    settings [s] holds of every event of [model(x)]. *)
Lemma model_feeds fs s self x P :
  (∀ r, P (EvCall (model_enter self x) r s)) →
  (∀ r outputs, P (EvCall (model_call self x outputs) r s)) →
  (∀ attr r, P (EvCall (get_module self attr) r s)) →
  (∀ m x' r, P (EvCall (module_call m x') r s)) →
  (∀ mean covar r, P (EvCall (MultivariateNormal mean covar) r s)) →
  feeds fs s (GPRegressionModel_call oracle self x) P (λ _, True).
Proof.
  intros H1 H2 H3 H4 H5. unfold GPRegressionModel_call.
  apply (feeds_bind _ _ _ _ _ (λ _, True)); [by apply feeds_ext|]. intros inputs _.
  apply (feeds_bind _ _ _ _ _ (λ _, True)).
  - apply feeds_for_list. intros x'. unfold GPRegressionModel_forward.
    apply (feeds_bind _ _ _ _ _ (λ _, True)); [by apply feeds_ext|]. intros mm _.
    apply (feeds_bind _ _ _ _ _ (λ _, True)); [by apply feeds_ext|]. intros mx _.
    apply (feeds_bind _ _ _ _ _ (λ _, True)); [by apply feeds_ext|]. intros cm _.
    apply (feeds_bind _ _ _ _ _ (λ _, True)); [by apply feeds_ext|]. intros cx _.
    by apply feeds_ext.
  - intros outputs _. by apply feeds_ext.
Qed.

Section Events.
Variables input_data_all output_data_all : ndarray.

Lemma model_events fs s self x :
  s = [] ∨ s = [no_grad] ∨ s = [no_grad; fast_pred_var] →
  own_fed input_data_all output_data_all _ (model_enter self x) →
  feeds fs s (GPRegressionModel_call oracle self x)
    (cell_event input_data_all output_data_all) (λ _, True).
Proof. intros Hs Hx. apply model_feeds; intros; fed_ok. Qed.

Lemma train_events fs n optimizer model mll x y :
  own_fed input_data_all output_data_all _ (model_enter model x) →
  own_fed input_data_all output_data_all _ (mll_call mll mll y) →
  feeds fs [] (train oracle n optimizer model mll x y)
    (cell_event input_data_all output_data_all) (λ _, True).
Proof.
  intros Hx Hy. apply feeds_for_each. intros i. unfold train_iteration.
  feeds_step. feeds_then model_events; [by left | done |].
  do 2 feeds_step.
  apply (feeds_bind _ _ _ _ _ (λ _, True)); [|intros _ _; feeds_all].
  destruct (i mod 10 =? 0)%nat; feeds_all.
Qed.

Lemma print_parameters_events fs model attr :
  feeds fs [] (print_parameters oracle model attr)
    (cell_event input_data_all output_data_all) (λ _, True).
Proof. unfold print_parameters. feeds_all. Qed.

Lemma time_series_events fs :
  feeds fs [] (time_series oracle output_data_all)
    (cell_event input_data_all output_data_all) (λ _, ts_arrays_ok output_data_all).
Proof.
  unfold time_series, cell_ts_data, cell_ts_model, GPRegressionModel_init, cell_ts_train.
  feeds_all.
  feeds_then train_events; [cbn; by eauto | cbn; by eauto |].
  feeds_then print_parameters_events.
  unfold cell_ts_predict, numpy. feeds_all.
  feeds_then model_events; [by eauto | cbn; by eauto |].
  feeds_all.
  apply feeds_ext; [intros ?; fed_ok|]. intros _. unfold ts_arrays_ok. by eauto 8.
Qed.

Lemma cell_ds_data_events fs s :
  feeds (Lib:=Lib) fs s (cell_ds_data Num_Tiles input_data_all output_data_all)
    (cell_event (obj:=obj) input_data_all output_data_all)
    (λ d, ds_prep Num_Tiles input_data_all output_data_all = Ok d).
Proof.
  apply (feeds_result _ _ _ _ (λ _, True)).
  - unfold cell_ds_data. feeds_all.
  - intros w d. by rewrite cell_ds_data_result.
Qed.

Lemma downscaling_events fs :
  feeds fs [] (downscaling oracle Num_Tiles input_data_all output_data_all)
    (cell_event input_data_all output_data_all)
    (λ _, ds_arrays_ok input_data_all output_data_all).
Proof.
  unfold downscaling.
  apply (feeds_bind _ _ _ _ _ (λ d, ds_prep Num_Tiles input_data_all output_data_all = Ok d));
    [apply cell_ds_data_events|]. intros d Hd.
  unfold cell_ds_model, GPRegressionModel_kiss_init. feeds_all.
  unfold cell_ds_train.
  do 2 feeds_step.
  apply (feeds_bind _ _ _ _ _ (λ v, tr_train_x v = train_x d ∧ tr_train_y v = train_y d)).
  { unfold ds_train_with.
    apply (feeds_bind _ _ _ _ _
             (λ v, tr_train_x v = train_x d ∧ tr_train_y v = train_y d)).
    - match goal with |- context [if ?b then _ else _] => destruct b end;
        [|by apply feeds_ret]. unfold Tensor_cuda. feeds_all. by apply feeds_ret.
    - intros v [Hx Hy]. rewrite Hx, Hy. feeds_all.
      feeds_then train_events; [cbn; by eauto 7 | cbn; by eauto 7 |].
      feeds_then print_parameters_events.
      by apply feeds_ret. }
  intros v [Hx Hy]. unfold cell_ds_test_grid.
  feeds_step.
  apply (feeds_bind _ _ _ _ _ (λ g, ds_test_grid (tiles_x d) = Ok g));
    [by apply feeds_lift|]. intros g Hg.
  apply (feeds_bind _ _ _ _ _ (λ x, test_x <$> ds_test_grid (tiles_x d) = Ok x)).
  { assert (test_x <$> ds_test_grid (tiles_x d) = Ok (test_x g)) as Hg'
      by (by rewrite Hg).
    destruct (use_cuda v); [|by apply feeds_ret]. unfold Tensor_cuda. feeds_all.
    by apply feeds_ret. }
  intros x Hx'. unfold cell_ds_predict. feeds_all.
  { feeds_then model_events; [by eauto | cbn; by eauto 8 |]. feeds_all. }
  rewrite Hy. unfold cell_ds_plot, Tensor_cpu. feeds_all.
  apply feeds_ext; [intros ?; fed_ok|]. intros _. unfold ds_arrays_ok. by eauto 8.
Qed.

Lemma analysis_events fs :
  feeds fs [] (analysis oracle input_data_all output_data_all)
    (cell_event input_data_all output_data_all)
    (λ _, ts_arrays_ok output_data_all ∧ ds_arrays_ok input_data_all output_data_all).
Proof.
  unfold analysis.
  apply (feeds_bind _ _ _ _ _ (λ _, ts_arrays_ok output_data_all));
    [apply time_series_events|]. intros _ Hts.
  eapply feeds_weaken; [apply downscaling_events|]. by intros ? Hds.
Qed.

End Events.

Lemma notebook_analysis :
  notebook oracle
  = (cell_imports oracle;;
     '(input_data_all, output_data_all) ← cell_load;
     analysis oracle input_data_all output_data_all).
Proof. reflexivity. Qed.

Lemma cell_event_reads inp out t :
  Forall (cell_event inp out) t → reads t = [] ∧ Forall (notebook_event inp out) t.
Proof.
  induction 1 as [|e t [He Hr] _ [IH1 IH2]]; [done|]. split.
  - destruct e; cbn in *; done.
  - by constructor.
Qed.

(** Every execution of the notebook. *)
Lemma notebook_run fs (l : Lib) :
  let r := notebook oracle (start fs l) in
  let inp := fs !!! path_input in
  let out := fs !!! path_output in
  files r.2 = fs ∧ settings r.2 = [] ∧
  ∃ t0, trace r.2 = t0 ++ match r.1 with Ok _ => [] | Raise e => [EvRaise e] end
    ∧ Forall (notebook_event inp out) t0
    ∧ reads t0 `prefix_of` [path_input; path_output]
    ∧ ∀ u, r.1 = Ok u →
        reads t0 = [path_input; path_output]
        ∧ fs !! path_input = Some inp ∧ fs !! path_output = Some out
        ∧ ts_arrays_ok out ∧ ds_arrays_ok inp out.
Proof.
  intros r inp out. subst r. rewrite notebook_analysis.
  assert (∀ a, fs !! path_input = Some a → a = inp) as Hi
    by (intros a Ha; unfold inp; by rewrite lookup_total_alt, Ha).
  assert (∀ a, fs !! path_output = Some a → a = out) as Ho
    by (intros a Ha; unfold out; by rewrite lookup_total_alt, Ha).
  clearbody inp out.
  pose proof (λ w, feeds_run fs [] (analysis oracle inp out) _ _ w
                     (analysis_events inp out fs)) as HK.
  revert HK. generalize (analysis oracle). intros K HK.
  assert (notebook_event (obj:=obj) inp out (EvCall set_default_dtype_float64 tt [])
          ∧ notebook_event (obj:=obj) inp out (EvRead path_input)
          ∧ notebook_event (obj:=obj) inp out (EvRead path_output)
          ∧ notebook_event (obj:=obj) inp out (EvPrint (PShapes (shape inp) (shape out))))
    as (He1 & He2 & He3 & He4).
  { repeat split; try in_list; try done; by eauto. }
  unfold cell_imports, cell_load, mbind, M_bind, ext, np_load, py_print, mret, M_ret,
    raise, log, start. cbn -[path_input path_output].
  destruct (oracle unit [] set_default_dtype_float64 l) as [[[] l1]|e];
    cbn -[path_input path_output].
  2:{ split; [done|]. split; [done|]. exists []. split; [done|]. split; [done|].
      split; [apply prefix_nil|done]. }
  destruct (fs !! path_input) as [a|] eqn:Hin; cbn -[path_input path_output].
  2:{ split; [done|]. split; [done|].
      exists [EvCall set_default_dtype_float64 tt []; EvRead path_input].
      split; [done|].
      split; [repeat (apply Forall_cons_2; [assumption|]); apply Forall_nil_2|].
      split; [by exists [path_output]|done]. }
  pose proof (Hi a eq_refl) as Ha. subst a.
  destruct (fs !! path_output) as [a|] eqn:Hout; cbn -[path_input path_output].
  2:{ split; [done|]. split; [done|].
      exists [EvCall set_default_dtype_float64 tt []; EvRead path_input; EvRead path_output].
      split; [done|].
      split; [repeat (apply Forall_cons_2; [assumption|]); apply Forall_nil_2|].
      split; [done|done]. }
  pose proof (Ho a eq_refl) as Ha. subst a.
  destruct (HK (World fs l1 []
                  [EvCall set_default_dtype_float64 tt []; EvRead path_input;
                   EvRead path_output; EvPrint (PShapes (shape inp) (shape out))])
              eq_refl eq_refl) as (Hf & Hs & t1 & Ht & HP & HQ).
  cbn -[path_input path_output] in Ht. apply cell_event_reads in HP as [Hr HP].
  split; [done|]. split; [done|].
  exists ([EvCall set_default_dtype_float64 tt []; EvRead path_input; EvRead path_output;
           EvPrint (PShapes (shape inp) (shape out))] ++ t1).
  split; [exact Ht|].
  split; [repeat (apply Forall_cons_2; [assumption|]); exact HP|].
  assert (reads ([EvCall set_default_dtype_float64 tt []; EvRead path_input;
                  EvRead path_output; EvPrint (PShapes (shape inp) (shape out))] ++ t1)
          = [path_input; path_output]) as ->.
  { unfold reads in *. rewrite omap_app, Hr. done. }
  split; [done|]. intros u Hu. split; [done|]. split; [done|]. split; [done|].
  by apply (HQ u).
Qed.
Lemma notebook_event_facts inp out t :
  Forall (notebook_event (obj:=obj) inp out) t →
  raises t = []
  ∧ (∀ path, path ∈ reads t → path = path_input ∨ path = path_output)
  ∧ (∀ p, p ∈ prints t → printed_ok p)
  ∧ (∀ e, e ∈ t → event_name e ∈ vocabulary).
Proof.
  induction 1 as [|e t [[Hn He] _] _ (IH1 & IH2 & IH3 & IH4)].
  { split; [done|]. split_and!; intros ? Hin; by apply elem_of_nil in Hin. }
  split_and!.
  - destruct e; cbn in *; done.
  - intros path Hin. destruct e; cbn in Hin; try by apply IH2.
    apply elem_of_cons in Hin as [->|Hin]; [done|by apply IH2].
  - intros p Hin. destruct e; cbn in Hin; try by apply IH3.
    apply elem_of_cons in Hin as [->|Hin]; [done|by apply IH3].
  - intros e' Hin. apply elem_of_cons in Hin as [->|Hin]; [done|by apply IH4].
Qed.

(** C6: the notebook installs no error handling of its own.  Whenever an
    operation raises (a missing file, an array operation on the wrong
    shape, a failing library call), that exception is the outcome of the
    script and the last thing that happens in it: nothing is caught,
    replaced, retried or recovered from. *)
Theorem C6_exceptions_propagate (fs : gmap string ndarray) (l : Lib) :
  let r := notebook oracle (start fs l) in
  match r.1 with
  | Ok _ => raises (trace r.2) = []
  | Raise e => ∃ t0, trace r.2 = t0 ++ [EvRaise e] ∧ raises t0 = []
  end.
Proof.
  destruct (notebook_run fs l) as (_ & _ & t0 & Ht & HP & _). cbn zeta.
  apply notebook_event_facts in HP as (Hr & _).
  destruct ((notebook oracle (start fs l)).1) as [[]|e].
  - by rewrite Ht, app_nil_r.
  - by exists t0.
Qed.

(** C7, amended: executing the notebook leaves the files on disk as they
    were; the only files it reads are the two data files; what it prints
    are array shapes, iteration numbers, losses and the noise, length
    scale, output scale and mean parameters; and every other operation is
    one of the torch, gpytorch and matplotlib calls of the script (none of
    the notebook's own operations writes a file or uses the network). *)
Theorem C7_outputs_and_frame (fs : gmap string ndarray) (l : Lib) :
  let r := notebook oracle (start fs l) in
  files r.2 = fs
  ∧ (∀ path, path ∈ reads (trace r.2) → path = path_input ∨ path = path_output)
  ∧ (∀ p, p ∈ prints (trace r.2) → printed_ok p)
  ∧ (∀ e, e ∈ trace r.2 → event_name e ∈ "raise" :: vocabulary).
Proof.
  destruct (notebook_run fs l) as (Hf & _ & t0 & Ht & HP & _). cbn zeta.
  apply notebook_event_facts in HP as (_ & Hr & Hp & Hn).
  split; [done|]. rewrite Ht.
  assert (∀ k, (k = [] ∨ ∃ e, k = [EvRaise (obj:=obj) e]) →
               (∀ path, path ∈ reads (t0 ++ k) → path = path_input ∨ path = path_output)
               ∧ (∀ p, p ∈ prints (t0 ++ k) → printed_ok p)
               ∧ (∀ e, e ∈ t0 ++ k → event_name e ∈ "raise" :: vocabulary)) as H.
  { intros k Hk. unfold reads, prints. rewrite !omap_app.
    assert (omap (λ e : event (obj:=obj), match e with EvRead p => Some p | _ => None end) k
            = []) as -> by (by destruct Hk as [->|[e ->]]).
    assert (omap (λ e : event (obj:=obj), match e with EvPrint p => Some p | _ => None end) k
            = []) as -> by (by destruct Hk as [->|[e ->]]).
    rewrite !app_nil_r. split; [exact Hr|]. split; [exact Hp|].
    intros e. rewrite elem_of_app. intros [Hin|Hin].
    - apply elem_of_cons. right. by apply Hn.
    - destruct Hk as [->|[e' ->]]; [by apply elem_of_nil in Hin|].
      apply list_elem_of_singleton in Hin as ->. apply elem_of_cons. by left. }
  apply H. destruct ((notebook oracle (start fs l)).1) as [[]|e]; [by left|right; by exists e].
Qed.

(** *** The input files and the index expressions *)

Lemma model_frame self x : frame (GPRegressionModel_call oracle self x).
Proof. unfold GPRegressionModel_call, GPRegressionModel_forward. frame_all. Qed.

Lemma analysis_frame inp out : frame (analysis oracle inp out).
Proof.
  unfold analysis, time_series, downscaling, cell_ts_data, cell_ts_model,
    GPRegressionModel_init, cell_ts_train, cell_ts_predict, cell_ds_data, cell_ds_model,
    GPRegressionModel_kiss_init, cell_ds_train, ds_train_with, cell_ds_test_grid,
    cell_ds_predict, cell_ds_plot, Tensor_cuda, Tensor_cpu, train, train_iteration,
    print_parameters.
  repeat first [apply model_frame | frame_step].
Qed.

Lemma analysis_depends inp out inp' out' :
  getitem inp (tiles_x_index Num_Tiles) = getitem inp' (tiles_x_index Num_Tiles) →
  getitem out (tiles_y_index Num_Tiles) = getitem out' (tiles_y_index Num_Tiles) →
  getitem out (ts_index Start_Day N_Train) = getitem out' (ts_index Start_Day N_Train) →
  getitem out (ts_index Start_Test Test_Days) = getitem out' (ts_index Start_Test Test_Days) →
  analysis oracle inp out = analysis oracle inp' out'.
Proof.
  intros H1 H2 H3 H4.
  unfold analysis, time_series, downscaling, cell_ts_data, cell_ts_predict, cell_ds_data,
    ts_train_y, ts_test_y.
  by rewrite H1, H2, H3, H4.
Qed.

(** C3: the program reads exactly two input files, at the two fixed paths
    and in this order (an execution that stops early has read an initial
    part of them).  The array loaded from the first path is accessed with
    one expression of six indices and the array loaded from the second with
    three expressions of five indices, and with nothing else: the shapes
    apart, which the load cell prints, two pairs of files that agree on
    these four slices give the same execution.  Under the layout of the
    files each expression takes the day in axis 0, the latitude tile in
    axis 1, the longitude tile in axis 2, then row and column (and the
    coordinate component). *)
Theorem C3_input_files_and_indexing :
  (∀ fs l,
     let r := notebook oracle (start fs l) in
     reads (trace r.2) `prefix_of` [path_input; path_output]
     ∧ (r.1 = Ok tt → reads (trace r.2) = [path_input; path_output]))
  ∧ (∀ nt start n,
       length (tiles_x_index nt) = 6%nat ∧ length (tiles_y_index nt) = 5%nat
       ∧ length (ts_index start n) = 5%nat)
  ∧ (∀ fs fs' l input_data_all output_data_all input_data_all' output_data_all',
       fs !! path_input = Some input_data_all →
       fs !! path_output = Some output_data_all →
       fs' !! path_input = Some input_data_all' →
       fs' !! path_output = Some output_data_all' →
       shape input_data_all = shape input_data_all' →
       shape output_data_all = shape output_data_all' →
       getitem input_data_all (tiles_x_index Num_Tiles)
       = getitem input_data_all' (tiles_x_index Num_Tiles) →
       getitem output_data_all (tiles_y_index Num_Tiles)
       = getitem output_data_all' (tiles_y_index Num_Tiles) →
       getitem output_data_all (ts_index Start_Day N_Train)
       = getitem output_data_all' (ts_index Start_Day N_Train) →
       getitem output_data_all (ts_index Start_Test Test_Days)
       = getitem output_data_all' (ts_index Start_Test Test_Days) →
       let r := notebook oracle (start fs l) in
       let r' := notebook oracle (start fs' l) in
       r.1 = r'.1 ∧ trace r.2 = trace r'.2 ∧ lib r.2 = lib r'.2)
  ∧ (∀ inp out D A B,
       shape inp = [D; A; B; 16; 16; 2] → shape out = [D; A; B; 16; 16] →
       Start_Test + Test_Days <= D →
       long < A → Start_Lat + Num_Tiles <= A →
       lat < B → Start_Long + Num_Tiles <= B →
       ∃ x y ty tt',
         getitem inp (tiles_x_index Num_Tiles) = Ok x
         ∧ getitem out (tiles_y_index Num_Tiles) = Ok y
         ∧ getitem out (ts_index Start_Day N_Train) = Ok ty
         ∧ getitem out (ts_index Start_Test Test_Days) = Ok tt'
         ∧ ∀ i j r c k,
             item x [i; j; r; c; k]
             = item inp [Day_Number; Start_Lat + i; Start_Long + j; r; c; k]
             ∧ item y [i; j; r; c]
               = item out [Day_Number; Start_Lat + i; Start_Long + j; r; c]
             ∧ item ty [k] = item out [Start_Day + k; long; lat; point.1; point.2]
             ∧ item tt' [k] = item out [Start_Test + k; long; lat; point.1; point.2]).
Proof.
  split; [|split; [|split]].
  - intros fs l. destruct (notebook_run fs l) as (_ & _ & t0 & Ht & _ & Hp & Hok). cbn zeta.
    assert (reads (trace (notebook oracle (start fs l)).2) = reads t0) as ->.
    { rewrite Ht. unfold reads. rewrite omap_app.
      destruct ((notebook oracle (start fs l)).1); cbn; by rewrite app_nil_r. }
    split; [done|]. intros Hr. by apply (Hok tt).
  - done.
  - intros fs fs' l inp out inp' out' Hin Hout Hin' Hout' Hsi Hso H1 H2 H3 H4.
    cbn zeta. rewrite notebook_analysis.
    unfold cell_imports, cell_load, mbind, M_bind, ext, np_load, py_print, mret, M_ret,
      raise, log, start. cbn -[path_input path_output analysis].
    destruct (oracle unit [] set_default_dtype_float64 l) as [[[] l1]|e];
      cbn -[path_input path_output analysis]; [|done].
    rewrite Hin, Hin'. cbn -[path_input path_output analysis]. rewrite Hout, Hout'.
    cbn -[path_input path_output analysis]. rewrite <- Hsi, <- Hso.
    rewrite <- (analysis_depends inp out inp' out' H1 H2 H3 H4).
    match goal with
    | |- context [analysis oracle inp out (World fs ?l ?s ?t)] =>
        change (World fs' l s t) with (on_files fs' (World fs l s t))
    end.
    rewrite analysis_frame. done.
  - intros inp out D A B Hin Hout HD HA HA' HB HB'.
    unfold Start_Test, Test_Days, Start_Day, N_Train, Start_Lat, Start_Long, Num_Tiles,
      long, lat in *.
    unfold getitem, tiles_x_index, tiles_y_index, ts_index, All, Day_Number, Start_Lat,
      Start_Long, Start_Test, Test_Days, Start_Day, N_Train, Num_Tiles, long, lat, point.
    rewrite Hin, Hout. cbn [plan mbind result_bind fmap list_fmap fst snd].
    rewrite !norm_int_inside by lia.
    rewrite !norm_slice_inside, !norm_slice_all by lia.
    cbn [mbind result_bind].
    eexists _, _, _, _. split_and!; [reflexivity..|].
    intros i j r c k. cbn. done.
Qed.

(** *** What the scripts of the cells consist of *)

Lemma forward_trace_events s self x d t :
  forward_trace (obj:=obj) s self x d t → Forall (λ e, model_event e = true) t.
Proof. intros (? & ? & ? & ? & ->). by repeat constructor. Qed.

Lemma model_trace_events s model x d t :
  model_trace (obj:=obj) s model x d t → Forall (λ e, model_event e = true) t.
Proof.
  intros (inputs & outputs & fws & H & ->).
  apply Forall_app; split; [by repeat constructor|].
  apply Forall_app; split; [|by repeat constructor].
  apply Forall_concat.
  induction H as [|? ? ? ? ? ? Hf _ IH]; constructor;
    [by apply forward_trace_events in Hf | exact IH].
Qed.

Lemma iteration_trace_events s optimizer model mll x y i t :
  iteration_trace (obj:=obj) s optimizer model mll x y i t →
  Forall (λ e, model_event e || loop_event e = true) t.
Proof.
  intros (output & l & tm & Hm & ->). apply model_trace_events in Hm.
  apply Forall_app; split; [by repeat constructor|].
  apply Forall_app; split.
  { eapply Forall_impl; [exact Hm|]. by intros e ->. }
  apply Forall_app; split; [by repeat constructor|].
  apply Forall_app; split; [|by repeat constructor].
  destruct (i mod 10 =? 0)%nat; by repeat constructor.
Qed.

Lemma train_trace_events s N optimizer model mll x y t :
  train_trace (obj:=obj) s N optimizer model mll x y t →
  Forall (λ e, model_event e || loop_event e = true) t.
Proof.
  intros (ts & H & ->). apply Forall_concat.
  induction H as [|? ? ? ? Hi _ IH]; constructor;
    [by apply iteration_trace_events in Hi | exact IH].
Qed.

Lemma printed_iterations_model t :
  Forall (λ e : event (obj:=obj), model_event e = true) t → printed_iterations t = [].
Proof.
  induction 1 as [|e t He _ IH]; [done|]. cbn.
  by destruct e as [|p|T c r s|].
Qed.

Lemma iteration_trace_printed s optimizer model mll x y i t :
  iteration_trace (obj:=obj) s optimizer model mll x y i t →
  printed_iterations t = if (i mod 10 =? 0)%nat then [i] else [].
Proof.
  intros (output & l & tm & Hm & ->). apply model_trace_events in Hm.
  pose proof (printed_iterations_model tm Hm) as Hp.
  unfold printed_iterations in *. rewrite !omap_app, Hp.
  by destruct (i mod 10 =? 0)%nat.
Qed.

Lemma iterations_printed s optimizer model mll x y N :
  ∀ a ts,
    Forall2 (iteration_trace (obj:=obj) s optimizer model mll x y) (seq a N) ts →
    printed_iterations (concat ts) = filter (λ i, i mod 10 = 0)%nat (seq a N).
Proof.
  induction N as [|N IH]; intros a ts H; cbn [seq] in *.
  - by inversion H.
  - inversion H as [|? t ? ts' Hi Hr]; subst. cbn [concat].
    pose proof (iteration_trace_printed _ _ _ _ _ _ _ _ Hi) as Hp.
    pose proof (IH _ _ Hr) as Hq.
    unfold printed_iterations in *. rewrite omap_app, Hp, Hq, filter_cons.
    destruct (Nat.eqb_spec (a mod 10) 0) as [Ha|Ha].
    + by rewrite decide_True.
    + by rewrite decide_False.
Qed.

Lemma train_trace_printed s N optimizer model mll x y t :
  train_trace (obj:=obj) s N optimizer model mll x y t →
  printed_iterations t = filter (λ i, i mod 10 = 0)%nat (seq 0 N).
Proof. intros (ts & H & ->). by apply (iterations_printed _ _ _ _ _ _ _ _ _ H). Qed.

Lemma loop_free_model t :
  Forall (λ e : event (obj:=obj), model_event e = true) t →
  Forall (λ e, loop_event e = false) t.
Proof.
  intros H. eapply Forall_impl; [exact H|]. intros [|p|T c r s|]; try done.
  by destruct c.
Qed.

Lemma device_events_app t1 t2 :
  device_events (obj:=obj) (t1 ++ t2) = device_events t1 ++ device_events t2.
Proof. apply omap_app. Qed.

Lemma device_events_none t :
  Forall (λ e : event (obj:=obj), model_event e || loop_event e = true) t →
  device_events t = [].
Proof.
  induction 1 as [|e t He _ IH]; [done|]. unfold device_events in *. cbn. rewrite IH.
  destruct e as [|p|T c r s|]; try done. by destruct c.
Qed.

Lemma device_events_model t :
  Forall (λ e : event (obj:=obj), model_event e = true) t → device_events t = [].
Proof.
  intros H. apply device_events_none. eapply Forall_impl; [exact H|]. by intros e ->.
Qed.

(** The stages of the scripts *)

Lemma climb_app c t1 t2 :
  climb (obj:=obj) c (t1 ++ t2) = c' ← climb c t1; climb c' t2.
Proof.
  revert c. induction t1 as [|e t1 IH]; intros c; [done|]. cbn.
  destruct (stage_of e); [|apply IH]. destruct (c <=? _)%nat; [apply IH|done].
Qed.

Lemma climb_model c t :
  Forall (λ e : event (obj:=obj), model_event e = true) t → climb c t = Some c.
Proof.
  induction 1 as [|e t He _ IH]; [done|]. cbn.
  destruct e as [|p|T k r s|]; try done. by destruct k.
Qed.

Lemma climb_train t :
  Forall (λ e : event (obj:=obj), model_event e || loop_event e = true) t →
  climb 3 t = Some 3%nat.
Proof.
  induction 1 as [|e t He _ IH]; [done|]. cbn.
  destruct e as [|p|T k r s|]; try done; [by destruct p | by destruct k].
Qed.

Lemma climb_ascending c c' t :
  climb (obj:=obj) c t = Some c' → ascending (c :: (stage_rank <$> stages t)) = true.
Proof.
  revert c. induction t as [|e t IH]; intros c; [done|].
  unfold stages. cbn [climb omap list_omap]. fold (stages t).
  destruct (stage_of e) as [g|]; [|apply IH].
  destruct (c <=? stage_rank g)%nat eqn:E; [|done]. intros H. apply IH in H.
  rewrite fmap_cons.
  change (ascending (c :: stage_rank g :: (stage_rank <$> stages t)))
    with ((c <=? stage_rank g)%nat && ascending (stage_rank g :: (stage_rank <$> stages t))).
  by rewrite E, H.
Qed.

Lemma climb_single_pass c t : climb (obj:=obj) 0 t = Some c → single_pass t.
Proof.
  intros H. apply climb_ascending in H. unfold single_pass.
  destruct (stage_rank <$> stages t) as [|n k]; [done|]. exact H.
Qed.

Ltac climb_on Hl Hm :=
  repeat (rewrite <- ?app_assoc;
          cbn [app climb stage_of stage_rank Nat.leb mbind option_bind];
          first [rewrite climb_app, (climb_train _ Hl)
                | rewrite climb_app, (climb_model _ _ Hm)]);
  cbn [app climb stage_of stage_rank Nat.leb mbind option_bind].

(** The load cell and the time series are one pass through the stages, and
    the downscaling is another. *)
Lemma first_pass s N inp out t_load t_ts :
  load_trace (obj:=obj) inp out t_load → ts_trace s N out t_ts →
  single_pass (t_load ++ t_ts).
Proof.
  intros -> (lik & model & tm & tt & tp & Hm & Ht & Hp & ->).
  destruct Hm as (mm & base & cm & ->).
  destruct Ht as (params & opt & mll & tl & tpar & Hl & Hpar & ->).
  destruct Hpar as (n1 & n2 & n3 & n4 & ->).
  destruct Hp as (d & preds & tmod & lower & upper & fig & ax & mean & Hmod & ->).
  apply train_trace_events in Hl. apply model_trace_events in Hmod.
  apply (climb_single_pass 5). climb_on Hl Hmod. reflexivity.
Qed.

Lemma second_pass s N nt inp out t :
  ds_trace (obj:=obj) s N nt inp out t → single_pass t.
Proof.
  intros (lik & model & v & x & pm & pv & td & tm & tt & tg & tp & tpl
          & -> & Hm & Ht & Hg & Hp & Hpl & ->).
  destruct Hm as (mm & base & gs & kiss & cm & ->).
  destruct Ht as (tc & params & opt & mll & tl & tpar & Hc & Hl & Hpar & ->).
  destruct Hpar as (n1 & n2 & n3 & n4 & ->).
  destruct Hg as (_ & ->).
  destruct Hp as (d & preds & tmod & Hmod & ->).
  destruct Hpl as (fig & ax1 & im1 & ax2 & im2 & ->).
  destruct Hc as (_ & _ & Hc).
  apply train_trace_events in Hl. apply model_trace_events in Hmod.
  apply (climb_single_pass 5).
  destruct (use_cuda v); [subst tc | destruct Hc as (-> & _)];
    climb_on Hl Hmod; reflexivity.
Qed.

(** The values of the arrays in a script, when the array code succeeds. *)
Lemma ds_data_of_ok nt inp out d : ds_prep nt inp out = Ok d → ds_data_of nt inp out = d.
Proof.
  unfold ds_prep, ds_data_of. unfold mbind, result_bind.
  destruct (getitem inp _) as [tx|]; [|done]. cbn [get].
  destruct (swapaxes tx _ _) as [tx'|]; [|done]. cbn [get].
  destruct (reshape tx' _) as [x|]; [|done]. cbn [get].
  destruct (getitem out _) as [ty|]; [|done]. cbn [get].
  destruct (swapaxes ty _ _) as [ty'|]; [|done]. cbn [get].
  destruct (reshape ty' _) as [y|]; [|done]. cbn [get].
  by intros [= <-].
Qed.
(** *** The script of every cell *)

Section Script.
Context `{!Inhabited obj}.

Set Default Proof Using "Type*".

Lemma forward_follows fs s self x :
  follows fs s (GPRegressionModel_forward oracle self x) (forward_trace s self x).
Proof.
  eapply follows_conseq; [unfold GPRegressionModel_forward; follows_all|].
  intros dist t H. spec_open. by repeat eexists.
Qed.

Lemma model_follows fs s model x :
  follows fs s (GPRegressionModel_call oracle model x) (model_trace s model x).
Proof.
  eapply follows_conseq.
  - unfold GPRegressionModel_call.
    eapply follows_bind; [follows_step|]. intros inputs.
    eapply follows_bind; [apply follows_for_list; intros; apply forward_follows|].
    intros outputs. follows_step.
  - intros output t H. spec_open. by repeat eexists.
Qed.

Ltac follows_known ::= apply model_follows.

Lemma train_iteration_follows fs s optimizer model mll x y i :
  follows fs s (train_iteration oracle optimizer model mll x y i)
    (λ _, iteration_trace s optimizer model mll x y i).
Proof.
  unfold train_iteration, iteration_trace.
  destruct (i mod 10 =? 0)%nat; by_script follows_all.
Qed.

Lemma train_follows fs s N optimizer model mll x y :
  follows fs s (train oracle N optimizer model mll x y)
    (λ _, train_trace s N optimizer model mll x y).
Proof. apply follows_for_each. intros i. apply train_iteration_follows. Qed.

Lemma print_parameters_follows fs s model attr :
  follows fs s (print_parameters oracle model attr) (λ _, parameters_trace s model attr).
Proof. unfold print_parameters, parameters_trace. by_script follows_all. Qed.

Ltac follows_known ::=
  first [apply model_follows | apply train_follows | apply print_parameters_follows].

Lemma cell_load_follows fs s :
  follows (Lib:=Lib) fs s cell_load
    (λ a t, a = (fs !!! path_input, fs !!! path_output) ∧ load_trace a.1 a.2 t).
Proof. unfold cell_load, load_trace. by_script follows_all. Qed.

Lemma cell_ts_data_follows fs s out :
  follows (Lib:=Lib) fs s (cell_ts_data out)
    (λ a t, a = (get ts_train_x, get (ts_train_y out)) ∧ t = []).
Proof. unfold cell_ts_data. by_script follows_all. Qed.

Lemma cell_ts_model_follows fs s x y :
  follows fs s (cell_ts_model oracle x y) (λ lm, ts_model_trace s x y lm.1 lm.2).
Proof.
  unfold cell_ts_model, GPRegressionModel_init, ts_model_trace. by_script follows_all.
Qed.

Lemma cell_ts_train_follows fs s lik model x y :
  follows fs s (cell_ts_train oracle lik model x y)
    (λ _, ts_train_trace s 500 lik model x y).
Proof. unfold cell_ts_train, ts_train_trace. by_script follows_all. Qed.

Lemma cell_ts_predict_follows fs s out lik model :
  follows fs s (cell_ts_predict oracle out lik model)
    (λ _, ts_predict_trace s lik model (get ts_test_x) (get (ts_test_y out))).
Proof. unfold cell_ts_predict, ts_predict_trace. by_script follows_all. Qed.

Ltac follows_known ::=
  first [apply model_follows | apply train_follows | apply print_parameters_follows
        | apply cell_load_follows | apply cell_ts_data_follows
        | apply cell_ts_model_follows | apply cell_ts_train_follows
        | apply cell_ts_predict_follows].

Lemma time_series_follows fs s out :
  follows fs s (time_series oracle out) (λ _, ts_trace s 500 out).
Proof. unfold time_series, ts_trace. by_script follows_all. Qed.

Lemma cell_ds_data_follows fs s nt inp out :
  follows (Lib:=Lib) fs s (cell_ds_data nt inp out)
    (λ d t, d = ds_data_of nt inp out ∧ ds_data_trace d t).
Proof. unfold cell_ds_data, ds_data_of, ds_data_trace. by_script follows_all. Qed.

Lemma cell_ds_model_follows fs s x y :
  follows fs s (cell_ds_model oracle x y) (λ lm, ds_model_trace s x y lm.1 lm.2).
Proof.
  unfold cell_ds_model, GPRegressionModel_kiss_init, ds_model_trace. by_script follows_all.
Qed.

Lemma ds_cuda_follows fs s (b : bool) lik model x y :
  follows fs s
    (if b then
       model ← ext oracle (module_cuda model);
       likelihood ← ext oracle (module_cuda lik);
       train_x ← Tensor_cuda oracle x;
       train_y ← Tensor_cuda oracle y;
       mret (DsTrained b model likelihood train_x train_y)
     else mret (DsTrained b model lik x y))
    (λ v t, use_cuda v = b ∧ ds_cuda_trace s lik model x y v t).
Proof.
  unfold ds_cuda_trace, Tensor_cuda. destruct b; by_script follows_all.
Qed.

Lemma cell_ds_train_follows fs s lik model x y :
  follows fs s (cell_ds_train oracle lik model x y)
    (λ v, ds_train_trace s 81 lik model x y v).
Proof.
  unfold cell_ds_train, ds_train_with, ds_train_trace.
  eapply follows_conseq.
  - eapply follows_bind; [follows_step|]. intros b.
    eapply follows_bind; [apply ds_cuda_follows|]. intros v.
    follows_all.
  - intros v t H. cbv beta in *. spec_open. spec_close.
Qed.

Lemma cell_ds_test_grid_follows fs s b tiles :
  follows fs s (cell_ds_test_grid oracle b tiles) (λ x, ds_grid_trace s b tiles x).
Proof.
  unfold cell_ds_test_grid, ds_grid_trace, Tensor_cuda. destruct b; by_script follows_all.
Qed.

Lemma cell_ds_predict_follows fs s lik model x :
  follows fs s (cell_ds_predict oracle lik model x)
    (λ mv, ds_predict_trace s lik model x mv.1 mv.2).
Proof. unfold cell_ds_predict, ds_predict_trace. by_script follows_all. Qed.

Lemma cell_ds_plot_follows fs s nt mean y tiles :
  follows fs s (cell_ds_plot oracle nt mean y tiles) (λ _, ds_plot_trace s nt mean y tiles).
Proof. unfold cell_ds_plot, ds_plot_trace, Tensor_cpu. by_script follows_all. Qed.

Ltac follows_known ::=
  first [apply model_follows | apply train_follows | apply print_parameters_follows
        | apply cell_load_follows | apply cell_ts_data_follows
        | apply cell_ts_model_follows | apply cell_ts_train_follows
        | apply cell_ts_predict_follows
        | apply cell_ds_data_follows | apply cell_ds_model_follows
        | apply cell_ds_train_follows | apply cell_ds_test_grid_follows
        | apply cell_ds_predict_follows | apply cell_ds_plot_follows].

Lemma downscaling_follows fs s nt inp out :
  follows fs s (downscaling oracle nt inp out) (λ _, ds_trace s 81 nt inp out).
Proof. unfold downscaling, ds_trace. by_script follows_all. Qed.

Lemma notebook_follows fs :
  follows fs [] (notebook oracle)
    (λ _, notebook_trace 500 81 (fs !!! path_input) (fs !!! path_output)).
Proof.
  unfold notebook, cell_imports, notebook_trace.
  by_script ltac:(eapply follows_bind; [follows_step|]; intros ?;
                  eapply follows_bind; [apply cell_load_follows|]; intros ?;
                  apply follows_let_pair;
                  eapply follows_bind; [apply time_series_follows|]; intros ?;
                  apply downscaling_follows).
Qed.

(** A complete execution is the script on the two loaded arrays, and the
    array code of every cell has succeeded. *)
Lemma notebook_complete fs (l : Lib) :
  let r := notebook oracle (start fs l) in
  r.1 = Ok tt →
  ∃ inp out,
    fs !! path_input = Some inp ∧ fs !! path_output = Some out
    ∧ ts_arrays_ok out ∧ ds_arrays_ok inp out
    ∧ notebook_trace 500 81 inp out (trace r.2).
Proof.
  intros r Hok. subst r.
  destruct (notebook_run fs l) as (_ & _ & t0 & _ & _ & _ & Hq).
  destruct (Hq tt Hok) as (_ & Hin & Hout & Hts & Hds).
  exists (fs !!! path_input), (fs !!! path_output). split_and!; try done.
  destruct (follows_run fs [] (notebook oracle) _ (start fs l) (notebook_follows fs)
              eq_refl eq_refl) as (ran & more & [] & Ht & HS & Hm).
  destruct (Hm tt Hok) as [_ ->]. rewrite Hok in Ht. cbn in Ht.
  rewrite Ht. by rewrite !app_nil_r in *.
Qed.

(** C8, amended: every execution runs the cells once each, from top to
    bottom, and ends with the last cell or with the exception that stopped
    it.  Its events are an initial part of one script: the dtype setting
    and the data load, then the time series (arrays, model definition, 500
    iterations of optimization, switch of the model and the likelihood to
    evaluation mode, prediction on the test inputs, figure of that
    prediction), then the downscaling (reshape, model definition, 81
    iterations, test grid, evaluation mode, prediction, the two images).
    In the script the model that is switched to evaluation mode and
    applied to the test inputs is the model the loop has optimized, and
    what is drawn is what the prediction returned.  The load cell with the
    time series is one pass through the stages in their order, and the
    downscaling another. *)
Theorem C8_cells_in_order (fs : gmap string ndarray) (l : Lib) :
  let r := notebook oracle (start fs l) in
  let input_data_all := fs !!! path_input in
  let output_data_all := fs !!! path_output in
  ∃ ran more t_load t_ts t_ds,
    trace r.2 = ran ++ match r.1 with Ok _ => [] | Raise e => [EvRaise e] end
    ∧ (∀ u, r.1 = Ok u → more = [])
    ∧ ran ++ more = [EvCall set_default_dtype_float64 tt []] ++ t_load ++ t_ts ++ t_ds
    ∧ load_trace input_data_all output_data_all t_load
    ∧ ts_trace [] 500 output_data_all t_ts
    ∧ ds_trace [] 81 Num_Tiles input_data_all output_data_all t_ds
    ∧ single_pass (t_load ++ t_ts)
    ∧ single_pass t_ds.
Proof.
  cbn zeta.
  destruct (follows_run fs [] (notebook oracle) _ (start fs l) (notebook_follows fs)
              eq_refl eq_refl) as (ran & more & [] & Ht & (tl & tts & tds & Hl & Hts & Hds & HS) & Hm).
  exists ran, more, tl, tts, tds. split; [exact Ht|].
  split; [intros u Hu; by apply (Hm u)|]. split; [exact HS|]. split; [exact Hl|].
  split; [exact Hts|]. split; [exact Hds|].
  split; [by apply (first_pass [] 500 _ _ _ _ Hl Hts) | by apply (second_pass _ _ _ _ _ _ Hds)].
Qed.

(** C1: each of the two training phases runs its loop for exactly
    N_iterations iterations, 500 for the time series and 81 for the
    downscaling.  A complete execution consists of the construction of the
    first model on the time axis and the targets of the time series, its
    training cell, the construction of the second model on the flattened
    tiles, its training cell, and events that belong to no training loop.
    Each training cell creates the optimizer over the parameters of its
    model and the exact marginal log likelihood of its likelihood and
    model, and then runs the iterations 0, ..., N - 1 in turn; an
    iteration zeroes the gradients, evaluates the model on train_x, takes
    the negated marginal log likelihood of the output against train_y as
    the loss, backpropagates, prints the iteration number and the loss
    when i % 10 == 0, and takes one optimizer step. *)
Theorem C1_training_loops (fs : gmap string ndarray) (l : Lib) :
  let r := notebook oracle (start fs l) in
  r.1 = Ok tt →
  ∃ input_data_all output_data_all ts_x ts_y d,
    fs !! path_input = Some input_data_all
    ∧ fs !! path_output = Some output_data_all
    ∧ ts_train_x = Ok ts_x ∧ ts_train_y output_data_all = Ok ts_y
    ∧ ds_prep Num_Tiles input_data_all output_data_all = Ok d
    ∧ ∃ t0 lik1 model1 t_model1 t_train1 t1 lik2 model2 t_model2 v t_train2 t2,
        trace r.2 = t0 ++ t_model1 ++ t_train1 ++ t1 ++ t_model2 ++ t_train2 ++ t2
        ∧ ts_model_trace [] ts_x ts_y lik1 model1 t_model1
        ∧ ts_train_trace [] 500 lik1 model1 ts_x ts_y t_train1
        ∧ ds_model_trace [] (train_x d) (train_y d) lik2 model2 t_model2
        ∧ ds_train_trace [] 81 lik2 model2 (train_x d) (train_y d) v t_train2
        ∧ printed_iterations t_train1 = filter (λ i, i mod 10 = 0)%nat (seq 0 500)
        ∧ printed_iterations t_train2 = filter (λ i, i mod 10 = 0)%nat (seq 0 81)
        ∧ Forall (λ e, loop_event e = false) (t0 ++ t_model1 ++ t1 ++ t_model2 ++ t2).
Proof.
  intros r Hok. subst r.
  destruct (notebook_complete fs l Hok)
    as (inp & out & Hin & Hout & (x & y & tx & ty & Hx & Hy & Htx & Hty)
        & (d & g & Hd & Hg) & (tl & tts & tds & -> & Hts & Hds & Ht)).
  exists inp, out, x, y, d. split_and!; try done.
  destruct Hts as (lik1 & model1 & tm1 & tt1 & tp1 & Hm1 & Ht1 & Hp1 & ->).
  rewrite Hx, Hy in Hm1, Ht1. cbn [get] in Hm1, Ht1.
  destruct Hds as (lik2 & model2 & v & gx & pm & pv & td & tm2 & tt2 & tg & tp2 & tpl
                   & -> & Hm2 & Ht2 & Hg2 & Hp2 & Hpl & ->).
  rewrite (ds_data_of_ok _ _ _ _ Hd) in *.
  exists ([EvCall set_default_dtype_float64 tt []]
          ++ [EvRead path_input; EvRead path_output;
              EvPrint (PShapes (shape inp) (shape out))]),
    lik1, model1, tm1, tt1,
    (tp1 ++ [EvPrint (PShape "tiles_x shape:" (shape (tiles_x d)));
             EvPrint (PShape "train_x shape: " (shape (train_x d)));
             EvPrint (PShape "tiles_y shape" (shape (tiles_y d)));
             EvPrint (PShape "train_y shape:" (shape (train_y d)))]),
    lik2, model2, tm2, v, tt2, (tg ++ tp2 ++ tpl).
  split; [rewrite Ht; by rewrite <- !app_assoc|].
  split; [exact Hm1|]. split; [exact Ht1|]. split; [exact Hm2|]. split; [exact Ht2|].
  split.
  { destruct Ht1 as (? & ? & ? & tl1 & tq1 & Hl1 & (? & ? & ? & ? & ->) & ->).
    pose proof (train_trace_printed _ _ _ _ _ _ _ _ Hl1) as Hq.
    unfold printed_iterations in *. by rewrite !omap_app, Hq. }
  split.
  { destruct Ht2 as (tc & ? & ? & ? & tl2 & tq2 & (_ & _ & Hc) & Hl2
                     & (? & ? & ? & ? & ->) & ->).
    pose proof (train_trace_printed _ _ _ _ _ _ _ _ Hl2) as Hq.
    assert (printed_iterations tc = []) as Hcq
      by (destruct (use_cuda v); [by subst tc | by destruct Hc as (-> & _)]).
    unfold printed_iterations in *. by rewrite !omap_app, Hq, Hcq. }
  destruct Hm1 as (? & ? & ? & ->). destruct Hm2 as (? & ? & ? & ? & ? & ->).
  destruct Hp1 as (? & ? & tmod1 & ? & ? & ? & ? & ? & Hmod1 & ->).
  destruct Hp2 as (? & ? & tmod2 & Hmod2 & ->).
  destruct Hpl as (? & ? & ? & ? & ? & ->). destruct Hg2 as (_ & ->).
  apply model_trace_events, loop_free_model in Hmod1, Hmod2.
  repeat (apply Forall_app; split); try (by repeat constructor); try done.
  by destruct (use_cuda v); repeat constructor.
Qed.

End Script.

End ExecFacts.

(** ** Executions against the stand-in library *)

Example notebook_completes :
  (notebook demo_oracle (start sample_files demo_lib)).1 = Ok tt.
Proof. by vm_compute. Qed.

Example notebook_missing_file :
  (notebook demo_oracle (start ∅ demo_lib)).1 = Raise (FileNotFoundError path_input)
  ∧ reads (trace (notebook demo_oracle (start ∅ demo_lib)).2) = [path_input].
Proof. by vm_compute. Qed.

Example notebook_library_failure :
  (notebook demo_oracle (start sample_files (DemoState 1 true 0 (Some 40%nat)))).1
  = Raise (LibraryError 0).
Proof. by vm_compute. Qed.

(** C1 for the execution against the stand-in library. *)
Lemma C1_training_loops_witness :
  ∃ d t_train1 t_train2,
    ds_prep Num_Tiles sample_input sample_output = Ok d
    ∧ printed_iterations (obj:=unit) t_train1 = filter (λ i, i mod 10 = 0)%nat (seq 0 500)
    ∧ printed_iterations (obj:=unit) t_train2 = filter (λ i, i mod 10 = 0)%nat (seq 0 81).
Proof.
  destruct (C1_training_loops demo_oracle sample_files demo_lib)
    as (inp & out & x & y & d & Hin & Hout & _ & _ & Hd
        & _ & _ & _ & _ & t1 & _ & _ & _ & _ & _ & t2 & _ & _ & _ & _ & _ & _ & H1 & H2 & _).
  - by vm_compute.
  - exists d, t1, t2. split; [|split; [exact H1 | exact H2]].
    assert (Some inp = Some sample_input) as [= ->] by (rewrite <- Hin; reflexivity).
    assert (Some out = Some sample_output) as [= ->] by (rewrite <- Hout; reflexivity).
    exact Hd.
Defined.

(** C3 for the sample files. *)
Lemma C3_input_files_and_indexing_witness :
  reads (trace (notebook demo_oracle (start sample_files demo_lib)).2)
  = [path_input; path_output].
Proof.
  destruct (C3_input_files_and_indexing demo_oracle) as (H & _).
  apply (H sample_files demo_lib). by vm_compute.
Defined.

(** C8 as stated fails: the execution is not one pass through the stages.
    After the figure of the time series the notebook reshapes arrays again
    and defines, optimizes and plots a second model. *)
Lemma C8_counterexample :
  ¬ single_pass (trace (notebook demo_oracle (start sample_files demo_lib)).2).
Proof. unfold single_pass. by vm_compute. Qed.

(** C7 as stated fails: the first thing the notebook prints is the pair of
    shapes of the two loaded arrays, which is no scalar value. *)
Lemma C7_counterexample :
  ¬ (∀ p, p ∈ prints (trace (notebook demo_oracle (start sample_files demo_lib)).2)
          → printed_scalar p).
Proof.
  intros H.
  apply (H (PShapes [365; 18; 39; 16; 16; 2] [365; 18; 39; 16; 16])).
  apply (list_elem_of_lookup_2 _ 0%nat). by vm_compute.
Qed.

(** C5 as stated fails: the time axis and the training targets of the time
    series do not depend on the library. *)
Lemma C5_counterexample : ¬ depends_on_library ts_data_with.
Proof. intros (l1 & l2 & H). apply H. reflexivity. Qed.

Lemma cell_ts_data_result {Lib obj} out (w : world (Lib:=Lib) (obj:=obj)) :
  (cell_ts_data out w).1 = (x ← ts_train_x; y ← ts_train_y out; Ok (x, y)).
Proof.
  unfold cell_ts_data. unfold lift, raise. unfold mbind, mret, M_bind, M_ret, result_bind.
  destruct ts_train_x as [x|?]; [|done]. cbn.
  destruct (ts_train_y out) as [y|?]; done.
Qed.

Lemma cell_ds_test_grid_result {Lib obj} oracle b tiles (w : world (Lib:=Lib) (obj:=obj)) x :
  (cell_ds_test_grid oracle b tiles w).1 = Ok x → test_x <$> ds_test_grid tiles = Ok x.
Proof.
  unfold cell_ds_test_grid, Tensor_cuda, ext, lift, raise.
  unfold mbind, mret, M_bind, M_ret.
  destruct (ds_test_grid tiles) as [g|?]; [|discriminate]. cbn.
  destruct b; [|done].
  destruct (oracle _ _ _ _) as [[[] ?]|?]; cbn; [done|discriminate].
Qed.

(** C5, amended: what the library returns (here the loss that the training
    loop prints) depends on the library; the quantities computed by the
    notebook's own array code do not.  In every execution, whatever the
    library and its state, each array that the notebook hands to a library
    is the same function of the two loaded arrays: the models are built on
    and trained with the time axis and the sliced targets, or the reshaped
    training arrays; they are applied to these or to the test time axis or
    the test grid; the points drawn are the test time axis against the
    sliced test targets; and the data cells return these functions of the
    loaded arrays. *)
Theorem C5_own_quantities_are_deterministic :
  depends_on_library loss_printed_with
  ∧ ∀ Lib obj (oracle : ∀ T, list setting → call (obj:=obj) T → Lib → result (T * Lib)),
      (∀ (fs : gmap string ndarray) (l : Lib),
         Forall (event_ok (own_fed (fs !!! path_input) (fs !!! path_output)))
           (trace (notebook oracle (start fs l)).2))
      ∧ (∀ (w : world (Lib:=Lib) (obj:=obj)),
           (∀ out, (cell_ts_data out w).1 = (x ← ts_train_x; y ← ts_train_y out; Ok (x, y)))
           ∧ (∀ nt inp out, (cell_ds_data nt inp out w).1 = ds_prep nt inp out)
           ∧ (∀ b tiles x, (cell_ds_test_grid oracle b tiles w).1 = Ok x →
                           test_x <$> ds_test_grid tiles = Ok x)).
Proof.
  split.
  - exists (DemoState 1 false 0 None), (DemoState 2 false 0 None). intros H.
    apply (f_equal (λ ps, match ps with
                          | [_; PLoss x] => PrimFloat.eqb x 1
                          | _ => false
                          end)) in H.
    vm_compute in H. discriminate H.
  - intros Lib obj oracle. split.
    + intros fs l.
      destruct (notebook_run oracle fs l) as (_ & _ & t0 & -> & HP & _).
      apply Forall_app. split.
      * eapply Forall_impl; [exact HP|]. by intros e (_ & _ & He).
      * destruct ((notebook oracle (start fs l)).1); by repeat constructor.
    + intros w. split_and!.
      * intros out. apply cell_ts_data_result.
      * intros nt inp out. apply cell_ds_data_result.
      * intros b tiles x. apply cell_ds_test_grid_result.
Qed.

(** On the layout of the files (18 by 39 tiles) the tile indices of the
    time series fit the axes in the order latitude tile, longitude tile
    only: the value 30 is no latitude tile. *)
Example ts_index_other_order_out_of_range :
  is_Ok (getitem sample_output (ts_index Start_Day N_Train)) = true
  ∧ getitem sample_output
      [Slice (Some Start_Day) (Some (Start_Day + N_Train)); Int lat; Int long;
       Int point.1; Int point.2]
    = Raise IndexError.
Proof. by vm_compute. Qed.
(** * Further properties of the notebook's code *)

(** ** Arrays: the other direction of the round trip, clipping, failures *)

Section MoreNumPyFacts.

Lemma shape_prod_pos sh : Forall (λ d, 0 < d) sh → 0 < shape_prod sh.
Proof.
  induction 1 as [|d sh Hd _ IH]; simpl; [lia|]. fold (shape_prod sh). nia.
Qed.

Lemma unravel_bounds sh n :
  Forall (λ d, 0 < d) sh → 0 <= n < shape_prod sh → in_bounds sh (unravel sh n).
Proof.
  intros Hsh. revert n. induction Hsh as [|d sh Hd Hsh IH]; intros n Hn; simpl.
  { constructor. }
  simpl in Hn. fold (shape_prod sh) in *.
  pose proof (shape_prod_pos sh Hsh) as HP.
  constructor.
  - split; [apply Z.div_pos; lia|]. apply Z.div_lt_upper_bound; nia.
  - apply IH. apply Z.mod_pos_bound. lia.
Qed.

Lemma ravel_unravel sh n :
  Forall (λ d, 0 < d) sh → 0 <= n < shape_prod sh → ravel sh (unravel sh n) = n.
Proof.
  intros Hsh. revert n. induction Hsh as [|d sh Hd Hsh IH]; intros n Hn; simpl.
  { simpl in Hn. lia. }
  simpl in Hn. fold (shape_prod sh) in *.
  pose proof (shape_prod_pos sh Hsh) as HP.
  rewrite IH by (apply Z.mod_pos_bound; lia).
  pose proof (Z.div_mod n (shape_prod sh)). lia.
Qed.

Lemma norm_int_last d : 0 < d → norm_int d (-1) = Ok (d - 1).
Proof.
  intros H. unfold norm_int. change (-1 <? 0) with true. cbn beta iota.
  destruct (Z.leb_spec 0 (-1 + d)); [|lia].
  destruct (Z.ltb_spec (-1 + d) d); [|lia]. cbn. f_equal. lia.
Qed.

Lemma norm_int_outside d i : 0 <= i → d <= i → norm_int d i = Raise IndexError.
Proof.
  intros H1 H2. unfold norm_int. destruct (Z.ltb_spec i 0); [lia|].
  destruct (Z.ltb_spec i d); [lia|]. by rewrite andb_false_r.
Qed.

(** A slice with bounds beyond the axis is cut to the axis. *)
Lemma norm_slice_clip d lo hi :
  0 <= lo → lo <= hi → 0 <= d →
  norm_slice d (Some lo) (Some hi) = (Z.min d lo, Z.min d hi - Z.min d lo).
Proof.
  intros. unfold norm_slice, clip_bound.
  destruct (Z.ltb_spec lo 0), (Z.ltb_spec hi 0); try lia. f_equal; lia.
Qed.

(** Indexing fails with [IndexError] only. *)
Lemma plan_raises sh ix e : plan sh ix = Raise e → e = IndexError.
Proof.
  revert sh. induction ix as [|[i|a b] ix IH]; intros [|d sh]; simpl; try congruence.
  - unfold norm_int. destruct (_ && _); simpl; [|congruence].
    destruct (plan sh ix) eqn:Hp; simpl; [congruence|]. intros [= <-]. by eapply IH.
  - destruct (plan sh ix) eqn:Hp; simpl; [congruence|]. intros [= <-]. by eapply IH.
Qed.

Lemma plan_too_many sh ix :
  (length sh < length ix)%nat → plan sh ix = Raise IndexError.
Proof.
  intros Hlen. destruct (plan sh ix) as [p|e] eqn:Hp.
  - exfalso. revert sh p Hlen Hp.
    induction ix as [|[i|a b] ix IH]; intros [|d sh] p Hlen; simpl in *; try lia;
      try congruence.
    + destruct (norm_int d i); simpl; [|congruence].
      destruct (plan sh ix) eqn:Hp; simpl; [|congruence]. intros _.
      eapply IH; [|done]. lia.
    + destruct (plan sh ix) eqn:Hp; simpl; [|congruence]. intros _.
      eapply IH; [|done]. lia.
  - by rewrite (plan_raises _ _ _ Hp).
Qed.

Lemma getitem_too_many a ix :
  (ndim a < length ix)%nat → getitem a ix = Raise IndexError.
Proof. intros H. unfold getitem. by rewrite plan_too_many. Qed.

(** [reshape] to a shape without [-1] fails unless the sizes agree. *)
Lemma reshape_mismatch a ns :
  Forall (λ z, 0 <= z) ns → shape_prod ns ≠ asize a → reshape a ns = Raise ValueError.
Proof.
  intros Hns Hp. unfold reshape, infer_shape.
  destruct (nonneg_no_wildcard ns Hns) as (-> & -> & ->). simpl.
  by destruct (Z.eqb_spec (shape_prod ns) (asize a)).
Qed.

Lemma reshape_square_negative a d : d < -1 → reshape a [d; d] = Raise ValueError.
Proof.
  intros Hd. unfold reshape, infer_shape. simpl.
  by destruct (Z.ltb_spec d (-1)); [|lia].
Qed.

(** [a.reshape((d, d))] succeeds exactly when [a] has [d * d] elements. *)
Lemma reshape_square_ok a d :
  d ≠ -1 → is_Ok (reshape a [d; d]) = true ↔ 0 <= d ∧ asize a = d * d.
Proof.
  intros Hd. destruct (Z.lt_ge_cases d 0) as [Hneg|Hpos].
  - rewrite reshape_square_negative by lia. split; [done|lia].
  - destruct (decide (asize a = d * d)) as [He|Hne].
    + rewrite reshape_exact; [done | nonneg_shape | cbn; lia].
    + rewrite reshape_mismatch; [split; [done|lia] | nonneg_shape | cbn; lia].
Qed.

(** The element of [a.reshape((d, d)).T] at [(q, p)] is the element of the
    one-dimensional [a] at [p * d + q]. *)
Lemma reshape_square_T a n d img :
  shape a = [n] → transpose <$> reshape a [d; d] = Ok img →
  shape img = [d; d] ∧ ∀ p q, item img [q; p] = item a [p * d + q].
Proof.
  intros Hs. unfold reshape.
  destruct (infer_shape (asize a) [d; d]) as [sh|] eqn:Hi; [|done].
  assert (sh = [d; d]) as ->.
  { destruct (decide (d = -1)) as [->|Hd]; [done|].
    destruct (Z.lt_ge_cases d 0) as [Hneg|Hpos].
    - unfold infer_shape in Hi. simpl in Hi.
      destruct (Z.ltb_spec d (-1)); [done|lia].
    - unfold infer_shape in Hi.
      destruct (nonneg_no_wildcard [d; d]) as (H1 & H2 & H3); [nonneg_shape|].
      rewrite H1, H2 in Hi. simpl in Hi. destruct (_ =? _); by inversion Hi. }
  cbn [mbind result_bind fmap result_fmap]. intros [= <-]. split; [done|].
  intros p q. cbn [transpose item shape]. rewrite Hs.
  change (reverse [q; p]) with [p; q]. cbn [ravel unravel shape_prod foldr].
  f_equal. f_equal. rewrite Z.div_1_r. lia.
Qed.

End MoreNumPyFacts.

(** ** Downscaling: data preparation on any data of the files' layout *)

(** The data preparation for any [Num_Tiles >= 1] on data that has the
    starting tile: the two tile slices are cut to the data, to
    [ni = min(Num_Tiles, A - Start_Lat)] by [nj = min(Num_Tiles, B -
    Start_Long)] tiles. *)
Lemma ds_prep_clipped nt inp out D A B :
  shape inp = [D; A; B; 16; 16; 2] → shape out = [D; A; B; 16; 16] →
  Day_Number < D → 0 < nt → Start_Lat < A → Start_Long < B →
  ∃ d, ds_prep nt inp out = Ok d
    ∧ shape (tiles_x d)
      = [Z.min nt (A - Start_Lat); 16; Z.min nt (B - Start_Long); 16; 2]
    ∧ shape (tiles_y d)
      = [Z.min nt (A - Start_Lat); 16; Z.min nt (B - Start_Long); 16]
    ∧ n_train d = 256 * Z.min nt (A - Start_Lat) * Z.min nt (B - Start_Long)
    ∧ shape (train_x d) = [n_train d; 2]
    ∧ shape (train_y d) = [n_train d]
    ∧ (∀ i r j c k, item (tiles_x d) [i; r; j; c; k]
         = item inp [Day_Number; Start_Lat + i; Start_Long + j; r; c; k])
    ∧ (∀ i r j c k,
         0 <= i < Z.min nt (A - Start_Lat) → 0 <= j < Z.min nt (B - Start_Long) →
         0 <= r < 16 → 0 <= c < 16 → 0 <= k < 2 →
         item (train_x d) [ds_flat (Z.min nt (B - Start_Long)) i r j c; k]
         = item inp [Day_Number; Start_Lat + i; Start_Long + j; r; c; k])
    ∧ (∀ i r j c,
         0 <= i < Z.min nt (A - Start_Lat) → 0 <= j < Z.min nt (B - Start_Long) →
         0 <= r < 16 → 0 <= c < 16 →
         item (train_y d) [ds_flat (Z.min nt (B - Start_Long)) i r j c]
         = item out [Day_Number; Start_Lat + i; Start_Long + j; r; c]).
Proof.
  intros Hin Hout HD Hnt HA HB.
  unfold Day_Number, Start_Lat, Start_Long in *.
  set (ni := Z.min nt (A - 4)). set (nj := Z.min nt (B - 14)).
  assert (0 < ni ∧ 0 < nj) as [Hni Hnj] by (unfold ni, nj; lia).
  unfold ds_prep, getitem, tiles_x_index, tiles_y_index, All, Day_Number, Start_Lat, Start_Long.
  rewrite Hin, Hout. cbn [plan mbind result_bind fmap list_fmap].
  rewrite !norm_int_inside by lia.
  rewrite !norm_slice_clip, !norm_slice_all by lia.
  cbn [mbind result_bind fst snd sel_shape].
  replace (Z.min A 4) with 4 by lia. replace (Z.min B 14) with 14 by lia.
  replace (Z.min A (4 + nt) - 4) with ni by (unfold ni; lia).
  replace (Z.min B (14 + nt) - 14) with nj by (unfold nj; lia).
  replace (16 - 0) with 16 by lia. replace (2 - 0) with 2 by lia.
  unfold swapaxes, ndim. cbn [shape length Nat.ltb Nat.leb andb].
  cbn [mbind result_bind shape].
  change (swap_at 1 2 [ni; nj; 16; 16; 2]) with [ni; 16; nj; 16; 2].
  change (swap_at 1 2 [ni; nj; 16; 16]) with [ni; 16; nj; 16].
  cbn [shape take].
  rewrite (reshape_rows _ _ 2) by (cbn; nia).
  cbn [mbind result_bind].
  rewrite reshape_exact; [| nonneg_shape | cbn; lia ].
  cbn [mbind result_bind].
  eexists. split; [reflexivity|].
  cbn [tiles_x tiles_y n_train train_x train_y shape item Tensor shape_prod foldr].
  split; [done|]. split; [done|]. split; [lia|]. split; [f_equal; lia|].
  split; [f_equal; lia|]. split; [|split].
  - intros. reflexivity.
  - intros i r j c k Hi Hj Hr Hc Hk.
    replace (ravel _ [ds_flat nj i r j c; k]) with (ravel [ni; 16; nj; 16; 2] [i; r; j; c; k])
      by (unfold ds_flat; cbn; lia).
    rewrite unravel_ravel by (repeat constructor; lia). reflexivity.
  - intros i r j c Hi Hj Hr Hc.
    replace (ravel _ [ds_flat nj i r j c]) with (ravel [ni; 16; nj; 16] [i; r; j; c])
      by (unfold ds_flat; cbn; lia).
    rewrite unravel_ravel by (repeat constructor; lia). reflexivity.
Qed.

(** A run of the data preparation cell that succeeds: the four shapes are
    printed, and nothing else happens. *)
Lemma cell_ds_data_run {Lib obj} nt inp out d (w : world (Lib:=Lib) (obj:=obj)) :
  ds_prep nt inp out = Ok d →
  cell_ds_data nt inp out w
  = (Ok d, World (files w) (lib w) (settings w)
             (trace w ++ [EvPrint (PShape "tiles_x shape:" (shape (tiles_x d)));
                          EvPrint (PShape "train_x shape: " (shape (train_x d)));
                          EvPrint (PShape "tiles_y shape" (shape (tiles_y d)));
                          EvPrint (PShape "train_y shape:" (shape (train_y d)))])).
Proof.
  unfold cell_ds_data, ds_prep.
  unfold lift, py_print, raise, log.
  unfold mbind, mret, M_bind, M_ret, result_bind.
  destruct (getitem inp _) as [tx|?]; [|done]. cbn.
  destruct (swapaxes tx _ _) as [tx'|?]; [|done]. cbn.
  destruct (reshape tx' _) as [x|?]; [|done]. cbn.
  destruct (getitem out _) as [ty|?]; [|done].
  destruct (swapaxes ty _ _) as [ty'|?]; [|done]. cbn.
  destruct (reshape ty' _) as [y|?]; [|done]. cbn.
  intros [= <-]. cbn. by rewrite <- !app_assoc.
Qed.

(** X1: the data preparation cell never fails on data of the files' layout
    that has day Day_Number and the starting tile; slices past the end of
    the data are cut, so the cell selects min(Num_Tiles, A - Start_Lat) by
    min(Num_Tiles, B - Start_Long) tiles, prints the four shapes that
    follow from these two numbers, and flattens with the selected number of
    longitude tiles as the stride. *)
Theorem data_prep_clips_to_the_data {Lib obj} (num_tiles : Z)
    (input_data_all output_data_all : ndarray) (D A B : Z)
    (w : world (Lib:=Lib) (obj:=obj)) :
  shape input_data_all = [D; A; B; 16; 16; 2] →
  shape output_data_all = [D; A; B; 16; 16] →
  Day_Number < D → 0 < num_tiles → Start_Lat < A → Start_Long < B →
  ∃ d ni nj,
    ni = Z.min num_tiles (A - Start_Lat) ∧ nj = Z.min num_tiles (B - Start_Long)
    ∧ (cell_ds_data num_tiles input_data_all output_data_all w).1 = Ok d
    ∧ trace (cell_ds_data num_tiles input_data_all output_data_all w).2
      = trace w ++ [EvPrint (PShape "tiles_x shape:" [ni; 16; nj; 16; 2]);
                    EvPrint (PShape "train_x shape: " [256 * ni * nj; 2]);
                    EvPrint (PShape "tiles_y shape" [ni; 16; nj; 16]);
                    EvPrint (PShape "train_y shape:" [256 * ni * nj])]
    ∧ n_train d = 256 * ni * nj
    ∧ ∀ i j r c, 0 <= i < ni → 0 <= j < nj → 0 <= r < 16 → 0 <= c < 16 →
        item (train_y d) [((i * 16 + r) * nj + j) * 16 + c]
        = item output_data_all [Day_Number; Start_Lat + i; Start_Long + j; r; c]
        ∧ ∀ k, 0 <= k < 2 →
            item (train_x d) [((i * 16 + r) * nj + j) * 16 + c; k]
            = item input_data_all [Day_Number; Start_Lat + i; Start_Long + j; r; c; k].
Proof.
  intros Hin Hout HD Hnt HA HB.
  destruct (ds_prep_clipped num_tiles input_data_all output_data_all D A B
              Hin Hout HD Hnt HA HB)
    as (d & Hd & Htx & Hty & Hn & Hx & Hy & _ & Hix & Hiy).
  exists d, (Z.min num_tiles (A - Start_Lat)), (Z.min num_tiles (B - Start_Long)).
  split; [done|]. split; [done|].
  rewrite (cell_ds_data_run _ _ _ d w Hd). cbn [fst snd trace].
  rewrite Htx, Hty, Hx, Hy, Hn. split; [done|]. split; [done|]. split; [done|].
  intros i j r c Hi Hj Hr Hc. split.
  - apply (Hiy i r j c); done.
  - intros k Hk. apply (Hix i r j c k); done.
Qed.

(** X1 on the sample data set with Num_Tiles = 15: 14 by 15 tiles. *)
Lemma data_prep_clips_to_the_data_witness :
  ∃ d, (cell_ds_data (obj:=unit) 15 sample_input sample_output
          (start sample_files demo_lib)).1 = Ok d
     ∧ n_train d = 256 * 14 * 15.
Proof.
  destruct (data_prep_clips_to_the_data (obj:=unit) 15 sample_input sample_output
              365 18 39 (start sample_files demo_lib)
              eq_refl eq_refl eq_refl eq_refl eq_refl eq_refl)
    as (d & ni & nj & -> & -> & Hd & _ & Hn & _).
  exists d. split; [exact Hd | exact Hn].
Defined.

(** X2: the image of the original field can be built exactly when no tile
    slice was cut: on data of the files' layout,
    train_y.reshape((odim, odim)) succeeds if and only if Start_Lat +
    Num_Tiles and Start_Long + Num_Tiles lie within the numbers of latitude
    and longitude tiles, and raises ValueError otherwise; and
    preds_mean.reshape((ddim, ddim)) succeeds exactly on arrays of ddim^2
    elements. *)
Theorem image_reshape_succeeds_iff_unclipped (num_tiles : Z)
    (input_data_all output_data_all : ndarray) (D A B : Z) :
  shape input_data_all = [D; A; B; 16; 16; 2] →
  shape output_data_all = [D; A; B; 16; 16] →
  Day_Number < D → 0 < num_tiles → Start_Lat < A → Start_Long < B →
  ∃ d, ds_prep num_tiles input_data_all output_data_all = Ok d
    ∧ (is_Ok (orig_SVDI num_tiles (train_y d)) = true
       ↔ Start_Lat + num_tiles <= A ∧ Start_Long + num_tiles <= B)
    ∧ (is_Ok (orig_SVDI num_tiles (train_y d)) = false
       → orig_SVDI num_tiles (train_y d) = Raise ValueError)
    ∧ ∀ preds_mean,
        is_Ok (downscaled_SVDI num_tiles preds_mean) = true
        ↔ asize preds_mean = ddim num_tiles * ddim num_tiles.
Proof.
  intros Hin Hout HD Hnt HA HB.
  destruct (ds_prep_clipped num_tiles input_data_all output_data_all D A B
              Hin Hout HD Hnt HA HB)
    as (d & Hd & _ & _ & Hn & _ & Hy & _).
  exists d. split; [done|].
  assert (asize (train_y d) = odim num_tiles * odim num_tiles
          ↔ Start_Lat + num_tiles <= A ∧ Start_Long + num_tiles <= B) as Hsize.
  { unfold asize. rewrite Hy, Hn. unfold odim. cbn [shape_prod foldr].
    unfold Start_Lat, Start_Long in *. split.
    - intros H.
      assert (Z.min num_tiles (A - 4) * Z.min num_tiles (B - 14)
              = num_tiles * num_tiles) as H' by lia.
      destruct (Z.min_spec num_tiles (A - 4)) as [[? E1]|[? E1]];
        destruct (Z.min_spec num_tiles (B - 14)) as [[? E2]|[? E2]];
        rewrite E1, E2 in H'; nia.
    - intros [? ?]. rewrite !Z.min_l by lia. lia. }
  assert (∀ a n, 0 < n → is_Ok (transpose <$> reshape a [n; n]) = is_Ok (reshape a [n; n]))
    as Hfmap by (intros a n _; by destruct (reshape a [n; n])).
  split; [|split].
  - unfold orig_SVDI, numpy. rewrite Hfmap by (unfold odim; lia).
    rewrite reshape_square_ok by (unfold odim; lia). rewrite <- Hsize.
    unfold odim. split; [by intros [_ ?] | intros ?; split; [lia|done]].
  - unfold orig_SVDI, numpy. intros Hfail.
    destruct (decide (asize (train_y d) = odim num_tiles * odim num_tiles)) as [He|Hne].
    + rewrite reshape_exact in Hfail; [done | unfold odim; nonneg_shape | cbn; lia].
    + rewrite reshape_mismatch; [done | unfold odim; nonneg_shape | cbn; lia].
  - intros preds_mean. unfold downscaled_SVDI, numpy.
    rewrite Hfmap by (unfold ddim, odim; lia).
    rewrite reshape_square_ok by (unfold ddim, odim; lia).
    unfold ddim, odim. split; [by intros [_ ?] | intros ?; split; [lia|done]].
Qed.

(** X2 on the sample data set: 18 latitude tiles hold Start_Lat + 14 tiles
    and not Start_Lat + 15. *)
Lemma image_reshape_succeeds_iff_unclipped_witness :
  ∃ d, ds_prep 15 sample_input sample_output = Ok d
     ∧ orig_SVDI 15 (train_y d) = Raise ValueError.
Proof.
  destruct (image_reshape_succeeds_iff_unclipped 15 sample_input sample_output
              365 18 39 eq_refl eq_refl eq_refl eq_refl eq_refl eq_refl)
    as (d & Hd & Hiff & Hfail & _).
  exists d. split; [exact Hd|]. apply Hfail.
  destruct (is_Ok (orig_SVDI 15 (train_y d))); [|reflexivity].
  destruct (proj1 Hiff eq_refl) as [H _]. unfold Start_Lat in H. lia.
Defined.

(** X3: the data preparation cell raises IndexError, before printing
    anything, when the input array has no day Day_Number or fewer than its
    six axes. *)
Theorem data_prep_index_errors {Lib obj} (num_tiles : Z)
    (input_data_all output_data_all : ndarray) (w : world (Lib:=Lib) (obj:=obj)) :
  (ndim input_data_all < 6)%nat
  ∨ (∃ D rest, shape input_data_all = D :: rest ∧ D <= Day_Number) →
  cell_ds_data num_tiles input_data_all output_data_all w
  = (Raise IndexError, log (EvRaise IndexError) w).
Proof.
  intros H.
  assert (getitem input_data_all (tiles_x_index num_tiles) = Raise IndexError) as Hg.
  { destruct H as [Hnd | (D & rest & Hs & HD)].
    - apply getitem_too_many. exact Hnd.
    - unfold getitem, tiles_x_index. rewrite Hs. cbn [plan].
      rewrite norm_int_outside; [done | done | exact HD]. }
  unfold cell_ds_data. rewrite Hg. reflexivity.
Qed.

(** X3 on an input array of 50 days. *)
Lemma data_prep_index_errors_witness :
  (cell_ds_data (obj:=unit) Num_Tiles (NDArray [50; 18; 39; 16; 16; 2] sample_coord)
     sample_output (start sample_files demo_lib)).1 = Raise IndexError.
Proof.
  rewrite (data_prep_index_errors (obj:=unit) Num_Tiles
             (NDArray [50; 18; 39; 16; 16; 2] sample_coord) sample_output
             (start sample_files demo_lib)).
  - reflexivity.
  - right. exists 50, [18; 39; 16; 16; 2]. split; [reflexivity|]. unfold Day_Number. lia.
Defined.

Lemma reshape_zero_rows a : reshape a [0; -1] = Raise ValueError.
Proof. reflexivity. Qed.

(** X4: when the tile slices select nothing (no latitude tile Start_Lat, no
    longitude tile Start_Long, or Num_Tiles = 0) the slicing itself does not
    fail: tiles_x is empty, n_train is 0, and the cell raises ValueError at
    reshape((n_train, -1)), after printing the shape of tiles_x. *)
Theorem data_prep_empty_selection {Lib obj} (num_tiles : Z)
    (input_data_all output_data_all : ndarray) (D A B : Z)
    (w : world (Lib:=Lib) (obj:=obj)) :
  shape input_data_all = [D; A; B; 16; 16; 2] →
  Day_Number < D → 0 <= num_tiles → 0 <= A → 0 <= B →
  num_tiles = 0 ∨ A <= Start_Lat ∨ B <= Start_Long →
  ∃ ni nj, ni * nj = 0
    ∧ cell_ds_data num_tiles input_data_all output_data_all w
      = (Raise ValueError,
         log (EvRaise ValueError)
           (log (EvPrint (PShape "tiles_x shape:" [ni; 16; nj; 16; 2])) w)).
Proof.
  intros Hin HD Hnt HA HB Hempty.
  unfold Day_Number, Start_Lat, Start_Long in *.
  set (ni := Z.min A (4 + num_tiles) - Z.min A 4).
  set (nj := Z.min B (14 + num_tiles) - Z.min B 14).
  assert (ni = 0 ∨ nj = 0) as Hz by (unfold ni, nj; lia).
  exists ni, nj. split; [destruct Hz as [-> | ->]; lia|].
  assert (∃ tx, getitem input_data_all (tiles_x_index num_tiles) = Ok tx
                ∧ shape tx = [ni; nj; 16; 16; 2]) as (tx & Hg & Hs).
  { unfold getitem, tiles_x_index, All, Day_Number, Start_Lat, Start_Long.
    rewrite Hin. cbn [plan mbind result_bind fmap list_fmap].
    rewrite !norm_int_inside by lia.
    rewrite !norm_slice_clip, !norm_slice_all by lia.
    cbn [mbind result_bind fst snd sel_shape].
    eexists. split; [reflexivity|]. cbn [shape]. unfold ni, nj. f_equal. }
  unfold cell_ds_data, lift, mbind, M_bind, mret, M_ret, py_print.
  rewrite Hg. unfold swapaxes, ndim. rewrite Hs.
  cbn [length Nat.ltb Nat.leb andb shape].
  change (swap_at 1 2 [ni; nj; 16; 16; 2]) with [ni; 16; nj; 16; 2].
  cbn [take shape_prod foldr].
  replace (ni * (16 * (nj * (16 * 1)))) with 0 by (destruct Hz as [-> | ->]; lia).
  rewrite reshape_zero_rows. reflexivity.
Qed.

(** X4 on the sample data set with Num_Tiles = 0. *)
Lemma data_prep_empty_selection_witness :
  (cell_ds_data (obj:=unit) 0 sample_input sample_output
     (start sample_files demo_lib)).1 = Raise ValueError.
Proof.
  destruct (data_prep_empty_selection (obj:=unit) 0 sample_input sample_output
              365 18 39 (start sample_files demo_lib)
              eq_refl eq_refl ltac:(discriminate) ltac:(discriminate)
              ltac:(discriminate) (or_introl eq_refl))
    as (ni & nj & _ & ->).
  reflexivity.
Defined.

(** ** Downscaling: the test grid on any selection of tiles *)

Lemma broadcast_test_tiles_rect ni nj :
  2 <= nj →
  broadcast_shapes [ni; 16; 1; nj; 16; 1; 2] [1; 1; 2; 1; 1; 2; 2]
  = Ok [ni; 16; 2; nj; 16; 2; 2].
Proof.
  intros H. unfold broadcast_shapes.
  change (reverse [ni; 16; 1; nj; 16; 1; 2]) with [2; 1; 16; nj; 1; 16; ni].
  change (reverse [1; 1; 2; 1; 1; 2; 2]) with [2; 2; 1; 1; 2; 1; 1].
  cbn [broadcast_rev mbind result_bind].
  destruct (ni =? 1) eqn:E1; destruct (nj =? 1) eqn:E2; cbn; rewrite ?E1, ?E2;
    reflexivity.
Qed.

(** The test grid for [ni] latitude tiles and [nj >= 2] longitude tiles. *)
Lemma ds_test_grid_rect ni nj tiles :
  shape tiles = [ni; 16; nj; 16; 2] → 1 <= ni → 2 <= nj →
  ∃ g, ds_test_grid tiles = Ok g
    ∧ shape (dlat g) = [] ∧ shape (dlong g) = []
    ∧ item (dlat g) [] = PrimFloat.sub (item tiles [0;0;0;0;0]) (item tiles [0;0;1;0;0])
    ∧ item (dlong g) [] = PrimFloat.sub (item tiles [0;0;0;1;1]) (item tiles [0;0;0;0;1])
    ∧ n_test g = 1024 * ni * nj
    ∧ shape (test_x g) = [1024 * ni * nj; 2]
    ∧ (∀ i r a j c b k, 0 <= i < ni → 0 <= r < 16 → 0 <= a < 2 → 0 <= j < nj →
         0 <= c < 16 → 0 <= b < 2 → 0 <= k < 2 →
         item (test_x g) [test_flat nj i r a j c b; k]
         = PrimFloat.add (item tiles [i; r; j; c; k])
                         (offset (item (dlat g) []) (item (dlong g) []) a b k)).
Proof.
  intros Hs Hni Hnj.
  unfold ds_test_grid, dlat_of, dlong_of, getitem. rewrite Hs.
  cbn [plan mbind result_bind fmap list_fmap].
  rewrite !norm_int_inside by lia.
  cbn [mbind result_bind sel_shape].
  unfold sub, broadcast2. cbn [shape].
  change (broadcast_shapes [] []) with (Ok (@nil Z)).
  cbn [mbind result_bind].
  unfold expand_dims, ndim. rewrite Hs. cbn [length Nat.add].
  change (bool_decide (Forall (λ ax : nat, (ax < 7)%nat) [2%nat; 5%nat])) with true.
  change (bool_decide (NoDup [2%nat; 5%nat])) with true.
  change (expand_shape [2%nat; 5%nat] 0 7 [ni; 16; nj; 16; 2])
    with [ni; 16; 1; nj; 16; 1; 2].
  cbn [mbind result_bind].
  match goal with |- context [delta_vecs ?x ?y] =>
    destruct (delta_vecs_spec x y eq_refl eq_refl) as (dv & -> & Hdsh & Hdv)
  end.
  cbn [mbind result_bind]. unfold add, broadcast2. cbn [shape]. rewrite Hdsh.
  rewrite broadcast_test_tiles_rect by done.
  cbn [mbind result_bind shape].
  rewrite !dim_S, !dim_O. cbn [mbind result_bind].
  rewrite reshape_exact; [| nonneg_shape | cbn; lia].
  cbn [mbind result_bind shape take].
  rewrite (reshape_rows _ _ 2) by (cbn; nia).
  cbn [mbind result_bind].
  eexists. split; [reflexivity|].
  cbn [dlat dlong n_test test_x shape item Tensor shape_prod foldr].
  split; [done|]. split; [done|]. split; [reflexivity|]. split; [reflexivity|].
  split; [lia|]. split; [f_equal; lia|].
  intros i r a j c b k Hi Hr Ha Hj Hc Hb Hk.
  replace (ravel _ [test_flat nj i r a j c b; k])
    with (ravel [ni; 16 * 2; nj; 16 * 2; 2] [i; 2 * r + a; j; 2 * c + b; k])
    by (unfold test_flat; cbn; lia).
  rewrite unravel_ravel by (repeat constructor; lia).
  replace (ravel [ni; 16 * 2; nj; 16 * 2; 2] [i; 2 * r + a; j; 2 * c + b; k])
    with (ravel [ni; 16; 2; nj; 16; 2; 2] [i; r; a; j; c; b; k])
    by (cbn; lia).
  rewrite unravel_ravel by (repeat constructor; lia).
  rewrite <- Hdv by done.
  unfold bindex. cbn [length Nat.sub drop zip_with].
  destruct (Z.eqb_spec nj 1) as [?|_]; [lia|].
  destruct (Z.eqb_spec ni 1) as [?|_]; [|reflexivity].
  replace i with 0 by lia. reflexivity.
Qed.

(** Every row of the test grid is a test point: the row number splits into
    the tile, the point and the test point. *)
Lemma test_flat_cover ni nj n :
  1 <= ni → 1 <= nj → 0 <= n < 1024 * ni * nj →
  ∃ i r a j c b,
    (0 <= i < ni ∧ 0 <= r < 16 ∧ 0 <= a < 2)
    ∧ (0 <= j < nj ∧ 0 <= c < 16 ∧ 0 <= b < 2)
    ∧ n = test_flat nj i r a j c b.
Proof.
  intros Hni Hnj Hn.
  assert (Forall (λ d, 0 < d) [ni; 16; 2; nj; 16; 2]) as Hpos
    by (repeat (apply Forall_cons_2; [lia|]); apply Forall_nil_2).
  assert (0 <= n < shape_prod [ni; 16; 2; nj; 16; 2]) as Hn' by (cbn; lia).
  pose proof (unravel_bounds _ n Hpos Hn') as Hb.
  pose proof (ravel_unravel _ n Hpos Hn') as Hr.
  destruct (unravel [ni; 16; 2; nj; 16; 2] n) as [|i [|r [|a [|j [|c [|b [|]]]]]]];
    try (exfalso; apply Forall2_length in Hb; simpl in Hb; lia).
  unfold in_bounds in Hb.
  apply Forall2_cons_1 in Hb as [Hi Hb]. apply Forall2_cons_1 in Hb as [Hr' Hb].
  apply Forall2_cons_1 in Hb as [Ha Hb]. apply Forall2_cons_1 in Hb as [Hj Hb].
  apply Forall2_cons_1 in Hb as [Hc Hb]. apply Forall2_cons_1 in Hb as [Hb' _].
  exists i, r, a, j, c, b. split; [done|]. split; [done|].
  rewrite <- Hr. unfold test_flat. cbn. lia.
Qed.

Lemma test_flat_inj nj i r a j c b i' r' a' j' c' b' :
  (0 <= r < 16 ∧ 0 <= a < 2) → (0 <= j < nj ∧ 0 <= c < 16 ∧ 0 <= b < 2) →
  (0 <= r' < 16 ∧ 0 <= a' < 2) → (0 <= j' < nj ∧ 0 <= c' < 16 ∧ 0 <= b' < 2) →
  0 <= i → 0 <= i' →
  test_flat nj i r a j c b = test_flat nj i' r' a' j' c' b' →
  (i, r, a, j, c, b) = (i', r', a', j', c', b').
Proof.
  intros (Hr & Ha) (Hj & Hc & Hb) (Hr' & Ha') (Hj' & Hc' & Hb') Hi Hi' Heq.
  set (m := Z.max i i' + 1).
  assert (unravel [m; 16; 2; nj; 16; 2] (ravel [m; 16; 2; nj; 16; 2] [i; r; a; j; c; b])
          = unravel [m; 16; 2; nj; 16; 2] (ravel [m; 16; 2; nj; 16; 2] [i'; r'; a'; j'; c'; b']))
    as H.
  { f_equal. unfold test_flat in Heq. cbn. lia. }
  rewrite !unravel_ravel in H by (repeat constructor; lia).
  congruence.
Qed.

(** X5: for any selection of at least two longitude tiles, the test grid
    has four rows per training point: n_test = 4 * n_train rows of two
    coordinates; every row is the test point (a, b) of one tile (i, j) and
    point (r, c), at row ((i*32 + 2r + a) * nj + j) * 32 + 2c + b, and it
    holds the coordinates of that training point displaced by the (a, b)
    entry of delta_vecs; different test points lie in different rows. *)
Theorem test_grid_four_points_per_training_point (ni nj : Z) (tiles : ndarray) :
  shape tiles = [ni; 16; nj; 16; 2] → 1 <= ni → 2 <= nj →
  ∃ g, ds_test_grid tiles = Ok g
    ∧ n_test g = 4 * shape_prod (take 4 (shape tiles))
    ∧ shape (test_x g) = [n_test g; 2]
    ∧ (∀ n, 0 <= n < n_test g →
        ∃ i r a j c b,
          (0 <= i < ni ∧ 0 <= r < 16 ∧ 0 <= a < 2)
          ∧ (0 <= j < nj ∧ 0 <= c < 16 ∧ 0 <= b < 2)
          ∧ n = ((i * 32 + (2 * r + a)) * nj + j) * 32 + (2 * c + b)
          ∧ ∀ k, 0 <= k < 2 →
              item (test_x g) [n; k]
              = PrimFloat.add (item tiles [i; r; j; c; k])
                  (offset (item (dlat g) []) (item (dlong g) []) a b k))
    ∧ (∀ i r a j c b i' r' a' j' c' b',
        (0 <= i < ni ∧ 0 <= r < 16 ∧ 0 <= a < 2) →
        (0 <= j < nj ∧ 0 <= c < 16 ∧ 0 <= b < 2) →
        (0 <= i' < ni ∧ 0 <= r' < 16 ∧ 0 <= a' < 2) →
        (0 <= j' < nj ∧ 0 <= c' < 16 ∧ 0 <= b' < 2) →
        test_flat nj i r a j c b = test_flat nj i' r' a' j' c' b' →
        (i, r, a, j, c, b) = (i', r', a', j', c', b')).
Proof.
  intros Hs Hni Hnj.
  destruct (ds_test_grid_rect ni nj tiles Hs Hni Hnj)
    as (g & Hg & _ & _ & _ & _ & Hn & Hx & Hitem).
  exists g. split; [done|]. rewrite Hs. cbn [take shape_prod foldr].
  split; [lia|]. split; [by rewrite Hx, Hn|]. split.
  - intros n Hlt. rewrite Hn in Hlt.
    destruct (test_flat_cover ni nj n ltac:(lia) ltac:(lia) Hlt)
      as (i & r & a & j & c & b & (Hi & Hr & Ha) & (Hj & Hc & Hb) & ->).
    exists i, r, a, j, c, b. split; [done|]. split; [done|]. split; [done|].
    intros k Hk. by apply Hitem.
  - intros i r a j c b i' r' a' j' c' b' (Hi & Hr & Ha) H2 (Hi' & Hr' & Ha') H4.
    apply test_flat_inj; try done; lia.
Qed.

(** X5 on the tiles of the sample data set. *)
Lemma test_grid_four_points_per_training_point_witness :
  ∃ g, ds_test_grid sample_tiles_x = Ok g ∧ n_test g = 4 * 16384.
Proof.
  destruct (test_grid_four_points_per_training_point 8 8 sample_tiles_x
              eq_refl ltac:(lia) ltac:(lia))
    as (g & Hg & Hn & _).
  exists g. split; [exact Hg | exact Hn].
Defined.

(** X6: with a single longitude tile selected (Num_Tiles = 1, or a
    selection cut to the last longitude tile of the data) the test grid
    cell raises IndexError at its first line, dlat = tiles_x[0,0,0,0,0] -
    tiles_x[0,0,1,0,0], whatever use_cuda is and before any library call;
    with two or more it succeeds. *)
Theorem test_grid_needs_two_longitude_tiles {Lib obj}
    (oracle : ∀ T, list setting → call (obj:=obj) T → Lib → result (T * Lib))
    (use_cuda : bool) (ni nj : Z) (tiles : ndarray) (w : world) :
  shape tiles = [ni; 16; nj; 16; 2] → 1 <= ni → 1 <= nj →
  (nj = 1 →
     cell_ds_test_grid oracle use_cuda tiles w
     = (Raise IndexError, log (EvRaise IndexError) w))
  ∧ (is_Ok (ds_test_grid tiles) = true ↔ 2 <= nj).
Proof.
  intros Hs Hni Hnj.
  assert (nj = 1 → ds_test_grid tiles = Raise IndexError) as Hone.
  { intros ->. unfold ds_test_grid, dlat_of, getitem. rewrite Hs.
    cbn [plan mbind result_bind fmap list_fmap].
    rewrite !(norm_int_inside ni 0) by lia.
    rewrite (norm_int_outside 1 1) by lia. reflexivity. }
  split.
  - intros H1. unfold cell_ds_test_grid. by rewrite (Hone H1).
  - split.
    + intros Hok. destruct (decide (nj = 1)) as [H1|]; [|lia].
      by rewrite (Hone H1) in Hok.
    + intros H2. by destruct (ds_test_grid_rect ni nj tiles Hs Hni H2) as (g & -> & _).
Qed.

(** X6 on an array of three latitude tiles and one longitude tile. *)
Lemma test_grid_needs_two_longitude_tiles_witness :
  is_Ok (ds_test_grid (zeros [3; 16; 1; 16; 2])) = false.
Proof.
  destruct (test_grid_needs_two_longitude_tiles demo_oracle false 3 1
              (zeros [3; 16; 1; 16; 2]) (start sample_files demo_lib)
              eq_refl ltac:(lia) ltac:(lia)) as [_ Hiff].
  destruct (is_Ok (ds_test_grid (zeros [3; 16; 1; 16; 2]))); [|reflexivity].
  pose proof (proj1 Hiff eq_refl). lia.
Defined.

(** ** Downscaling: the plot *)

(** X7: the extent of the two images.  The negative indices of long1 =
    tiles_x[0,0,-1,-1,1] and lat0 = tiles_x[-1,-1,0,0,0] read the last
    column of the last longitude tile and the last row of the last latitude
    tile: on data of the files' layout the extent is (longitude of the first
    point, longitude of the last column, latitude of the last row, latitude
    of the first point) of the selected square, all four read on the first
    row or first column of the square. *)
Theorem plot_extent_corners (num_tiles : Z) (input_data_all output_data_all : ndarray)
    (D A B : Z) :
  shape input_data_all = [D; A; B; 16; 16; 2] →
  shape output_data_all = [D; A; B; 16; 16] →
  Day_Number < D → 0 < num_tiles →
  Start_Lat + num_tiles <= A → Start_Long + num_tiles <= B →
  ∃ d long0 long1 lat0 lat1,
    ds_prep num_tiles input_data_all output_data_all = Ok d
    ∧ plot_extent (tiles_x d) = Ok (long0, long1, lat0, lat1)
    ∧ (shape long0 = [] ∧ shape long1 = [] ∧ shape lat0 = [] ∧ shape lat1 = [])
    ∧ item long0 [] = item input_data_all [Day_Number; Start_Lat; Start_Long; 0; 0; 1]
    ∧ item long1 []
      = item input_data_all [Day_Number; Start_Lat; Start_Long + num_tiles - 1; 0; 15; 1]
    ∧ item lat0 []
      = item input_data_all [Day_Number; Start_Lat + num_tiles - 1; Start_Long; 15; 0; 0]
    ∧ item lat1 [] = item input_data_all [Day_Number; Start_Lat; Start_Long; 0; 0; 0].
Proof.
  intros Hin Hout HD Hnt HA HB.
  destruct (ds_prep_spec num_tiles input_data_all output_data_all D A B
              Hin Hout HD Hnt HA HB)
    as (d & Hd & Htx & _ & _ & _ & Hitem & _).
  exists d. unfold plot_extent, getitem. rewrite Htx.
  cbn [plan mbind result_bind fmap list_fmap].
  rewrite !norm_int_inside, !norm_int_last by lia.
  cbn [mbind result_bind sel_shape sel_index].
  do 4 eexists. split; [done|]. split; [reflexivity|].
  cbn [shape item sel_index]. split; [done|].
  change (if 1 <? 0 then 1 + 2 else 1) with 1. rewrite !Hitem.
  replace (Start_Lat + 0) with Start_Lat by lia.
  replace (Start_Long + 0) with Start_Long by lia.
  replace (Start_Long + (num_tiles - 1)) with (Start_Long + num_tiles - 1) by lia.
  replace (Start_Lat + (num_tiles - 1)) with (Start_Lat + num_tiles - 1) by lia.
  replace (16 - 1) with 15 by lia. done.
Qed.

(** X7 on the sample data set: the square of 8 by 8 tiles spans the
    longitudes 224 to 351 and the latitudes 309 to 436. *)
Lemma plot_extent_corners_witness :
  ∃ d long0 long1 lat0 lat1,
    ds_prep Num_Tiles sample_input sample_output = Ok d
    ∧ plot_extent (tiles_x d) = Ok (long0, long1, lat0, lat1)
    ∧ item long0 [] = float_of_Z 224 ∧ item long1 [] = float_of_Z 351
    ∧ item lat0 [] = float_of_Z 309 ∧ item lat1 [] = float_of_Z 436.
Proof.
  destruct (plot_extent_corners Num_Tiles sample_input sample_output 365 18 39
              eq_refl eq_refl eq_refl eq_refl ltac:(discriminate) ltac:(discriminate))
    as (d & long0 & long1 & lat0 & lat1 & Hd & He & _ & H0 & H1 & H2 & H3).
  exists d, long0, long1, lat0, lat1.
  split; [exact Hd|]. split; [exact He|].
  rewrite H0, H1, H2, H3. repeat split; reflexivity.
Defined.

(** X8: the two images are the transposes of the tilings.  reshape((odim,
    odim)) alone puts tile (i, j), point (r, c) at row 16i + r and column
    16j + c; after .T the first image index runs along the longitude tiles
    and columns and the second along the latitude tiles and rows.  The
    downscaled image is laid out in the same way with 2 by 2 test points
    in place of each training point, so pixel (p, q) of the original image
    corresponds to the pixels (2p + b, 2q + a) of the downscaled one. *)
Theorem images_are_transposed_tilings (num_tiles : Z)
    (input_data_all output_data_all : ndarray) (D A B : Z) :
  shape input_data_all = [D; A; B; 16; 16; 2] →
  shape output_data_all = [D; A; B; 16; 16] →
  Day_Number < D → 0 < num_tiles →
  Start_Lat + num_tiles <= A → Start_Long + num_tiles <= B →
  ∃ d orig,
    ds_prep num_tiles input_data_all output_data_all = Ok d
    ∧ orig_SVDI num_tiles (train_y d) = Ok orig
    ∧ shape orig = [odim num_tiles; odim num_tiles]
    ∧ (∀ i j r c, 0 <= i < num_tiles → 0 <= j < num_tiles → 0 <= r < 16 → 0 <= c < 16 →
         item orig [16 * j + c; 16 * i + r]
         = item output_data_all [Day_Number; Start_Lat + i; Start_Long + j; r; c])
    ∧ ∀ preds_mean, shape preds_mean = [ddim num_tiles * ddim num_tiles] →
        ∃ downscaled,
          downscaled_SVDI num_tiles preds_mean = Ok downscaled
          ∧ shape downscaled = [ddim num_tiles; ddim num_tiles]
          ∧ ∀ i r a j c b,
              item downscaled [2 * (16 * j + c) + b; 2 * (16 * i + r) + a]
              = item preds_mean [test_flat num_tiles i r a j c b].
Proof.
  intros Hin Hout HD Hnt HA HB.
  destruct (ds_prep_spec num_tiles input_data_all output_data_all D A B
              Hin Hout HD Hnt HA HB)
    as (d & Hd & _ & _ & _ & Hy & _ & _ & Hiy).
  assert (∃ orig, orig_SVDI num_tiles (train_y d) = Ok orig) as [orig Ho].
  { unfold orig_SVDI, numpy, odim. rewrite reshape_exact; [by eexists | nonneg_shape |].
    unfold asize. rewrite Hy. cbn. lia. }
  exists d, orig. split; [done|]. split; [done|].
  destruct (reshape_square_T _ _ _ _ Hy Ho) as [Hso Hio]. split; [done|]. split.
  - intros i j r c Hi Hj Hr Hc. rewrite Hio, <- Hiy by done.
    f_equal. f_equal. unfold ds_flat, odim. lia.
  - intros preds_mean Hp.
    assert (∃ img, downscaled_SVDI num_tiles preds_mean = Ok img) as [img Himg].
    { unfold downscaled_SVDI, numpy, ddim, odim.
      rewrite reshape_exact; [by eexists | nonneg_shape |].
      unfold asize. rewrite Hp. unfold ddim, odim. cbn. lia. }
    exists img. split; [done|].
    destruct (reshape_square_T _ _ _ _ Hp Himg) as [Hsi Hii]. split; [done|].
    intros i r a j c b. rewrite Hii. f_equal. f_equal.
    unfold test_flat, ddim, odim. lia.
Qed.

(** X8 on the sample data set: the field of tile (3, 2), point (5, 7) is at
    index (16*2 + 7, 16*3 + 5) of the image. *)
Lemma images_are_transposed_tilings_witness :
  ∃ d orig,
    ds_prep Num_Tiles sample_input sample_output = Ok d
    ∧ orig_SVDI Num_Tiles (train_y d) = Ok orig
    ∧ item orig [16 * 2 + 7; 16 * 3 + 5]
      = item sample_output [Day_Number; Start_Lat + 3; Start_Long + 2; 5; 7].
Proof.
  destruct (images_are_transposed_tilings Num_Tiles sample_input sample_output 365 18 39
              eq_refl eq_refl eq_refl eq_refl ltac:(discriminate) ltac:(discriminate))
    as (d & orig & Hd & Ho & _ & Hi & _).
  exists d, orig. split; [exact Hd|]. split; [exact Ho|].
  apply (Hi 3 2 5 7); unfold Num_Tiles; lia.
Defined.

(** ** Time series: what slicing does when the data is short *)

(** X9: the day slice of the time series never fails and is cut to the
    data: on an output array of D days that has the tile and the point,
    train_y has min(D, Start_Day + N_Train) - Start_Day elements (none when
    D <= Start_Day), while train_x always has N_Train rows; the two have
    the same length exactly when the data has Start_Day + N_Train days.
    The same holds for test_y and test_x with Test_Days. *)
Theorem time_series_slices_are_cut_to_the_data (output_data_all : ndarray)
    (D A B R C : Z) :
  shape output_data_all = [D; A; B; R; C] → 0 <= D →
  long < A → lat < B → point.1 < R → point.2 < C →
  ∃ train_x train_y test_x test_y,
    ts_train_x = Ok train_x ∧ ts_train_y output_data_all = Ok train_y
    ∧ ts_test_x = Ok test_x ∧ ts_test_y output_data_all = Ok test_y
    ∧ shape train_x = [N_Train; 1]
    ∧ shape train_y = [Z.max 0 (Z.min D (Start_Day + N_Train) - Start_Day)]
    ∧ shape test_x = [Test_Days; 1]
    ∧ shape test_y = [Z.max 0 (Z.min D (Start_Test + Test_Days) - Start_Test)]
    ∧ (shape train_y = [N_Train] ↔ Start_Day + N_Train <= D)
    ∧ (shape test_y = [Test_Days] ↔ Start_Test + Test_Days <= D)
    ∧ (∀ k, 0 <= k → Start_Day + k < D →
         item train_y [k] = item output_data_all [Start_Day + k; long; lat; point.1; point.2]
         ∧ item test_y [k] = item train_y [k]).
Proof.
  intros Hs HD HA HB HR HC.
  destruct (time_axis_spec Start_Day N_Train) as (x & Hx & Hxs & _); [done|].
  destruct (time_axis_spec Start_Test Test_Days) as (x' & Hx' & Hxs' & _); [done|].
  exists x, (Tensor (NDArray [Z.max 0 (Z.min D (Start_Day + N_Train) - Start_Day)]
               (λ idx, item output_data_all
                  (sel_index [Range (Z.min D Start_Day)
                                (Z.min D (Start_Day + N_Train) - Z.min D Start_Day);
                              Pick long; Pick lat; Pick point.1; Pick point.2] idx)))),
    x',
    (Tensor (NDArray [Z.max 0 (Z.min D (Start_Test + Test_Days) - Start_Test)]
               (λ idx, item output_data_all
                  (sel_index [Range (Z.min D Start_Test)
                                (Z.min D (Start_Test + Test_Days) - Z.min D Start_Test);
                              Pick long; Pick lat; Pick point.1; Pick point.2] idx)))).
  assert (∀ start n, 0 <= start → 0 <= n →
            Tensor <$> getitem output_data_all (ts_index start n)
            = Ok (NDArray [Z.min D (start + n) - Z.min D start]
                    (λ idx, item output_data_all
                       (sel_index [Range (Z.min D start)
                                     (Z.min D (start + n) - Z.min D start);
                                   Pick long; Pick lat; Pick point.1; Pick point.2] idx))))
    as Hget.
  { intros start n Hst Hn. unfold getitem, ts_index. rewrite Hs.
    unfold long, lat, point in *. cbn [fst snd] in *.
    cbn [plan mbind result_bind fmap list_fmap].
    rewrite !norm_int_inside by lia. rewrite norm_slice_clip by lia.
    reflexivity. }
  unfold Tensor in *.
  split; [done|]. split.
  { unfold ts_train_y, Tensor. rewrite (Hget Start_Day N_Train) by done.
    unfold Start_Day, N_Train. do 2 f_equal. f_equal. lia. }
  split; [done|]. split.
  { unfold ts_test_y, Tensor. rewrite (Hget Start_Test Test_Days) by done.
    unfold Start_Test, Test_Days, Start_Day, N_Train. do 2 f_equal. f_equal. lia. }
  cbn [shape item sel_index hd tl].
  split; [done|]. split; [done|]. split; [done|]. split; [done|].
  unfold Start_Test, Test_Days, Start_Day, N_Train.
  split; [split; [intros [= H]; lia | intros H; f_equal; lia]|].
  split; [split; [intros [= H]; lia | intros H; f_equal; lia]|].
  intros k Hk HkD. rewrite !Z.min_r by lia. done.
Qed.

(** X9 on 100 days of the sample field: 90 training targets for 120
    training inputs. *)
Lemma time_series_slices_are_cut_to_the_data_witness :
  ∃ train_x train_y,
    ts_train_x = Ok train_x
    ∧ ts_train_y (NDArray [100; 18; 39; 16; 16] sample_field) = Ok train_y
    ∧ shape train_x = [120; 1] ∧ shape train_y = [90].
Proof.
  destruct (time_series_slices_are_cut_to_the_data
              (NDArray [100; 18; 39; 16; 16] sample_field) 100 18 39 16 16
              eq_refl ltac:(discriminate) eq_refl eq_refl eq_refl eq_refl)
    as (x & y & x' & y' & Hx & Hy & _ & _ & Hxs & Hys & _).
  exists x, y. split; [exact Hx|]. split; [exact Hy|]. split; [exact Hxs | exact Hys].
Defined.


(** ** The settings of the library calls *)

Section Settings.
Context {Lib obj : Type} `{!Inhabited obj}.
Variable oracle : ∀ T, list setting → call (obj:=obj) T → Lib → result (T * Lib).

Set Default Proof Using "Type*".

(** X10: the [with] blocks of the two prediction cells.  In every
    execution the settings are restored at the end, also when a call inside
    a block raised, and every library call is made under the settings of
    its cell: the training loops, the construction of the models and the
    figures outside every block, the likelihood of a prediction under
    [torch.no_grad()] only, the variance under both settings, and nothing
    under [fast_pred_var] without [no_grad].  A complete execution contains
    the two prediction cells, each after the training of its model: there
    the model is applied to the test inputs, with the calls that [forward]
    makes inside it, under [torch.no_grad()], in the downscaling together
    with [gpytorch.settings.fast_pred_var()], and so is the likelihood
    that is applied to the result. *)
Theorem predictions_run_under_no_grad (fs : gmap string ndarray) (l : Lib) :
  let r := notebook oracle (start fs l) in
  settings r.2 = []
  ∧ Forall settings_ok (trace r.2)
  ∧ (r.1 = Ok tt →
     ∃ x1 y1 d x2 lik1 model1 lik2 model2 preds_mean preds_var
       t1 t_predict1 t2 t_predict2 t3,
       ts_test_x = Ok x1 ∧ ts_test_y (fs !!! path_output) = Ok y1
       ∧ ds_prep Num_Tiles (fs !!! path_input) (fs !!! path_output) = Ok d
       ∧ test_x <$> ds_test_grid (tiles_x d) = Ok x2
       ∧ trace r.2 = t1 ++ t_predict1 ++ t2 ++ t_predict2 ++ t3
       ∧ ts_predict_trace [] lik1 model1 x1 y1 t_predict1
       ∧ ds_predict_trace [] lik2 model2 x2 preds_mean preds_var t_predict2).
Proof.
  cbn zeta.
  destruct (notebook_run oracle fs l) as (_ & Hs & t0 & Ht & HP & _).
  split; [exact Hs|]. split.
  { rewrite Ht. apply Forall_app. split.
    - eapply Forall_impl; [exact HP|]. by intros e (_ & He & _).
    - destruct ((notebook oracle (start fs l)).1); by repeat constructor. }
  intros Hok.
  destruct (notebook_complete oracle fs l Hok)
    as (inp & out & Hin & Hout & (x & y & tx & ty & Hx & Hy & Htx & Hty)
        & (d & g & Hd & Hg) & (tl & tts & tds & _ & Hts & Hds & Hn)).
  rewrite !lookup_total_alt, Hin, Hout. cbn [default].
  destruct Hts as (lik1 & model1 & tm1 & tt1 & tp1 & Hm1 & Ht1 & Hp1 & ->).
  destruct Hds as (lik2 & model2 & v & gx & pm & pv & td & tm2 & tt2 & tg & tp2 & tpl
                   & Htd & Hm2 & Ht2 & Hg2 & Hp2 & Hpl & ->).
  rewrite (ds_data_of_ok _ _ _ _ Hd) in *.
  destruct Hg2 as (-> & Hg2). rewrite Hg in *. rewrite Htx, Hty in Hp1. cbn [get] in *.
  exists tx, ty, d, (test_x g), lik1, model1, (tr_likelihood v), (tr_model v), pm, pv,
    ([EvCall set_default_dtype_float64 tt []] ++ tl ++ tm1 ++ tt1), tp1,
    (td ++ tm2 ++ tt2 ++ tg), tp2, tpl.
  split; [done|]. split; [done|]. split; [done|]. split; [by rewrite Hg|].
  split; [|split; [exact Hp1 | exact Hp2]].
  rewrite Hn. by rewrite <- !app_assoc.
Qed.

End Settings.

(** X10 against the stand-in library. *)
Lemma predictions_run_under_no_grad_witness :
  Forall settings_ok (trace (notebook demo_oracle (start sample_files demo_lib)).2)
  ∧ ∃ x1, ts_test_x = Ok x1.
Proof.
  destruct (predictions_run_under_no_grad demo_oracle sample_files demo_lib)
    as (_ & H & Hc).
  split; [exact H|].
  destruct Hc as (x1 & _ & _ & _ & _ & _ & _ & _ & _ & _ & _ & _ & _ & _ & _ & Hx & _).
  - by vm_compute.
  - by exists x1.
Defined.

(** ** Missing files and device placement *)

Section MoreExecFacts.
Context {Lib obj : Type}.
Variable oracle : ∀ T, list setting → call (obj:=obj) T → Lib → result (T * Lib).

Implicit Types (w : world (Lib:=Lib) (obj:=obj)).

(** X11: a missing data file stops the notebook at the load cell.  When the
    dtype setting has returned, the execution raises FileNotFoundError for
    the first of the two paths that is missing, right after the attempt to
    read it; nothing has been printed and the libraries have not been
    called again. *)
Theorem missing_file_stops_at_the_load_cell (fs : gmap string ndarray) (l l' : Lib) :
  oracle unit [] set_default_dtype_float64 l = Ok (tt, l') →
  (fs !! path_input = None →
     notebook oracle (start fs l)
     = (Raise (FileNotFoundError path_input),
        World fs l' [] [EvCall set_default_dtype_float64 tt []; EvRead path_input;
                        EvRaise (FileNotFoundError path_input)]))
  ∧ (∀ input_data_all, fs !! path_input = Some input_data_all →
     fs !! path_output = None →
     notebook oracle (start fs l)
     = (Raise (FileNotFoundError path_output),
        World fs l' [] [EvCall set_default_dtype_float64 tt []; EvRead path_input;
                        EvRead path_output; EvRaise (FileNotFoundError path_output)])).
Proof.
  intros Hdtype. split.
  - intros Hin. unfold notebook, cell_imports, cell_load, mbind, M_bind, ext, np_load.
    cbn. rewrite Hdtype. cbn. rewrite Hin. reflexivity.
  - intros a Hin Hout.
    unfold notebook, cell_imports, cell_load, mbind, M_bind, ext, np_load.
    cbn. rewrite Hdtype. cbn. rewrite Hin. cbn. rewrite Hout. reflexivity.
Qed.

Lemma parameters_trace_device s model attr t :
  parameters_trace (obj:=obj) s model attr t → device_events t = [].
Proof. by intros (? & ? & ? & ? & ->). Qed.

Lemma train_trace_device s N optimizer model mll x y t :
  train_trace (obj:=obj) s N optimizer model mll x y t → device_events t = [].
Proof. intros H. by apply train_trace_events, device_events_none in H. Qed.

Lemma model_trace_device s model x d t :
  model_trace (obj:=obj) s model x d t → device_events t = [].
Proof. intros H. by apply model_trace_events, device_events_model in H. Qed.

Lemma ts_trace_device s N out t : ts_trace (obj:=obj) s N out t → device_events t = [].
Proof.
  intros (lik & model & tm & tt & tp & (? & ? & ? & ->)
          & (? & ? & ? & tl & tq & Hl & Hq & ->)
          & (? & ? & tmod & ? & ? & ? & ? & ? & Hmod & ->) & ->).
  rewrite !device_events_app, (train_trace_device _ _ _ _ _ _ _ _ Hl),
    (parameters_trace_device _ _ _ _ Hq), (model_trace_device _ _ _ _ _ Hmod).
  reflexivity.
Qed.

Context `{!Inhabited obj}.

(** X12: device placement follows torch.cuda.is_available().  A complete
    execution contains the cells of the downscaling in their order: the
    model built on the flattened tiles, the training cell, the test grid,
    the prediction and the plot.  The training cell asks
    torch.cuda.is_available(); when the answer is true it moves the model
    and the likelihood just built and then train_x and train_y to the
    device, trains the moved model, and the test grid is moved before the
    prediction; when it is false nothing is moved and the model and the
    likelihood stay the ones that were built.  In both cases the predictive
    mean and the training targets are brought back with .cpu() for the
    plot, and these are all the device placements of the execution. *)
Theorem device_placement_follows_use_cuda (fs : gmap string ndarray) (l : Lib) :
  let r := notebook oracle (start fs l) in
  r.1 = Ok tt →
  ∃ input_data_all output_data_all d x likelihood model v preds_mean preds_var
    t0 t_model t_train t_grid t_predict t_plot,
    fs !! path_input = Some input_data_all
    ∧ fs !! path_output = Some output_data_all
    ∧ ds_prep Num_Tiles input_data_all output_data_all = Ok d
    ∧ test_x <$> ds_test_grid (tiles_x d) = Ok x
    ∧ trace r.2 = t0 ++ t_model ++ t_train ++ t_grid ++ t_predict ++ t_plot
    ∧ ds_model_trace [] (train_x d) (train_y d) likelihood model t_model
    ∧ ds_train_trace [] 81 likelihood model (train_x d) (train_y d) v t_train
    ∧ ds_grid_trace [] (use_cuda v) (tiles_x d) x t_grid
    ∧ ds_predict_trace [] (tr_likelihood v) (tr_model v) x preds_mean preds_var t_predict
    ∧ ds_plot_trace [] Num_Tiles preds_mean (train_y d) (tiles_x d) t_plot
    ∧ device_events (trace r.2)
      = (if use_cuda v
         then [EvCall (module_cuda model) (tr_model v) [];
               EvCall (module_cuda likelihood) (tr_likelihood v) [];
               EvCall (tensor_cuda (train_x d)) tt [];
               EvCall (tensor_cuda (train_y d)) tt [];
               EvCall (tensor_cuda x) tt []]
         else [])
        ++ [EvCall (tensor_cpu preds_mean) tt [];
            EvCall (tensor_cpu (train_y d)) tt []].
Proof using Type*.
  intros r Hok. subst r.
  destruct (notebook_complete oracle fs l Hok)
    as (inp & out & Hin & Hout & _ & (d & g & Hd & Hg)
        & (tl & tts & tds & -> & Hts & Hds & Hn)).
  destruct Hds as (lik & model & v & gx & pm & pv & td & tm & ttr & tg & tp & tpl
                   & Htd & Hm & Ht & Hg2 & Hp & Hpl & ->).
  rewrite (ds_data_of_ok _ _ _ _ Hd) in *.
  pose proof Hg2 as (Hgx & Htg). rewrite Hg in Hgx. cbn [get] in Hgx. subst gx.
  pose proof Ht as (tc & ? & ? & ? & tlo & tq & (Hvx & Hvy & Hc) & Hl & Hq & Htt).
  rewrite Hvy in Hpl.
  exists inp, out, d, (test_x g), lik, model, v, pm, pv,
    ([EvCall set_default_dtype_float64 tt []]
     ++ [EvRead path_input; EvRead path_output; EvPrint (PShapes (shape inp) (shape out))]
     ++ tts ++ td),
    tm, ttr, tg, tp, tpl.
  split; [done|]. split; [done|]. split; [done|]. split; [by rewrite Hg|].
  split; [rewrite Hn; by rewrite <- !app_assoc|].
  split; [exact Hm|]. split; [exact Ht|]. split; [exact Hg2|]. split; [exact Hp|].
  split; [exact Hpl|].
  rewrite Hn, !device_events_app, (ts_trace_device _ _ _ _ Hts).
  rewrite Htd. destruct Hm as (? & ? & ? & ? & ? & ->).
  rewrite Htt, !device_events_app, (train_trace_device _ _ _ _ _ _ _ _ Hl),
    (parameters_trace_device _ _ _ _ Hq).
  destruct Hp as (? & ? & tmod & Hmod & ->).
  rewrite !device_events_app, (model_trace_device _ _ _ _ _ Hmod).
  destruct Hpl as (? & ? & ? & ? & ? & ->). rewrite Htg.
  destruct (use_cuda v); [subst tc | destruct Hc as (-> & _)]; reflexivity.
Qed.

End MoreExecFacts.

(** X11 with no file on disk. *)
Lemma missing_file_stops_at_the_load_cell_witness :
  (notebook demo_oracle (start ∅ demo_lib)).1 = Raise (FileNotFoundError path_input).
Proof.
  destruct (missing_file_stops_at_the_load_cell demo_oracle ∅ demo_lib
              (demo_next (set_default_dtype_float64 (obj:=unit)) demo_lib) eq_refl)
    as [H _].
  rewrite H; reflexivity.
Defined.

(** X12 against the stand-in library, which has no CUDA device. *)
Lemma device_placement_follows_use_cuda_witness :
  ∃ d x,
    ds_prep Num_Tiles sample_input sample_output = Ok d
    ∧ test_x <$> ds_test_grid (tiles_x d) = Ok x.
Proof.
  destruct (device_placement_follows_use_cuda demo_oracle sample_files demo_lib)
    as (inp & out & d & x & lik & model & v & pm & pv & t0 & tm & tt & tg & tp & tpl
        & Hin & Hout & Hd & Hx & _).
  - by vm_compute.
  - assert (Some inp = Some sample_input) as [= ->] by (rewrite <- Hin; reflexivity).
    assert (Some out = Some sample_output) as [= ->] by (rewrite <- Hout; reflexivity).
    exists d, x. split; [exact Hd | exact Hx].
Defined.

(** ** The arrays handed to the libraries *)

Section DataFlow.
Context {Lib obj : Type}.
Variable oracle : ∀ T, list setting → call (obj:=obj) T → Lib → result (T * Lib).

Implicit Types (w : world (Lib:=Lib) (obj:=obj)) (s : list setting).
Implicit Types (fs : gmap string ndarray).

(** The events of a run all satisfy what the judgement says of them: the
    exception that ends a run is no library call. *)
Lemma feeds_calls {A} fs s (m : M A) (P : ∀ T, call (obj:=obj) T → Prop) (Q : A → Prop) w :
  feeds (Lib:=Lib) fs s m (event_ok P) Q → files w = fs → settings w = s →
  ∃ t, trace (m w).2 = trace w ++ t ∧ Forall (event_ok P) t.
Proof.
  intros H Hfs Hs. destruct (feeds_run fs s m _ _ w H Hfs Hs) as (_ & _ & t0 & Ht & HP & _).
  eexists. split; [exact Ht|]. apply Forall_app. split; [exact HP|].
  destruct ((m w).1); by repeat constructor.
Qed.

Section Fed.
Variables is_train_x is_train_y is_test_x : ndarray → Prop.

Lemma model_fed fs s self x :
  is_train_x x ∨ is_test_x x →
  feeds fs s (GPRegressionModel_call oracle self x)
    (event_ok (fed is_train_x is_train_y is_test_x)) (λ _, True).
Proof. intros Hx. apply model_feeds; intros; fed_ok. Qed.

Lemma train_fed fs s n optimizer model mll x y :
  is_train_x x → is_train_y y →
  feeds fs s (train oracle n optimizer model mll x y)
    (event_ok (fed is_train_x is_train_y is_test_x)) (λ _, True).
Proof.
  intros Hx Hy. apply feeds_for_each. intros i. unfold train_iteration.
  feeds_step. feeds_then model_fed; [by left|].
  do 2 feeds_step.
  apply (feeds_bind _ _ _ _ _ (λ _, True)); [|intros _ _; feeds_all].
  destruct (i mod 10 =? 0)%nat; feeds_all.
Qed.

Lemma print_parameters_fed fs s model attr :
  feeds fs s (print_parameters oracle model attr)
    (event_ok (fed is_train_x is_train_y is_test_x)) (λ _, True).
Proof. unfold print_parameters. feeds_all. Qed.

Lemma cell_ts_model_fed fs s x y :
  is_train_x x → is_train_y y →
  feeds fs s (cell_ts_model oracle x y)
    (event_ok (fed is_train_x is_train_y is_test_x)) (λ _, True).
Proof. intros Hx Hy. unfold cell_ts_model, GPRegressionModel_init. feeds_all. Qed.

Lemma cell_ts_train_fed fs s lik model x y :
  is_train_x x → is_train_y y →
  feeds fs s (cell_ts_train oracle lik model x y)
    (event_ok (fed is_train_x is_train_y is_test_x)) (λ _, True).
Proof.
  intros Hx Hy. unfold cell_ts_train. feeds_all.
  feeds_then train_fed; [done..|]. apply print_parameters_fed.
Qed.

Lemma cell_ds_model_fed fs s x y :
  is_train_x x → is_train_y y →
  feeds fs s (cell_ds_model oracle x y)
    (event_ok (fed is_train_x is_train_y is_test_x)) (λ _, True).
Proof. intros Hx Hy. unfold cell_ds_model, GPRegressionModel_kiss_init. feeds_all. Qed.

Lemma ds_train_with_fed fs s b lik model x y :
  is_train_x x → is_train_y y →
  feeds fs s (ds_train_with oracle b lik model x y)
    (event_ok (fed is_train_x is_train_y is_test_x))
    (λ v, use_cuda v = b ∧ tr_train_x v = x ∧ tr_train_y v = y).
Proof.
  intros Hx Hy. unfold ds_train_with.
  apply (feeds_bind _ _ _ _ _ (λ v, use_cuda v = b ∧ tr_train_x v = x ∧ tr_train_y v = y)).
  - destruct b; [|by apply feeds_ret]. unfold Tensor_cuda. feeds_all.
    by apply feeds_ret.
  - intros v (Hb & Hvx & Hvy). rewrite Hvx, Hvy. feeds_all.
    feeds_then train_fed; [done..|]. feeds_then print_parameters_fed.
    by apply feeds_ret.
Qed.

Lemma cell_ds_train_fed fs s lik model x y :
  is_train_x x → is_train_y y →
  feeds fs s (cell_ds_train oracle lik model x y)
    (event_ok (fed is_train_x is_train_y is_test_x))
    (λ v, tr_train_x v = x ∧ tr_train_y v = y).
Proof.
  intros Hx Hy. unfold cell_ds_train.
  apply (feeds_bind _ _ _ _ _ (λ _, True)); [by apply feeds_ext|]. intros b _.
  eapply feeds_weaken; [by apply ds_train_with_fed|]. by intros v (_ & ? & ?).
Qed.

Lemma cell_ds_predict_fed fs s lik model x :
  is_test_x x →
  feeds fs s (cell_ds_predict oracle lik model x)
    (event_ok (fed is_train_x is_train_y is_test_x)) (λ _, True).
Proof.
  intros Hx. unfold cell_ds_predict. feeds_all.
  feeds_then model_fed; [by right|]. feeds_all.
Qed.

Lemma cell_ds_plot_fed fs s nt mean y tiles :
  feeds fs s (cell_ds_plot oracle nt mean y tiles)
    (event_ok (fed is_train_x is_train_y is_test_x)) (λ _, True).
Proof. unfold cell_ds_plot, Tensor_cpu. feeds_all. Qed.

End Fed.

Lemma cell_ts_predict_fed fs s out lik model :
  feeds fs s (cell_ts_predict oracle out lik model)
    (event_ok (fed (λ x, ts_train_x = Ok x) (λ y, ts_train_y out = Ok y)
                   (λ x, ts_test_x = Ok x)))
    (λ _, True).
Proof.
  unfold cell_ts_predict, numpy. feeds_all.
  feeds_then model_fed; [by right|]. feeds_all.
Qed.

Lemma time_series_fed fs s out :
  feeds fs s (time_series oracle out)
    (event_ok (fed (λ x, ts_train_x = Ok x) (λ y, ts_train_y out = Ok y)
                   (λ x, ts_test_x = Ok x)))
    (λ _, True).
Proof.
  unfold time_series, cell_ts_data. feeds_all.
  feeds_then cell_ts_model_fed; [done..|]. destruct a1 as [lik model].
  feeds_then cell_ts_train_fed; [done..|]. apply cell_ts_predict_fed.
Qed.

Lemma cell_ds_test_grid_fed fs s b tiles is_train_x is_train_y :
  feeds fs s (cell_ds_test_grid oracle b tiles)
    (event_ok (fed is_train_x is_train_y (λ x, test_x <$> ds_test_grid tiles = Ok x)))
    (λ x, test_x <$> ds_test_grid tiles = Ok x).
Proof.
  unfold cell_ds_test_grid.
  apply (feeds_bind _ _ _ _ _ (λ g, ds_test_grid tiles = Ok g)); [by apply feeds_lift|].
  intros g Hg.
  assert (test_x <$> ds_test_grid tiles = Ok (test_x g)) as Hx by (by rewrite Hg).
  destruct b; [|by apply feeds_ret]. unfold Tensor_cuda. feeds_all. by apply feeds_ret.
Qed.

Lemma cell_ds_data_fed fs s nt inp out (P : ∀ T, call (obj:=obj) T → Prop) :
  feeds (Lib:=Lib) fs s (cell_ds_data nt inp out) (event_ok P)
    (λ d, ds_prep nt inp out = Ok d).
Proof.
  apply (feeds_result _ _ _ _ (λ _, True)).
  - unfold cell_ds_data. feeds_all.
  - intros w d. by rewrite cell_ds_data_result.
Qed.

Lemma downscaling_fed fs s nt inp out d :
  ds_prep nt inp out = Ok d →
  feeds fs s (downscaling oracle nt inp out)
    (event_ok (fed (λ x, x = train_x d) (λ y, y = train_y d)
                   (λ x, test_x <$> ds_test_grid (tiles_x d) = Ok x)))
    (λ _, True).
Proof.
  intros Hd. unfold downscaling.
  apply (feeds_bind _ _ _ _ _ (λ d', ds_prep nt inp out = Ok d'));
    [apply cell_ds_data_fed|].
  intros d' Hd'. assert (d' = d) as -> by congruence.
  feeds_then cell_ds_model_fed; [done..|]. destruct a as [lik model].
  apply (feeds_bind _ _ _ _ _ (λ v, tr_train_x v = train_x d ∧ tr_train_y v = train_y d));
    [by apply cell_ds_train_fed|].
  intros v [Hx Hy].
  apply (feeds_bind _ _ _ _ _ (λ x, test_x <$> ds_test_grid (tiles_x d) = Ok x));
    [apply cell_ds_test_grid_fed|].
  intros x Hx'.
  feeds_then cell_ds_predict_fed; [done|]. destruct a as [mean var].
  apply cell_ds_plot_fed.
Qed.

(** X13: the libraries are handed the arrays that the notebook's array code
    computes, in every execution and whatever they return.  In the time
    series the model is built on (train_x, train_y), applied to train_x or
    test_x only, its loss is taken against train_y, and the curves are
    drawn over test_x.  In the downscaling, when the data preparation
    succeeds, the same holds with the flattened tiles and the test grid:
    the interpolation grid is sized for train_x with one dimension per
    column of it, and the tensors moved to the device are these arrays,
    unchanged; when the data preparation fails no library is called. *)
Theorem library_is_fed_the_prepared_arrays :
  (∀ output_data_all w,
     ∃ t, trace (time_series oracle output_data_all w).2 = trace w ++ t
        ∧ Forall (event_ok (fed (λ x, ts_train_x = Ok x)
                                (λ y, ts_train_y output_data_all = Ok y)
                                (λ x, ts_test_x = Ok x))) t)
  ∧ (∀ num_tiles input_data_all output_data_all w,
       ∃ t, trace (downscaling oracle num_tiles input_data_all output_data_all w).2
            = trace w ++ t
          ∧ match ds_prep num_tiles input_data_all output_data_all with
            | Ok d =>
                Forall (event_ok (fed (λ x, x = train_x d) (λ y, y = train_y d)
                                      (λ x, test_x <$> ds_test_grid (tiles_x d) = Ok x))) t
            | Raise e => Forall (event_ok (λ _ _, False)) t
            end).
Proof.
  split.
  - intros out w.
    apply (feeds_calls _ _ _ _ _ w (time_series_fed (files w) (settings w) out)); done.
  - intros nt inp out w.
    destruct (ds_prep nt inp out) as [d|e] eqn:Hd.
    + apply (feeds_calls _ _ _ _ _ w (downscaling_fed (files w) (settings w) nt inp out d Hd));
        done.
    + apply (feeds_calls (files w) (settings w) _ _ (λ _, True) w); [|done..].
      unfold downscaling.
      apply (feeds_bind _ _ _ _ _ (λ d', ds_prep nt inp out = Ok d'));
        [apply cell_ds_data_fed|].
      intros d' Hd'. congruence.
Qed.

(** X14: the plot cell of the downscaling.  Whatever the libraries do, the
    only tensors brought back from the device are preds_mean and train_y;
    no figure is created unless preds_mean.reshape((ddim, ddim)),
    train_y.reshape((odim, odim)) and the four corner reads have all
    succeeded; and every image drawn is orig_SVDI or downscaled_SVDI, both
    with the one extent read off tiles_x. *)
Theorem plot_cell_draws_the_two_images (num_tiles : Z)
    (preds_mean train_y tiles_x : ndarray) w :
  ∃ t, trace (cell_ds_plot oracle num_tiles preds_mean train_y tiles_x w).2 = trace w ++ t
     ∧ Forall (event_ok (plot_fed num_tiles preds_mean train_y tiles_x)) t.
Proof.
  apply (feeds_calls (files w) (settings w) _ _ (λ _, True) w); [|done..].
  unfold cell_ds_plot, Tensor_cpu. feeds_all.
  apply (feeds_bind _ _ _ _ _ (λ _, True)).
  { apply feeds_ext; [|done]. intros fig. cbn.
    repeat match goal with
           | H : ?r = Ok _ |- context [is_Ok ?r] => rewrite H
           end.
    done. }
  intros fig _. feeds_all.
Qed.

End DataFlow.
